(** * Failover decision and DNS synchronisation engine

    A shallow embedding of [uptime-kuma-cloudflare-failover.py]: the
    [ServiceState] dataclass, its JSON views ([asdict], [to_public], [load],
    [save]), the Cloudflare record cache ([load_dns_records]), the DNS
    synchroniser ([update_dns]), the decision engine ([_cooldown_ok],
    [decide_failover]) and the HTTP handlers that drive them
    ([webhook_server1], [webhook_server2], [api_switch], [api_freeze]).

    Conventions of the embedding.
    - Python [int] is [Z], [str] is [string] (the bytes of its UTF-8
      encoding: a character that is not ASCII shows as bytes of 128 and
      more), [Optional[str]] is [option string], a [dict] whose iteration
      order matters is an association list kept free of duplicate keys by
      [dict_set].
    - The process-wide globals ([app_state], [cached_records]), the state file
      and everything the process emits (log lines, registrar requests,
      Telegram messages) are the fields of one [World] that every operation
      threads through.
    - What the operating system and the network answer is an [Env] given to
      each call: the clock readings and the registrar's answer to each
      request.  A request may be answered, be answered with an HTTP error,
      or raise (timeout, connection error); an exception that no handler of
      the source catches propagates, and is the [Raised] result.  What
      [secrets.token_urlsafe] draws is an argument of [load].
    - Timestamps are microseconds since the epoch; [total_seconds() >= c] is
      compared exactly, as [elapsed >= c * 10^6].  Writes to the state file
      are taken to succeed.
    - Flask is the one the script installs unpinned (2.1 or later): reading
      [request.json] aborts with 415 when the body is not declared as JSON
      and with 400 when it does not decode.  [request.authorization] is
      [None] without a usable [Authorization] header and otherwise carries a
      [username] and a [password], each [None] when the header has none.
    - [secrets.compare_digest] on two [str] raises a [TypeError] when one
      of them holds a character that is not ASCII; no handler catches it,
      so the request ends in it. *)

From Stdlib Require Import ZArith List String Ascii Bool Lia DecimalString.
Import ListNotations.

Local Open Scope string_scope.
Local Open Scope Z_scope.

(** ** JSON values and Python dictionaries *)

(** A Python float as [json] decodes it: a finite rational, or one of
    [nan], [inf], [-inf]. *)
Inductive PyFloat : Type :=
| Finite (num : Z) (den : positive)
| NonFinite.

#[local] Unset Elimination Schemes.
Inductive Json : Type :=
| JNull
| JBool (b : bool)
| JInt (z : Z)
| JFloat (f : PyFloat)
| JStr (s : string)
| JArr (items : list Json)
| JObj (members : list (string * Json)).
#[local] Set Elimination Schemes.

(** [d.get(k)] *)
Fixpoint dict_get {V : Type} (k : string) (d : list (string * V)) : option V :=
  match d with
  | [] => None
  | (k', v) :: rest => if String.eqb k k' then Some v else dict_get k rest
  end.

(** [d[k] = v]: an existing key keeps its position, a new key goes last. *)
Fixpoint dict_set {V : Type} (k : string) (v : V) (d : list (string * V))
  : list (string * V) :=
  match d with
  | [] => [(k, v)]
  | (k', v') :: rest =>
      if String.eqb k k' then (k, v) :: rest else (k', v') :: dict_set k v rest
  end.

(** [d.pop(k, None)] *)
Fixpoint dict_pop {V : Type} (k : string) (d : list (string * V))
  : list (string * V) :=
  match d with
  | [] => []
  | (k', v') :: rest =>
      if String.eqb k k' then rest else (k', v') :: dict_pop k rest
  end.

Definition dict_keys {V : Type} (d : list (string * V)) : list string :=
  map fst d.

(** Python truthiness of a decoded JSON value. *)
Definition truthy (j : Json) : bool :=
  match j with
  | JNull => false
  | JBool b => b
  | JInt z => negb (z =? 0)
  | JFloat (Finite n _) => negb (n =? 0)
  | JFloat NonFinite => true
  | JStr s => negb (String.eqb s "")
  | JArr l => match l with [] => false | _ => true end
  | JObj o => match o with [] => false | _ => true end
  end.

(** Truthiness of an [Optional[str]]. *)
Definition str_truthy (o : option string) : bool :=
  match o with
  | Some s => negb (String.eqb s "")
  | None => false
  end.

(** ** Module constants and the Python runtime *)

(** The constants the module reads from the environment at import time. *)
Record Config : Type := {
  SERVER1_IP : string;
  SERVER2_IP : string;
  DNS_RECORD_NAMES : list string;
  TTL_DEFAULT : Z;
  TELEGRAM_BOT_TOKEN : string;
  TELEGRAM_CHAT_ID : string;
  ADMIN_USER : option string;
  ADMIN_PASS : option string
}.

(** Library functions of the Python runtime the code calls on strings.
    - [utc_iso t] is [t.isoformat() + "Z"] for the naive UTC time [t];
    - [parse_iso s] is
      [datetime.fromisoformat(s.replace("Z", "+00:00")).replace(tzinfo=None)],
      [None] when it raises;
    - [int_of_str s] is [int(s)] on a string, [None] when it raises. *)
Record PyRuntime : Type := {
  utc_iso : Z -> string;
  parse_iso : string -> option Z;
  int_of_str : string -> option Z
}.

(** ** ServiceState *)

Record ServiceState : Type := {
  server1_up : bool;
  server2_up : bool;
  current_dns : string;
  last_switch_at : option string;
  freeze : bool;
  ttl : Z;
  webhook_secret : option string;
  down_threshold : Z;
  up_threshold : Z;
  cooldown_seconds : Z;
  _s1_down_streak : Z;
  _s1_up_streak : Z;
  _s2_down_streak : Z;
  _s2_up_streak : Z
}.

(** The dataclass defaults, [cls()]. *)
Definition defaults (cfg : Config) : ServiceState := {|
  server1_up := true;
  server2_up := true;
  current_dns := SERVER1_IP cfg;
  last_switch_at := None;
  freeze := false;
  ttl := TTL_DEFAULT cfg;
  webhook_secret := None;
  down_threshold := 1;
  up_threshold := 1;
  cooldown_seconds := 0;
  _s1_down_streak := 0;
  _s1_up_streak := 0;
  _s2_down_streak := 0;
  _s2_up_streak := 0
|}.

Definition set_server1_up (b : bool) (s : ServiceState) : ServiceState := {|
  server1_up := b; server2_up := server2_up s; current_dns := current_dns s;
  last_switch_at := last_switch_at s; freeze := freeze s; ttl := ttl s;
  webhook_secret := webhook_secret s; down_threshold := down_threshold s;
  up_threshold := up_threshold s; cooldown_seconds := cooldown_seconds s;
  _s1_down_streak := _s1_down_streak s; _s1_up_streak := _s1_up_streak s;
  _s2_down_streak := _s2_down_streak s; _s2_up_streak := _s2_up_streak s
|}.

Definition set_server2_up (b : bool) (s : ServiceState) : ServiceState := {|
  server1_up := server1_up s; server2_up := b; current_dns := current_dns s;
  last_switch_at := last_switch_at s; freeze := freeze s; ttl := ttl s;
  webhook_secret := webhook_secret s; down_threshold := down_threshold s;
  up_threshold := up_threshold s; cooldown_seconds := cooldown_seconds s;
  _s1_down_streak := _s1_down_streak s; _s1_up_streak := _s1_up_streak s;
  _s2_down_streak := _s2_down_streak s; _s2_up_streak := _s2_up_streak s
|}.

(** [current_dns = ip; last_switch_at = stamp] *)
Definition set_published (ip stamp : string) (s : ServiceState) : ServiceState := {|
  server1_up := server1_up s; server2_up := server2_up s; current_dns := ip;
  last_switch_at := Some stamp; freeze := freeze s; ttl := ttl s;
  webhook_secret := webhook_secret s; down_threshold := down_threshold s;
  up_threshold := up_threshold s; cooldown_seconds := cooldown_seconds s;
  _s1_down_streak := _s1_down_streak s; _s1_up_streak := _s1_up_streak s;
  _s2_down_streak := _s2_down_streak s; _s2_up_streak := _s2_up_streak s
|}.

Definition set_freeze (b : bool) (s : ServiceState) : ServiceState := {|
  server1_up := server1_up s; server2_up := server2_up s;
  current_dns := current_dns s; last_switch_at := last_switch_at s;
  freeze := b; ttl := ttl s;
  webhook_secret := webhook_secret s; down_threshold := down_threshold s;
  up_threshold := up_threshold s; cooldown_seconds := cooldown_seconds s;
  _s1_down_streak := _s1_down_streak s; _s1_up_streak := _s1_up_streak s;
  _s2_down_streak := _s2_down_streak s; _s2_up_streak := _s2_up_streak s
|}.

Definition set_webhook_secret (v : option string) (s : ServiceState)
  : ServiceState := {|
  server1_up := server1_up s; server2_up := server2_up s;
  current_dns := current_dns s; last_switch_at := last_switch_at s;
  freeze := freeze s; ttl := ttl s;
  webhook_secret := v; down_threshold := down_threshold s;
  up_threshold := up_threshold s; cooldown_seconds := cooldown_seconds s;
  _s1_down_streak := _s1_down_streak s; _s1_up_streak := _s1_up_streak s;
  _s2_down_streak := _s2_down_streak s; _s2_up_streak := _s2_up_streak s
|}.

(** The four counters at once: [(s1_down, s1_up, s2_down, s2_up)]. *)
Definition set_streaks (d1 u1 d2 u2 : Z) (s : ServiceState) : ServiceState := {|
  server1_up := server1_up s; server2_up := server2_up s;
  current_dns := current_dns s; last_switch_at := last_switch_at s;
  freeze := freeze s; ttl := ttl s;
  webhook_secret := webhook_secret s; down_threshold := down_threshold s;
  up_threshold := up_threshold s; cooldown_seconds := cooldown_seconds s;
  _s1_down_streak := d1; _s1_up_streak := u1;
  _s2_down_streak := d2; _s2_up_streak := u2
|}.

(** ** JSON views of the state *)

Definition json_of_opt_str (o : option string) : Json :=
  match o with
  | Some s => JStr s
  | None => JNull
  end.

(** [dataclasses.asdict(self)]: every field, in declaration order. *)
Definition asdict (s : ServiceState) : list (string * Json) :=
  [ ("server1_up", JBool (server1_up s));
    ("server2_up", JBool (server2_up s));
    ("current_dns", JStr (current_dns s));
    ("last_switch_at", json_of_opt_str (last_switch_at s));
    ("freeze", JBool (freeze s));
    ("ttl", JInt (ttl s));
    ("webhook_secret", json_of_opt_str (webhook_secret s));
    ("down_threshold", JInt (down_threshold s));
    ("up_threshold", JInt (up_threshold s));
    ("cooldown_seconds", JInt (cooldown_seconds s));
    ("_s1_down_streak", JInt (_s1_down_streak s));
    ("_s1_up_streak", JInt (_s1_up_streak s));
    ("_s2_down_streak", JInt (_s2_down_streak s));
    ("_s2_up_streak", JInt (_s2_up_streak s)) ].

(** [ServiceState.to_public]: the keys that start with ["_s"] are popped, a
    truthy secret is overwritten with the mask. *)
Definition to_public (s : ServiceState) : list (string * Json) :=
  let d0 := asdict s in
  let d :=
    fold_left
      (fun d k => if String.prefix "_s" k then dict_pop k d else d)
      (dict_keys d0) d0 in
  match dict_get "webhook_secret" d with
  | Some v => if truthy v then dict_set "webhook_secret" (JStr "***") d else d
  | None => d
  end.

(** What [open(path)] / [json.load] find at the state file's path. *)
Inductive FileContent : Type :=
| NoFile
| NotJson
| JsonDoc (j : Json).

(** [ServiceState.save]: the file becomes the dump of [asdict(self)]. *)
Definition save (s : ServiceState) : FileContent := JsonDoc (JObj (asdict s)).

(** [{**base, **data}] *)
Definition dict_merge {V : Type} (base data : list (string * V))
  : list (string * V) :=
  fold_left (fun acc kv => dict_set (fst kv) (snd kv) acc) data base.

Definition as_bool (j : Json) : option bool :=
  match j with JBool b => Some b | _ => None end.

Definition as_int (j : Json) : option Z :=
  match j with JInt z => Some z | _ => None end.

Definition as_str (j : Json) : option string :=
  match j with JStr s => Some s | _ => None end.

Definition as_opt_str (j : Json) : option (option string) :=
  match j with
  | JNull => Some None
  | JStr s => Some (Some s)
  | _ => None
  end.

Definition field (A : Type) (dec : Json -> option A) (k : string)
  (d : list (string * Json)) : option A :=
  match dict_get k d with
  | Some j => dec j
  | None => None
  end.

(** The constructor call on the merged dictionary, read into the typed
    record.  The dataclass constructor checks
    no types: a member whose JSON type is not the one the field is annotated
    with would be stored as it is, which the record cannot hold; such a
    document has no image here ([None]). *)
Definition of_dict (d : list (string * Json)) : option ServiceState :=
  match field bool as_bool "server1_up" d, field bool as_bool "server2_up" d,
        field string as_str "current_dns" d,
        field (option string) as_opt_str "last_switch_at" d,
        field bool as_bool "freeze" d, field Z as_int "ttl" d,
        field (option string) as_opt_str "webhook_secret" d,
        field Z as_int "down_threshold" d, field Z as_int "up_threshold" d,
        field Z as_int "cooldown_seconds" d,
        field Z as_int "_s1_down_streak" d, field Z as_int "_s1_up_streak" d,
        field Z as_int "_s2_down_streak" d, field Z as_int "_s2_up_streak" d
  with
  | Some a, Some b, Some c, Some l, Some f, Some t, Some w,
    Some dt, Some ut, Some cs, Some d1, Some u1, Some d2, Some u2 =>
      Some {| server1_up := a; server2_up := b; current_dns := c;
              last_switch_at := l; freeze := f; ttl := t;
              webhook_secret := w; down_threshold := dt; up_threshold := ut;
              cooldown_seconds := cs;
              _s1_down_streak := d1; _s1_up_streak := u1;
              _s2_down_streak := d2; _s2_up_streak := u2 |}
  | _, _, _, _, _, _, _, _, _, _, _, _, _, _ => None
  end.

(** [obj = cls(); obj.webhook_secret = secrets.token_urlsafe(24)] *)
Definition fresh_state (cfg : Config) (token : string) : ServiceState :=
  set_webhook_secret (Some token) (defaults cfg).

(** [ServiceState.load].  [token] is what [secrets.token_urlsafe(24)] returns
    if it is called.  A missing file, undecodable JSON, a document that is
    not an object and an object with a key that is no field (a [TypeError]
    of the constructor) all end in the defaults with a fresh secret. *)
Definition load (cfg : Config) (file : FileContent) (token : string)
  : option ServiceState :=
  match file with
  | NoFile => Some (fresh_state cfg token)
  | NotJson => Some (fresh_state cfg token)
  | JsonDoc (JObj data) =>
      let base := asdict (defaults cfg) in
      if forallb (fun k => existsb (String.eqb k) (dict_keys base))
                 (dict_keys data)
      then
        match of_dict (dict_merge base data) with
        | Some obj =>
            if str_truthy (webhook_secret obj) then Some obj
            else Some (set_webhook_secret (Some token) obj)
        | None => None
        end
      else Some (fresh_state cfg token)
  | JsonDoc _ => Some (fresh_state cfg token)
  end.

(** ** The registrar, the clock and the world *)

(** A DNS record as the registrar lists it.  The keys the code reads with
    [.get] and a default or a guard are optional. *)
Record DnsRecord : Type := {
  r_id : option string;
  r_name : string;
  r_type : option string;
  r_content : option string;
  r_ttl : option Z;
  r_proxied : option bool
}.

(** The JSON body of an update request. *)
Record Payload : Type := {
  p_type : string;
  p_name : string;
  p_content : string;
  p_ttl : Z;
  p_proxied : bool
}.

(** What [requests.put] does: a response with [resp.ok], a response without,
    or an exception of the transport. *)
Inductive PutResult : Type :=
| PutOk
| PutNotOk (status_code : Z) (text : string)
| PutRaises.

(** One page of [GET /dns_records]: [PageRaises] stands for an exception of
    the transport, of [raise_for_status] or of [resp.json()]. *)
Inductive PageResult : Type :=
| PageRaises
| Page (result : list DnsRecord) (total_pages : option Z).

Record Env : Type := {
  now_decide : Z;
  now_publish : Z;
  cf_get : Z -> PageResult;
  cf_put : string -> Payload -> PutResult;
  max_pages : nat
}.

(** The four messages [decide_failover] returns, with the values they
    interpolate. *)
Inductive Message : Type :=
| MsgFrozen (s1 s2 : bool) (current : string)
| MsgCooldown (current : string)
| MsgSwitched (desired source : string) (s1 s2 : bool)
| MsgNoChange (s1 s2 : bool) (current : string).

Inductive LogLine : Type :=
| LogCached (names : list string)
| LogNoRecords
| LogUpdateFailed (name : string) (status_code : Z) (text : string)
| LogUpdated (name new_ip : string)
| LogDecision (m : Message)
| LogManualSwitch (ip target : string).

Record World : Type := {
  app_state : ServiceState;
  cached_records : list (string * DnsRecord);
  state_file : FileContent;
  log : list LogLine;
  put_requests : list (string * Payload);
  telegram : list Message
}.

Definition with_app_state (s : ServiceState) (w : World) : World := {|
  app_state := s; cached_records := cached_records w;
  state_file := state_file w; log := log w;
  put_requests := put_requests w; telegram := telegram w
|}.

Definition with_cached_records (c : list (string * DnsRecord)) (w : World)
  : World := {|
  app_state := app_state w; cached_records := c;
  state_file := state_file w; log := log w;
  put_requests := put_requests w; telegram := telegram w
|}.

Definition with_state_file (f : FileContent) (w : World) : World := {|
  app_state := app_state w; cached_records := cached_records w;
  state_file := f; log := log w;
  put_requests := put_requests w; telegram := telegram w
|}.

Definition with_log (l : list LogLine) (w : World) : World := {|
  app_state := app_state w; cached_records := cached_records w;
  state_file := state_file w; log := l;
  put_requests := put_requests w; telegram := telegram w
|}.

Definition with_put_requests (p : list (string * Payload)) (w : World)
  : World := {|
  app_state := app_state w; cached_records := cached_records w;
  state_file := state_file w; log := log w;
  put_requests := p; telegram := telegram w
|}.

Definition with_telegram (t : list Message) (w : World) : World := {|
  app_state := app_state w; cached_records := cached_records w;
  state_file := state_file w; log := log w;
  put_requests := put_requests w; telegram := t
|}.

(** ** A state monad with exceptions

    A computation runs in a world and returns a value, raises, or never
    comes back (the only loop without a bound is the pagination of
    [load_dns_records]); in each case it leaves a world behind: what was
    mutated before an exception stays mutated. *)

Inductive Res (A : Type) : Type :=
| Returned (a : A)
| Raised
| Hung.
Arguments Returned {A} a.
Arguments Raised {A}.
Arguments Hung {A}.

Definition M (A : Type) : Type := World -> Res A * World.

Definition ret {A : Type} (a : A) : M A := fun w => (Returned a, w).

Definition raise {A : Type} : M A := fun w => (Raised, w).

Definition bind {A B : Type} (m : M A) (k : A -> M B) : M B :=
  fun w =>
    match m w with
    | (Returned a, w') => k a w'
    | (Raised, w') => (Raised, w')
    | (Hung, w') => (Hung, w')
    end.

Notation "x <- m ;; k" := (bind m (fun x => k))
  (at level 61, m at next level, right associativity).
Notation "m ;;; k" := (bind m (fun _ => k))
  (at level 61, right associativity).

Definition gets {A : Type} (f : World -> A) : M A := fun w => (Returned (f w), w).

Definition modify (f : World -> World) : M unit := fun w => (Returned tt, f w).

Definition logger (l : LogLine) : M unit :=
  modify (fun w => with_log (log w ++ [l]) w).

(** [app_state.save(STATE_FILE)] *)
Definition save_state : M unit :=
  modify (fun w => with_state_file (save (app_state w)) w).

(** ** The record cache *)

Section Engine.

Variable cfg : Config.
Variable py : PyRuntime.

(** [telegram_send]: nothing without a bot token and a chat id; otherwise the
    message leaves for the chat, failures are swallowed there and nothing
    comes back. *)
Definition telegram_send (m : Message) : M unit :=
  if String.eqb (TELEGRAM_BOT_TOKEN cfg) "" || String.eqb (TELEGRAM_CHAT_ID cfg) ""
  then ret tt
  else modify (fun w => with_telegram (telegram w ++ [m]) w).

(** [not DNS_RECORD_NAMES or name in DNS_RECORD_NAMES] *)
Definition listed (name : string) : bool :=
  match DNS_RECORD_NAMES cfg with
  | [] => true
  | names => existsb (String.eqb name) names
  end.

(** The [for r in data.get("result", [])] loop of one page. *)
Definition add_page (result : list DnsRecord) (found : list (string * DnsRecord))
  : list (string * DnsRecord) :=
  fold_left
    (fun acc r => if listed (r_name r) then dict_set (r_name r) r acc else acc)
    result found.

Inductive Pages : Type :=
| PagesDone (found : list (string * DnsRecord))
| PagesRaise
| PagesEndless.

(** The [while True] loop over the pages; [fuel] bounds the number of pages
    requested, and [PagesEndless] is a registrar that has not reported a last
    page by then. *)
Fixpoint load_pages (get : Z -> PageResult) (fuel : nat) (page : Z)
  (found : list (string * DnsRecord)) : Pages :=
  match fuel with
  | O => PagesEndless
  | S fuel' =>
      match get page with
      | PageRaises => PagesRaise
      | Page result total =>
          let found' := add_page result found in
          let total_pages := match total with Some t => t | None => 1 end in
          if page >=? total_pages then PagesDone found'
          else load_pages get fuel' (page + 1) found'
      end
  end.

(** [load_dns_records]: the cache is replaced only once every page was read. *)
Definition load_dns_records (env : Env) : M unit :=
  fun w =>
    match load_pages (cf_get env) (max_pages env) 1 [] with
    | PagesDone found =>
        (logger (LogCached (dict_keys found))) (with_cached_records found w)
    | PagesRaise => (Raised, w)
    | PagesEndless => (Hung, w)
    end.

(** ** The DNS synchroniser *)

(** [requests.put]: the request goes out, then the registrar answers. *)
Definition http_put (env : Env) (record_id : string) (payload : Payload)
  : M PutResult :=
  modify (fun w => with_put_requests (put_requests w ++ [(record_id, payload)]) w);;;
  match cf_put env record_id payload with
  | PutRaises => raise
  | r => ret r
  end.

(** One iteration of the [for name, record in cached_records.items()] loop. *)
Definition put_record (env : Env) (new_ip : string) (name : string)
  (record : DnsRecord) : M unit :=
  if str_truthy (r_id record) then
    match r_id record with
    | Some record_id =>
        s <- gets app_state;;
        let payload := {|
          p_type := match r_type record with Some t => t | None => "A" end;
          p_name := name;
          p_content := new_ip;
          p_ttl := ttl s;
          p_proxied := match r_proxied record with Some b => b | None => false end
        |} in
        resp <- http_put env record_id payload;;
        match resp with
        | PutNotOk code text => logger (LogUpdateFailed name code text)
        | _ => logger (LogUpdated name new_ip)
        end
    | None => ret tt
    end
  else ret tt.

Fixpoint put_records (env : Env) (new_ip : string)
  (items : list (string * DnsRecord)) : M unit :=
  match items with
  | [] => ret tt
  | (name, record) :: rest =>
      put_record env new_ip name record;;;
      put_records env new_ip rest
  end.

(** The block under [state_lock] that ends [update_dns]. *)
Definition commit_switch (env : Env) (new_ip : string) : M unit :=
  modify (fun w =>
    with_app_state
      (set_published new_ip (utc_iso py (now_publish env)) (app_state w)) w);;;
  save_state.

Definition update_dns (env : Env) (new_ip : string) : M unit :=
  cached <- gets cached_records;;
  match cached with
  | [] => load_dns_records env
  | _ => ret tt
  end;;;
  cached <- gets cached_records;;
  match cached with
  | [] => logger LogNoRecords
  | _ => put_records env new_ip cached;;; commit_switch env new_ip
  end.

(** ** The decision engine *)

Definition _cooldown_ok (now : Z) (s : ServiceState) (last_iso : option string)
  : bool :=
  if (cooldown_seconds s =? 0) || negb (str_truthy last_iso) then true
  else
    match last_iso with
    | Some iso =>
        match parse_iso py iso with
        | Some last => (now - last) >=? cooldown_seconds s * 1000000
        | None => true
        end
    | None => true
    end.

(** The block [# Update streaks for hysteresis]. *)
Definition update_streaks (s : ServiceState) : ServiceState :=
  let d1 := if server1_up s then 0 else _s1_down_streak s + 1 in
  let u1 := if server1_up s then _s1_up_streak s + 1 else 0 in
  let d2 := if server2_up s then 0 else _s2_down_streak s + 1 in
  let u2 := if server2_up s then _s2_up_streak s + 1 else 0 in
  set_streaks d1 u1 d2 u2 s.

Definition choose_s1 (s : ServiceState) : bool :=
  server1_up s && ((up_threshold s <=? 1) || (_s1_up_streak s >=? up_threshold s)).

Definition choose_s2 (s : ServiceState) : bool :=
  negb (server1_up s) && server2_up s
  && ((up_threshold s <=? 1) || (_s2_up_streak s >=? up_threshold s)).

Definition desired_ip (s : ServiceState) : string :=
  if choose_s1 s then SERVER1_IP cfg
  else if choose_s2 s then SERVER2_IP cfg
  else current_dns s.

Definition decide_failover (env : Env) (source : string) : M Message :=
  s <- gets app_state;;
  if freeze s then
    let msg := MsgFrozen (server1_up s) (server2_up s) (current_dns s) in
    logger (LogDecision msg);;; ret msg
  else if negb (_cooldown_ok (now_decide env) s (last_switch_at s)) then
    let msg := MsgCooldown (current_dns s) in
    logger (LogDecision msg);;; ret msg
  else
    modify (fun w => with_app_state (update_streaks (app_state w)) w);;;
    s <- gets app_state;;
    let desired := desired_ip s in
    let changed := negb (String.eqb desired (current_dns s)) in
    if changed then
      update_dns env desired;;;
      s <- gets app_state;;
      let msg := MsgSwitched desired source (server1_up s) (server2_up s) in
      logger (LogDecision msg);;;
      telegram_send msg;;;
      ret msg
    else
      s <- gets app_state;;
      let msg := MsgNoChange (server1_up s) (server2_up s) (current_dns s) in
      logger (LogDecision msg);;;
      save_state;;;
      ret msg.

(** ** The HTTP handlers *)

(** [int(v)] on a decoded JSON value; [None] when Python raises. *)
Definition py_int (v : Json) : option Z :=
  match v with
  | JBool b => Some (if b then 1 else 0)
  | JInt z => Some z
  | JFloat (Finite n d) => Some (Z.quot n (Z.pos d))
  | JFloat NonFinite => None
  | JStr s => int_of_str py s
  | JNull | JArr _ | JObj _ => None
  end.

(** [_parse_status]: every exception ([.get] on something that is no dict,
    [int] on something that is no number) is caught and answers [False]. *)
Definition _parse_status (body : Json) : bool :=
  match body with
  | JObj members =>
      match match dict_get "heartbeat" members with
            | Some hb => hb
            | None => JObj []
            end
      with
      | JObj hb =>
          match py_int (match dict_get "status" hb with
                        | Some v => v
                        | None => JInt 0
                        end)
          with
          | Some n => n =? 1
          | None => false
          end
      | _ => false
      end
  | _ => false
  end.

(** What Flask's [request.json] finds. *)
Inductive Body : Type :=
| WrongMime
| BadJson
| Decoded (j : Json).

Record WebhookRequest : Type := {
  x_webhook_secret : option string;
  body : Body
}.

(** A request to an admin route.  [authorization] is what
    [request.authorization] gives: [None] without a usable [Authorization]
    header, else the [username] and the [password] it carries, each of them
    [None] when the header has none (a Basic header has both; a Digest or
    Bearer header need not).  [form_target] and [form_enabled] are
    [str(form.get("target", ""))] and [str(form.get("enabled", "false"))]
    of a request whose [form] could be read; a request with no form field
    and a body that is not JSON is aborted by [request.json] before the
    handler changes anything, and is not among these. *)
Record AdminRequest : Type := {
  authorization : option (option string * option string);
  session_csrf : option string;
  provided_csrf : option string;
  form_target : string;
  form_enabled : string
}.

Inductive Reply : Type :=
| Abort (code : Z)
| AuthRequired
| WebhookUpdated (server1Status server2Status : bool) (info : Message)
| HxRefresh.

Definition ascii_char (c : ascii) : bool :=
  match c with Ascii _ _ _ _ _ _ _ b7 => negb b7 end.

(** [str.isascii]: every character is below 128, that is, no byte of the
    encoding has its high bit set. *)
Fixpoint isascii (s : string) : bool :=
  match s with
  | EmptyString => true
  | String c rest => ascii_char c && isascii rest
  end.

(** [secrets.compare_digest] on two [str]: the comparison, or [None] for
    the [TypeError] it raises when one of them holds a character that is not
    ASCII. *)
Definition compare_digest (a b : string) : option bool :=
  if isascii a && isascii b then Some (String.eqb a b) else None.

(** How a guard ends: it lets the request through, it aborts with a status
    code, or [compare_digest] raises its [TypeError] (which Flask answers
    with a 500). *)
Inductive Check : Type :=
| Passed
| Aborted (code : Z)
| TypeError.

(** [_check_webhook_secret]: [not secret or not app_state.webhook_secret or
    not secrets.compare_digest(secret, app_state.webhook_secret)], from left
    to right. *)
Definition _check_webhook_secret (header : option string) (s : ServiceState)
  : Check :=
  if negb (str_truthy header) then Aborted 401
  else if negb (str_truthy (webhook_secret s)) then Aborted 401
  else
    match header, webhook_secret s with
    | Some secret, Some expected =>
        match compare_digest secret expected with
        | Some true => Passed
        | Some false => Aborted 401
        | None => TypeError
        end
    | _, _ => Aborted 401
    end.

(** The condition under which [_check_webhook_secret] returns. *)
Definition webhook_secret_ok (header : option string) (s : ServiceState) : bool :=
  match _check_webhook_secret header s with
  | Passed => true
  | _ => false
  end.

(** [request.json or {}] *)
Definition json_or_empty (j : Json) : Json :=
  if truthy j then j else JObj [].

Definition webhook_server1 (env : Env) (req : WebhookRequest) : M Reply :=
  s <- gets app_state;;
  match _check_webhook_secret (x_webhook_secret req) s with
  | TypeError => raise
  | Aborted code => ret (Abort code)
  | Passed =>
      match body req with
      | WrongMime => ret (Abort 415)
      | BadJson => ret (Abort 400)
      | Decoded j =>
          let is_up := _parse_status (json_or_empty j) in
          modify (fun w => with_app_state (set_server1_up is_up (app_state w)) w);;;
          msg <- decide_failover env "webhook:s1";;
          s <- gets app_state;;
          ret (WebhookUpdated is_up (server2_up s) msg)
      end
  end.

Definition webhook_server2 (env : Env) (req : WebhookRequest) : M Reply :=
  s <- gets app_state;;
  match _check_webhook_secret (x_webhook_secret req) s with
  | TypeError => raise
  | Aborted code => ret (Abort code)
  | Passed =>
      match body req with
      | WrongMime => ret (Abort 415)
      | BadJson => ret (Abort 400)
      | Decoded j =>
          let is_up := _parse_status (json_or_empty j) in
          modify (fun w => with_app_state (set_server2_up is_up (app_state w)) w);;;
          msg <- decide_failover env "webhook:s2";;
          s <- gets app_state;;
          ret (WebhookUpdated (server1_up s) is_up msg)
      end
  end.

Definition opt_str_eqb (a b : option string) : bool :=
  match a, b with
  | Some x, Some y => String.eqb x y
  | None, None => true
  | _, _ => false
  end.

(** The condition under which [requires_auth] calls the handler: no
    credential is configured, or there is an [auth] whose [username] and
    [password] are not different from [ADMIN_USER] and [ADMIN_PASS]. *)
Definition auth_ok (req : AdminRequest) : bool :=
  if negb (str_truthy (ADMIN_USER cfg)) && negb (str_truthy (ADMIN_PASS cfg))
  then true
  else
    match authorization req with
    | Some (username, password) =>
        opt_str_eqb username (ADMIN_USER cfg)
        && opt_str_eqb password (ADMIN_PASS cfg)
    | None => false
    end.

(** [check_csrf]: [expected and provided and
    secrets.compare_digest(expected, provided)], else [abort(400)]. *)
Definition check_csrf (req : AdminRequest) : Check :=
  if negb (str_truthy (session_csrf req)) then Aborted 400
  else if negb (str_truthy (provided_csrf req)) then Aborted 400
  else
    match session_csrf req, provided_csrf req with
    | Some expected, Some provided =>
        match compare_digest expected provided with
        | Some true => Passed
        | Some false => Aborted 400
        | None => TypeError
        end
    | _, _ => Aborted 400
    end.

(** The condition under which [check_csrf] returns. *)
Definition csrf_ok (req : AdminRequest) : bool :=
  match check_csrf req with
  | Passed => true
  | _ => false
  end.

Definition lower_ascii (c : ascii) : ascii :=
  let n := nat_of_ascii c in
  if Nat.leb 65 n && Nat.leb n 90 then ascii_of_nat (n + 32) else c.

(** [str.lower] on ASCII text. *)
Fixpoint lower (s : string) : string :=
  match s with
  | EmptyString => EmptyString
  | String c rest => String (lower_ascii c) (lower rest)
  end.

Definition api_switch (env : Env) (req : AdminRequest) : M Reply :=
  if negb (auth_ok req) then ret AuthRequired
  else
    match check_csrf req with
    | TypeError => raise
    | Aborted code => ret (Abort code)
    | Passed =>
        let target := lower (form_target req) in
        if negb (String.eqb target "server1" || String.eqb target "server2")
        then ret (Abort 400)
        else
          let ip := if String.eqb target "server1" then SERVER1_IP cfg
                    else SERVER2_IP cfg in
          update_dns env ip;;;
          logger (LogManualSwitch ip target);;;
          ret HxRefresh
    end.

Definition api_freeze (req : AdminRequest) : M Reply :=
  if negb (auth_ok req) then ret AuthRequired
  else
    match check_csrf req with
    | TypeError => raise
    | Aborted code => ret (Abort code)
    | Passed =>
        let enabled :=
          existsb (String.eqb (lower (form_enabled req)))
            ["1"; "true"; "yes"; "on"] in
        modify (fun w => with_app_state (set_freeze enabled (app_state w)) w);;;
        save_state;;;
        ret HxRefresh
    end.

End Engine.

(** ** A concrete deployment, for examples *)

Definition example_cfg : Config := {|
  SERVER1_IP := "1.2.3.4";
  SERVER2_IP := "5.6.7.8";
  DNS_RECORD_NAMES := [];
  TTL_DEFAULT := 60;
  TELEGRAM_BOT_TOKEN := "";
  TELEGRAM_CHAT_ID := "";
  ADMIN_USER := None;
  ADMIN_PASS := None
|}.

Fixpoint strip_Z (s : string) : string :=
  match s with
  | EmptyString => EmptyString
  | String c rest =>
      match rest with
      | EmptyString => if Ascii.eqb c "Z" then EmptyString else s
      | _ => String c (strip_Z rest)
      end
  end.

(** A stand-in runtime for the examples: a timestamp is written as its count
    of microseconds in decimal followed by [Z], and [int] reads decimal
    numerals. *)
Definition example_py : PyRuntime := {|
  utc_iso := fun t => NilZero.string_of_int (Z.to_int t) ++ "Z";
  parse_iso := fun s => option_map Z.of_int (NilZero.int_of_string (strip_Z s));
  int_of_str := fun s => option_map Z.of_int (NilZero.int_of_string s)
|}.

Definition example_record (name record_id : string) : DnsRecord := {|
  r_id := Some record_id;
  r_name := name;
  r_type := Some "A";
  r_content := Some "1.2.3.4";
  r_ttl := Some 60;
  r_proxied := Some false
|}.

(** A registrar that accepts every update and lists no record. *)
Definition example_env (t : Z) : Env := {|
  now_decide := t;
  now_publish := t;
  cf_get := fun _ => Page [] None;
  cf_put := fun _ _ => PutOk;
  max_pages := 8
|}.

Definition example_world (s : ServiceState) (cache : list (string * DnsRecord))
  : World := {|
  app_state := s;
  cached_records := cache;
  state_file := NoFile;
  log := [];
  put_requests := [];
  telegram := []
|}.

(** ** The decision rule as the specification words it *)

(** Target 1 is eligible if it is up and the threshold is at most 1 or its
    up-streak has reached the threshold. *)
Definition target1_eligible (s : ServiceState) : Prop :=
  server1_up s = true
  /\ (up_threshold s <= 1 \/ _s1_up_streak s >= up_threshold s).

(** Target 2 is eligible only if target 1 is down and target 2 passes the
    same streak rule against its own up-streak. *)
Definition target2_eligible (s : ServiceState) : Prop :=
  server1_up s = false /\ server2_up s = true
  /\ (up_threshold s <= 1 \/ _s2_up_streak s >= up_threshold s).

(** Desired is target 1's IP if target 1 is eligible; else target 2's IP if
    target 2 is eligible; else the published value, unchanged. *)
Definition spec_desired (cfg : Config) (s : ServiceState) (d : string) : Prop :=
  (target1_eligible s /\ d = SERVER1_IP cfg)
  \/ (~ target1_eligible s /\ target2_eligible s /\ d = SERVER2_IP cfg)
  \/ (~ target1_eligible s /\ ~ target2_eligible s /\ d = current_dns s).

(** ** What a completed round of updates leaves behind *)

(** The body of the update request for one cached record. *)
Definition payload_for (new_ip : string) (ttl_now : Z) (name : string)
  (record : DnsRecord) : Payload := {|
  p_type := match r_type record with Some t => t | None => "A" end;
  p_name := name;
  p_content := new_ip;
  p_ttl := ttl_now;
  p_proxied := match r_proxied record with Some b => b | None => false end
|}.

(** The request one cache entry gives rise to: none when its [id] is missing
    or empty. *)
Definition attempt (new_ip : string) (ttl_now : Z) (item : string * DnsRecord)
  : list (string * Payload) :=
  match r_id (snd item) with
  | Some record_id =>
      if String.eqb record_id "" then []
      else [(record_id, payload_for new_ip ttl_now (fst item) (snd item))]
  | None => []
  end.

Definition expected_puts (new_ip : string) (ttl_now : Z)
  (items : list (string * DnsRecord)) : list (string * Payload) :=
  flat_map (attempt new_ip ttl_now) items.

(** The log line an answered request leaves. *)
Definition answer_line (env : Env) (new_ip : string) (req : string * Payload)
  : LogLine :=
  match cf_put env (fst req) (snd req) with
  | PutNotOk code text => LogUpdateFailed (p_name (snd req)) code text
  | _ => LogUpdated (p_name (snd req)) new_ip
  end.

(** A world after more log lines and more registrar requests. *)
Definition emit (lines : list LogLine) (reqs : list (string * Payload))
  (w : World) : World :=
  with_put_requests (put_requests w ++ reqs) (with_log (log w ++ lines) w).

(** The registrar answers every update request, with success or with an
    HTTP error. *)
Definition answers (env : Env) : Prop :=
  forall record_id payload, cf_put env record_id payload <> PutRaises.

(** The second half of [update_dns], from the second test of the cache on. *)
Definition publish_cached (py : PyRuntime) (env : Env) (new_ip : string)
  : M unit :=
  cached <- gets cached_records;;
  match cached with
  | [] => logger LogNoRecords
  | _ => put_records env new_ip cached;;; commit_switch py env new_ip
  end.

(** The reading of "an update is attempted for every cached record": each
    entry of the cache before the call has a request under its name among the
    requests after it. *)
Definition every_record_attempted (before after : World) : Prop :=
  forall name record,
    In (name, record) (cached_records before) ->
    exists record_id payload,
      In (record_id, payload) (put_requests after) /\ p_name payload = name.

(** The world at the point where [decide_failover] computes the desired
    target: the streaks have just been updated. *)
Definition streaked (w : World) : World :=
  with_app_state (update_streaks (app_state w)) w.

(** The [if changed:] branch of [decide_failover]. *)
Definition switch_to (cfg : Config) (py : PyRuntime) (env : Env)
  (desired source : string) : M Message :=
  update_dns cfg py env desired;;;
  s <- gets app_state;;
  let msg := MsgSwitched desired source (server1_up s) (server2_up s) in
  logger (LogDecision msg);;;
  telegram_send cfg msg;;;
  ret msg.

(** The world in which the decision of a heartbeat for target 1 (target 2)
    runs: the flag has just been set. *)
Definition reported1 (is_up : bool) (w : World) : World :=
  with_app_state (set_server1_up is_up (app_state w)) w.

Definition reported2 (is_up : bool) (w : World) : World :=
  with_app_state (set_server2_up is_up (app_state w)) w.

(** The [status] member of the [heartbeat] object of a decoded body, when
    there is one. *)
Definition heartbeat_status (j : Json) : option Json :=
  match j with
  | JObj members =>
      match dict_get "heartbeat" members with
      | Some (JObj hb) => dict_get "status" hb
      | _ => None
      end
  | _ => None
  end.

(** A body whose heartbeat status is missing or is not a number to [int]. *)
Definition malformed_status (py : PyRuntime) (j : Json) : Prop :=
  match heartbeat_status j with
  | Some v => py_int py v = None
  | None => True
  end.

(** The request Uptime Kuma sends: the secret in the header and
    [{"heartbeat": {"status": status}}] as the body. *)
Definition heartbeat (secret : string) (status : Json) : WebhookRequest := {|
  x_webhook_secret := Some secret;
  body := Decoded (JObj [("heartbeat", JObj [("status", status)])])
|}.

(** Requests served one after the other, each from the world the previous
    one left, whatever its result was. *)
Fixpoint serve {A : Type} (handlers : list (M A)) (w : World)
  : list (Res A) * World :=
  match handlers with
  | [] => ([], w)
  | h :: rest =>
      let (r, w1) := h w in
      let (rs, w2) := serve rest w1 in
      (r :: rs, w2)
  end.

(** The four streak counters: target 1 down and up, target 2 down and up. *)
Definition streaks_of (s : ServiceState) : Z * Z * Z * Z :=
  (_s1_down_streak s, _s1_up_streak s, _s2_down_streak s, _s2_up_streak s).

(** A decision in this state at time [now] stops at the freeze test or at
    the cooldown test. *)
Definition gated (py : PyRuntime) (now : Z) (s : ServiceState) : bool :=
  freeze s || negb (_cooldown_ok py now s (last_switch_at s)).

(** DNS is on target 2, target 2 is up, nothing holds the decisions, and
    target 1 has been seen up at the last [u] decisions. *)
Definition on_backup (cfg : Config) (N : Z) (secret : string) (u : Z)
  (w : World) : Prop :=
  let s := app_state w in
  freeze s = false /\ cooldown_seconds s = 0
  /\ webhook_secret s = Some secret /\ up_threshold s = N
  /\ current_dns s = SERVER2_IP cfg /\ server2_up s = true
  /\ _s1_up_streak s = u.

(** ** Example worlds *)

Definition three_records : list (string * DnsRecord) :=
  [ ("a.example", example_record "a.example" "id-a");
    ("b.example", example_record "b.example" "id-b");
    ("c.example", example_record "c.example" "id-c") ].

(** A cache whose second entry came without an [id]. *)
Definition cache_with_gap : list (string * DnsRecord) :=
  [ ("a.example", example_record "a.example" "id-a");
    ("b.example", {| r_id := None; r_name := "b.example"; r_type := Some "A";
                     r_content := Some "1.2.3.4"; r_ttl := Some 60;
                     r_proxied := Some false |});
    ("c.example", example_record "c.example" "id-c") ].

(** A registrar that refuses the update of the record [id-b] with a 500 and
    accepts the others. *)
Definition flaky_env (t : Z) : Env := {|
  now_decide := t;
  now_publish := t;
  cf_get := fun _ => Page [] None;
  cf_put := fun record_id _ =>
    if String.eqb record_id "id-b" then PutNotOk 500 "internal error" else PutOk;
  max_pages := 8
|}.

Definition admin_request (target : string) : AdminRequest := {|
  authorization := None;
  session_csrf := Some "csrf-token";
  provided_csrf := Some "csrf-token";
  form_target := target;
  form_enabled := "false"
|}.

(** The same request with another [Authorization] header. *)
Definition with_authorization (auth : option (option string * option string))
  (req : AdminRequest) : AdminRequest := {|
  authorization := auth;
  session_csrf := session_csrf req;
  provided_csrf := provided_csrf req;
  form_target := form_target req;
  form_enabled := form_enabled req
|}.

(** A deployment with [ADMIN_USER] set and [ADMIN_PASS] left unset. *)
Definition user_only_cfg : Config := {|
  SERVER1_IP := "1.2.3.4";
  SERVER2_IP := "5.6.7.8";
  DNS_RECORD_NAMES := [];
  TTL_DEFAULT := 60;
  TELEGRAM_BOT_TOKEN := "";
  TELEGRAM_CHAT_ID := "";
  ADMIN_USER := Some "admin";
  ADMIN_PASS := None
|}.

(** A frozen state that switched five microseconds ago under a cooldown of
    an hour. *)
Definition frozen_cooling_state : ServiceState :=
  set_freeze true
    {| server1_up := true; server2_up := true; current_dns := "1.2.3.4";
       last_switch_at := Some "0Z"; freeze := false; ttl := 60;
       webhook_secret := Some "tok"; down_threshold := 1; up_threshold := 1;
       cooldown_seconds := 3600;
       _s1_down_streak := 0; _s1_up_streak := 3;
       _s2_down_streak := 0; _s2_up_streak := 3 |}.

(** Frozen, target 1 reported down, target 2 up, DNS still on target 1. *)
Definition frozen_failed_state : ServiceState :=
  {| server1_up := false; server2_up := true; current_dns := "1.2.3.4";
     last_switch_at := None; freeze := true; ttl := 60;
     webhook_secret := Some "tok"; down_threshold := 1; up_threshold := 1;
     cooldown_seconds := 0;
     _s1_down_streak := 0; _s1_up_streak := 3;
     _s2_down_streak := 0; _s2_up_streak := 3 |}.

(** Not frozen, target 1 down and target 2 up, DNS still on target 1, last
    switch at time 0 under a cooldown of an hour. *)
Definition cooling_failed_state : ServiceState :=
  {| server1_up := false; server2_up := true; current_dns := "1.2.3.4";
     last_switch_at := Some "0Z"; freeze := false; ttl := 60;
     webhook_secret := Some "tok"; down_threshold := 1; up_threshold := 1;
     cooldown_seconds := 3600;
     _s1_down_streak := 0; _s1_up_streak := 3;
     _s2_down_streak := 0; _s2_up_streak := 3 |}.

(** Both targets down, DNS on target 2: the published value is held. *)
Definition both_down_state : ServiceState :=
  {| server1_up := false; server2_up := false; current_dns := "5.6.7.8";
     last_switch_at := None; freeze := false; ttl := 60;
     webhook_secret := Some "tok"; down_threshold := 1; up_threshold := 2;
     cooldown_seconds := 0;
     _s1_down_streak := 4; _s1_up_streak := 0;
     _s2_down_streak := 0; _s2_up_streak := 9 |}.

(** Threshold 2, both targets up, DNS on target 1; the streaks as a first
    start leaves them ([fresh2]) and after five decisions ([steady2]). *)
Definition fresh2 : ServiceState :=
  {| server1_up := true; server2_up := true; current_dns := "1.2.3.4";
     last_switch_at := None; freeze := false; ttl := 60;
     webhook_secret := Some "tok"; down_threshold := 1; up_threshold := 2;
     cooldown_seconds := 0;
     _s1_down_streak := 0; _s1_up_streak := 0;
     _s2_down_streak := 0; _s2_up_streak := 0 |}.

Definition steady2 : ServiceState :=
  set_streaks 0 5 0 5 fresh2.

(** ** The settings endpoints *)

(** [ttl], [cooldown_seconds], [up_threshold] and [down_threshold] at once. *)
Definition set_tuning (t c u d : Z) (s : ServiceState) : ServiceState := {|
  server1_up := server1_up s; server2_up := server2_up s;
  current_dns := current_dns s; last_switch_at := last_switch_at s;
  freeze := freeze s; ttl := t;
  webhook_secret := webhook_secret s; down_threshold := d;
  up_threshold := u; cooldown_seconds := c;
  _s1_down_streak := _s1_down_streak s; _s1_up_streak := _s1_up_streak s;
  _s2_down_streak := _s2_down_streak s; _s2_up_streak := _s2_up_streak s
|}.

(** A request to a settings endpoint: the admin part, the fields of
    [request.form] and what [request.json] finds. *)
Record ConfigRequest : Type := {
  config_admin : AdminRequest;
  config_form : list (string * string);
  config_json : Body
}.

Inductive AdminReply : Type :=
| Refused (r : Reply)
| HxRedirect (url : string).

Section Settings.

Variable cfg : Config.
Variable py : PyRuntime.

(** [form = request.form if request.form else (request.json or {})]: the
    form fields when there are any, else the JSON body, whose reading may
    abort. *)
Definition form_of (req : ConfigRequest) : Reply + Json :=
  match config_form req with
  | _ :: _ =>
      inr (JObj (map (fun kv => (fst kv, JStr (snd kv))) (config_form req)))
  | [] =>
      match config_json req with
      | WrongMime => inl (Abort 415)
      | BadJson => inl (Abort 400)
      | Decoded j => inr (json_or_empty j)
      end
  end.

(** The local [_int(name, default)]: [int(form.get(name, default))], and
    [default] on any exception. *)
Definition form_int (form : Json) (name : string) (default : Z) : Z :=
  match form with
  | JObj members =>
      match dict_get name members with
      | Some v =>
          match py_int py v with
          | Some n => n
          | None => default
          end
      | None => default
      end
  | _ => default
  end.

Definition api_config_post (req : ConfigRequest) : M AdminReply :=
  if negb (auth_ok cfg (config_admin req)) then ret (Refused AuthRequired)
  else
    match check_csrf (config_admin req) with
    | TypeError => raise
    | Aborted code => ret (Refused (Abort code))
    | Passed =>
        match form_of req with
        | inl r => ret (Refused r)
        | inr form =>
            modify (fun w =>
              let s := app_state w in
              with_app_state
                (set_tuning
                   (Z.max 30 (form_int form "ttl" (ttl s)))
                   (Z.max 0
                      (form_int form "cooldown_seconds" (cooldown_seconds s)))
                   (Z.max 1 (form_int form "up_threshold" (up_threshold s)))
                   (Z.max 0 (form_int form "down_threshold" (down_threshold s)))
                   s) w);;;
            save_state;;;
            ret (HxRedirect "/settings")
        end
    end.

(** [api_webhook_secret_rotate]; [token] is what [secrets.token_urlsafe(24)]
    returns. *)
Definition api_webhook_secret_rotate (token : string) (req : AdminRequest)
  : M AdminReply :=
  if negb (auth_ok cfg req) then ret (Refused AuthRequired)
  else
    match check_csrf req with
    | TypeError => raise
    | Aborted code => ret (Refused (Abort code))
    | Passed =>
        modify (fun w =>
          with_app_state (set_webhook_secret (Some token) (app_state w)) w);;;
        save_state;;;
        ret (HxRedirect "/settings")
    end.

Definition api_refresh_records (env : Env) (req : AdminRequest) : M Reply :=
  if negb (auth_ok cfg req) then ret AuthRequired
  else
    match check_csrf req with
    | TypeError => raise
    | Aborted code => ret (Abort code)
    | Passed =>
        load_dns_records cfg env;;;
        ret HxRefresh
    end.

End Settings.

(** ** Requests that leave before an exception *)

Definition put_raises (env : Env) (req : string * Payload) : bool :=
  match cf_put env (fst req) (snd req) with
  | PutRaises => true
  | _ => false
  end.

(** The requests that go out of a list of intended ones: all of them up to
    and including the first on which the transport raises. *)
Fixpoint issued (env : Env) (reqs : list (string * Payload))
  : list (string * Payload) :=
  match reqs with
  | [] => []
  | req :: rest =>
      if put_raises env req then [req] else req :: issued env rest
  end.

(** The requests that were answered: those before the first on which the
    transport raises. *)
Fixpoint answered (env : Env) (reqs : list (string * Payload))
  : list (string * Payload) :=
  match reqs with
  | [] => []
  | req :: rest =>
      if put_raises env req then [] else req :: answered env rest
  end.

(** What [load_dns_records] keeps true of the cache it builds: no name
    twice, every entry filed under the name of its record, every name
    allowed by [DNS_RECORD_NAMES], every record one the registrar listed. *)
Definition cache_from (cfg : Config) (get : Z -> PageResult)
  (c : list (string * DnsRecord)) : Prop :=
  NoDup (dict_keys c)
  /\ forall name r,
       In (name, r) c ->
       r_name r = name /\ listed cfg name = true
       /\ exists page result total, get page = Page result total /\ In r result.

(** ** Invariants of the state *)

(** The streaks are counters, and of the two streaks of a target one is
    zero. *)
Definition streaks_wf (s : ServiceState) : Prop :=
  0 <= _s1_down_streak s /\ 0 <= _s1_up_streak s
  /\ 0 <= _s2_down_streak s /\ 0 <= _s2_up_streak s
  /\ (_s1_down_streak s = 0 \/ _s1_up_streak s = 0)
  /\ (_s2_down_streak s = 0 \/ _s2_up_streak s = 0).

(** DNS is published on one of the two targets. *)
Definition on_a_target (cfg : Config) (s : ServiceState) : Prop :=
  current_dns s = SERVER1_IP cfg \/ current_dns s = SERVER2_IP cfg.

(** A registrar that refuses the connection for the record [id-b]. *)
Definition broken_env (t : Z) : Env := {|
  now_decide := t;
  now_publish := t;
  cf_get := fun _ => Page [] None;
  cf_put := fun record_id _ =>
    if String.eqb record_id "id-b" then PutRaises else PutOk;
  max_pages := 8
|}.

(** The tuning values are within the bounds [api_config_post] clamps to. *)
Definition tuning_ok (s : ServiceState) : Prop :=
  30 <= ttl s /\ 0 <= cooldown_seconds s
  /\ 1 <= up_threshold s /\ 0 <= down_threshold s.

(** [down_threshold = d] *)
Definition set_down_threshold (d : Z) (s : ServiceState) : ServiceState :=
  set_tuning (ttl s) (cooldown_seconds s) (up_threshold s) d s.

(** The world with another [down_threshold] and another state file. *)
Definition shifted (d : Z) (f : FileContent) (w : World) : World :=
  with_app_state (set_down_threshold d (app_state w)) (with_state_file f w).

(** ** The assignments the handlers make *)

(** One assignment to the state, as the handlers make them: a health flag,
    the streak update of a decision, the commit of a switch to one of the
    two targets, the freeze flag, the tuning values after clamping, the
    secret. *)
Inductive touch (cfg : Config) : ServiceState -> ServiceState -> Prop :=
| touch_flag1 (b : bool) (s : ServiceState) :
    touch cfg s (set_server1_up b s)
| touch_flag2 (b : bool) (s : ServiceState) :
    touch cfg s (set_server2_up b s)
| touch_streaks (s : ServiceState) :
    touch cfg s (update_streaks s)
| touch_publish1 (stamp : string) (s : ServiceState) :
    touch cfg s (set_published (SERVER1_IP cfg) stamp s)
| touch_publish2 (stamp : string) (s : ServiceState) :
    touch cfg s (set_published (SERVER2_IP cfg) stamp s)
| touch_freeze (b : bool) (s : ServiceState) :
    touch cfg s (set_freeze b s)
| touch_tuning (t c u d : Z) (s : ServiceState) :
    30 <= t -> 0 <= c -> 1 <= u -> 0 <= d ->
    touch cfg s (set_tuning t c u d s)
| touch_secret (token : string) (s : ServiceState) :
    touch cfg s (set_webhook_secret (Some token) s).

(** Any number of them, one after the other. *)
Inductive touches (cfg : Config) : ServiceState -> ServiceState -> Prop :=
| touches_none (s : ServiceState) : touches cfg s s
| touches_more (s s1 s2 : ServiceState) :
    touch cfg s s1 -> touches cfg s1 s2 -> touches cfg s s2.

(** ** The routes that write *)

(** A request to one of the routes that can change the state or the cache,
    with what the route reads of it.  For the rotation of the secret that
    includes the token [secrets.token_urlsafe(24)] draws. *)
Inductive Request : Type :=
| WebhookServer1 (req : WebhookRequest)
| WebhookServer2 (req : WebhookRequest)
| ApiSwitch (req : AdminRequest)
| ApiFreeze (req : AdminRequest)
| ApiConfigPost (req : ConfigRequest)
| ApiWebhookSecretRotate (token : string) (req : AdminRequest)
| ApiRefreshRecords (req : AdminRequest).

(** The world a request leaves, whatever is replied. *)
Definition after_request (cfg : Config) (py : PyRuntime) (env : Env)
  (r : Request) (w : World) : World :=
  match r with
  | WebhookServer1 req => snd (webhook_server1 cfg py env req w)
  | WebhookServer2 req => snd (webhook_server2 cfg py env req w)
  | ApiSwitch req => snd (api_switch cfg py env req w)
  | ApiFreeze req => snd (api_freeze cfg req w)
  | ApiConfigPost req => snd (api_config_post cfg py req w)
  | ApiWebhookSecretRotate token req =>
      snd (api_webhook_secret_rotate cfg token req w)
  | ApiRefreshRecords req => snd (api_refresh_records cfg env req w)
  end.

(** Requests handled one after the other, each in its own environment. *)
Fixpoint after_requests (cfg : Config) (py : PyRuntime)
  (rs : list (Env * Request)) (w : World) : World :=
  match rs with
  | [] => w
  | (env, r) :: rest =>
      after_requests cfg py rest (after_request cfg py env r w)
  end.

(** The request is turned away before its route does anything: the
    webhook secret does not pass or the body does not decode; the admin
    credentials or the CSRF token do not pass; the switch names no target;
    the settings form is empty and the body unreadable.  (A secret or a
    token that does not pass is one that is refused with an abort, or one
    on which [compare_digest] raises.) *)
Definition turned_away (cfg : Config) (r : Request) (w : World) : Prop :=
  match r with
  | WebhookServer1 req | WebhookServer2 req =>
      webhook_secret_ok (x_webhook_secret req) (app_state w) = false
      \/ body req = WrongMime \/ body req = BadJson
  | ApiSwitch req =>
      auth_ok cfg req = false \/ csrf_ok req = false
      \/ (lower (form_target req) <> "server1"
          /\ lower (form_target req) <> "server2")
  | ApiFreeze req | ApiWebhookSecretRotate _ req | ApiRefreshRecords req =>
      auth_ok cfg req = false \/ csrf_ok req = false
  | ApiConfigPost req =>
      auth_ok cfg (config_admin req) = false
      \/ csrf_ok (config_admin req) = false
      \/ exists reply, form_of req = inl reply
  end.

(** ** The first version of the service: [failover_server.py]

    The script without hysteresis, freeze, cooldown, secret or pagination.
    Its globals [server1_status], [server2_status], [current_dns] and
    [cached_records], its state file and what it sends are the fields of
    its own world; the registrar is the one of [Env]. *)

Module Legacy.

Record State : Type := {
  server1_status : bool;
  server2_status : bool;
  current_dns : string
}.

(** The two messages of [decide_failover], sent to the log and to Telegram. *)
Inductive Msg : Type :=
| Switched (new_ip : string) (s1 s2 : bool)
| NoChange (s1 s2 : bool) (current : string).

Inductive LogLine : Type :=
| LogPayload (data : Json)
| LogInvalidHeartbeat
| LogMsg (m : Msg)
| LogError (route : string).

Record World : Type := {
  state : State;
  cached_records : list DnsRecord;
  state_file : FileContent;
  put_requests : list (string * Payload);
  telegram : list Msg;
  log : list LogLine
}.

Definition with_state (s : State) (w : World) : World := {|
  state := s; cached_records := cached_records w;
  state_file := state_file w; put_requests := put_requests w;
  telegram := telegram w; log := log w
|}.

Definition with_state_file (f : FileContent) (w : World) : World := {|
  state := state w; cached_records := cached_records w;
  state_file := f; put_requests := put_requests w;
  telegram := telegram w; log := log w
|}.

Definition with_put_requests (p : list (string * Payload)) (w : World)
  : World := {|
  state := state w; cached_records := cached_records w;
  state_file := state_file w; put_requests := p;
  telegram := telegram w; log := log w
|}.

(** [log_event(msg); send_telegram_message(log)] *)
Definition announce (m : Msg) (w : World) : World := {|
  state := state w; cached_records := cached_records w;
  state_file := state_file w; put_requests := put_requests w;
  telegram := telegram w ++ [m]; log := log w ++ [LogMsg m]
|}.

Definition log_event (l : LogLine) (w : World) : World := {|
  state := state w; cached_records := cached_records w;
  state_file := state_file w; put_requests := put_requests w;
  telegram := telegram w; log := log w ++ [l]
|}.

(** The dictionary [save_state] dumps. *)
Definition state_json (s : State) : Json :=
  JObj [ ("server1Status", JBool (server1_status s));
         ("server2Status", JBool (server2_status s));
         ("currentDNS", JStr (current_dns s)) ].

Definition save_state (w : World) : World :=
  with_state_file (JsonDoc (state_json (state w))) w.

(** How the script starts: with a state, with an exception at import time,
    or with values in its globals that are not of the types the state has
    (any JSON value is taken as it is). *)
Inductive Boot : Type :=
| Booted (s : State)
| Crashed
| Untyped.

(** [load_state] and the three subscripts that follow it. *)
Definition load_state (cfg : Config) (file : FileContent) : Boot :=
  match file with
  | NoFile =>
      Booted {| server1_status := true; server2_status := true;
                current_dns := SERVER1_IP cfg |}
  | NotJson => Crashed
  | JsonDoc (JObj d) =>
      match dict_get "server1Status" d, dict_get "server2Status" d,
            dict_get "currentDNS" d with
      | Some a, Some b, Some c =>
          match a, b, c with
          | JBool s1, JBool s2, JStr cur =>
              Booted {| server1_status := s1; server2_status := s2;
                        current_dns := cur |}
          | _, _, _ => Untyped
          end
      | _, _, _ => Crashed
      end
  | JsonDoc _ => Crashed
  end.

(** One iteration of the loop of [update_dns]: the subscripts [record['id']],
    [record["type"]] and [record["proxied"]] raise when the key is missing;
    the answer to the request is not looked at. *)
Definition put_record (env : Env) (new_ip : string) (record : DnsRecord)
  (w : World) : Res unit * World :=
  match r_id record, r_type record, r_proxied record with
  | Some record_id, Some type, Some proxied =>
      let payload := {| p_type := type; p_name := r_name record;
                        p_content := new_ip; p_ttl := 60;
                        p_proxied := proxied |} in
      let w' := with_put_requests (put_requests w ++ [(record_id, payload)]) w in
      match cf_put env record_id payload with
      | PutRaises => (Raised, w')
      | _ => (Returned tt, w')
      end
  | _, _, _ => (Raised, w)
  end.

Fixpoint put_records (env : Env) (new_ip : string) (records : list DnsRecord)
  (w : World) : Res unit * World :=
  match records with
  | [] => (Returned tt, w)
  | record :: rest =>
      match put_record env new_ip record w with
      | (Returned _, w') => put_records env new_ip rest w'
      | other => other
      end
  end.

Definition update_dns (env : Env) (new_ip : string) (w : World)
  : Res unit * World :=
  match put_records env new_ip (cached_records w) w with
  | (Returned _, w') =>
      let s := state w' in
      (Returned tt,
       save_state
         (with_state {| server1_status := server1_status s;
                        server2_status := server2_status s;
                        current_dns := new_ip |} w'))
  | other => other
  end.

(** The address [decide_failover] settles on. *)
Definition new_ip (cfg : Config) (s : State) : string :=
  if server1_status s then SERVER1_IP cfg
  else if server2_status s then SERVER2_IP cfg
  else current_dns s.

Definition decide_failover (cfg : Config) (env : Env) (w : World)
  : Res unit * World :=
  let s := state w in
  let ip := new_ip cfg s in
  if negb (String.eqb ip (current_dns s)) then
    match update_dns env ip w with
    | (Returned _, w') =>
        (Returned tt,
         announce (Switched ip (server1_status s) (server2_status s)) w')
    | other => other
    end
  else
    (Returned tt,
     save_state
       (announce (NoChange (server1_status s) (server2_status s)
                    (current_dns s)) w)).

(** [x == 1] on a decoded JSON value, [None] for a missing key. *)
Definition equals_one (v : option Json) : bool :=
  match v with
  | Some (JInt z) => z =? 1
  | Some (JBool b) => b
  | Some (JFloat (Finite n d)) => n =? Z.pos d
  | _ => false
  end.

Inductive Reply : Type :=
| Updated (server1Status server2Status : bool)
| InvalidHeartbeat400
| InternalError500.

(** [webhook_server1]; [body] is [None] when [get_json(force=True)] raises.
    Every exception inside the [try] ends in the 500 and its log line. *)
Definition webhook_server1 (cfg : Config) (env : Env) (body : option Json)
  (w : World) : Reply * World :=
  match body with
  | None => (InternalError500, log_event (LogError "server1") w)
  | Some data =>
      let w1 := log_event (LogPayload data) w in
      match data with
      | JObj members =>
          match dict_get "heartbeat" members with
          | Some (JObj hb) =>
              let s := state w1 in
              let up := equals_one (dict_get "status" hb) in
              let w2 := with_state {| server1_status := up;
                                      server2_status := server2_status s;
                                      current_dns := current_dns s |} w1 in
              match decide_failover cfg env w2 with
              | (Returned _, w3) =>
                  (Updated (server1_status (state w3))
                     (server2_status (state w3)), w3)
              | (_, w3) => (InternalError500, log_event (LogError "server1") w3)
              end
          | _ => (InvalidHeartbeat400, log_event LogInvalidHeartbeat w1)
          end
      | _ => (InternalError500, log_event (LogError "server1") w1)
      end
  end.

(** [webhook_server2]: no payload log, no check of the heartbeat; a missing
    [heartbeat] stands for [{}], one that is not an object raises. *)
Definition webhook_server2 (cfg : Config) (env : Env) (body : option Json)
  (w : World) : Reply * World :=
  match body with
  | Some (JObj members) =>
      match match dict_get "heartbeat" members with
            | Some hb => hb
            | None => JObj []
            end
      with
      | JObj hb =>
          let s := state w in
          let up := equals_one (dict_get "status" hb) in
          let w2 := with_state {| server1_status := server1_status s;
                                  server2_status := up;
                                  current_dns := current_dns s |} w in
          match decide_failover cfg env w2 with
          | (Returned _, w3) =>
              (Updated (server1_status (state w3))
                 (server2_status (state w3)), w3)
          | (_, w3) => (InternalError500, log_event (LogError "server2") w3)
          end
      | _ => (InternalError500, log_event (LogError "server2") w)
      end
  | _ => (InternalError500, log_event (LogError "server2") w)
  end.

End Legacy.

(** The health flags and the address of a state of the present script, as
    a state of the first one. *)
Definition legacy_view (s : ServiceState) : Legacy.State := {|
  Legacy.server1_status := server1_up s;
  Legacy.server2_status := server2_up s;
  Legacy.current_dns := current_dns s
|}.

(** ** The read-only routes *)

(** [l.rstrip("\n")] *)
Fixpoint rstrip_newline (l : string) : string :=
  match l with
  | EmptyString => EmptyString
  | String c rest =>
      match rstrip_newline rest with
      | EmptyString =>
          if Ascii.eqb c "010" then EmptyString else String c EmptyString
      | kept => String c kept
      end
  end.

(** The slice [lines[-n:]]: it starts at [-n], counted from the end when
    negative, and clamped to the list. *)
Definition slice_from_minus {A : Type} (n : Z) (lines : list A) : list A :=
  let len := Z.of_nat (List.length lines) in
  let start := if - n <? 0 then Z.max 0 (len - n) else Z.min (- n) len in
  skipn (Z.to_nat start) lines.

(** [tail_log]; [file] is what [readlines] returns, [None] when opening or
    reading the log file raises. *)
Definition tail_log (file : option (list string)) (n : Z) : list string :=
  match file with
  | Some lines => map rstrip_newline (slice_from_minus n lines)
  | None => []
  end.

Definition json_of_opt_int (o : option Z) : Json :=
  match o with Some z => JInt z | None => JNull end.

Definition json_of_opt_bool (o : option bool) : Json :=
  match o with Some b => JBool b | None => JNull end.

(** The JSON [api_status] returns once [requires_auth] lets the request
    through: the public snapshot and, for each cached record, its type,
    content, TTL and proxied flag. *)
Definition status_json (w : World) : Json :=
  JObj [ ("state", JObj (to_public (app_state w)));
         ("records",
          JObj (map (fun kv =>
                       (fst kv,
                        JObj [ ("type", json_of_opt_str (r_type (snd kv)));
                               ("content", json_of_opt_str (r_content (snd kv)));
                               ("ttl", json_of_opt_int (r_ttl (snd kv)));
                               ("proxied", json_of_opt_bool (r_proxied (snd kv))) ]))
                    (cached_records w))) ].

Definition api_status (cfg : Config) (req : AdminRequest) (w : World)
  : Reply + Json :=
  if auth_ok cfg req then inr (status_json w) else inl AuthRequired.

(** A record under another [id]. *)
Definition with_r_id (i : option string) (r : DnsRecord) : DnsRecord := {|
  r_id := i; r_name := r_name r; r_type := r_type r;
  r_content := r_content r; r_ttl := r_ttl r; r_proxied := r_proxied r
|}.

(** ** More example worlds *)

(** A day in the life: a failover, a manual switch back, a settings update
    with a bad number, a rotation of the secret. *)
Definition example_requests : list (Env * Request) :=
  [ (example_env 1, WebhookServer1 (heartbeat "tok" (JInt 0)));
    (broken_env 2, ApiSwitch (admin_request "server1"));
    (flaky_env 3, ApiSwitch (admin_request "server1"));
    (example_env 4,
     ApiConfigPost {| config_admin := admin_request "";
                      config_form := [("ttl", "5"); ("up_threshold", "x")];
                      config_json := WrongMime |});
    (example_env 5, ApiWebhookSecretRotate "tok2" (admin_request ""));
    (example_env 6, WebhookServer2 (heartbeat "tok2" (JInt 0))) ].

Definition legacy_world (s : Legacy.State) (cache : list DnsRecord)
  : Legacy.World := {|
  Legacy.state := s;
  Legacy.cached_records := cache;
  Legacy.state_file := NoFile;
  Legacy.put_requests := [];
  Legacy.telegram := [];
  Legacy.log := []
|}.

(** * Properties *)

(** ** Running the monad *)

Ltac run :=
  cbv beta delta [bind ret raise gets modify logger save_state telegram_send]
    iota.

(** The two cases of [telegram_send]: not configured, configured. *)
Ltac telegram_cases cfg :=
  destruct (String.eqb (TELEGRAM_BOT_TOKEN cfg) ""
            || String.eqb (TELEGRAM_CHAT_ID cfg) "")%bool.

Lemma bind_returned {A B : Type} (m : M A) (k : A -> M B) (w w' : World) (a : A) :
  m w = (Returned a, w') -> bind m k w = k a w'.
Proof. intros H. unfold bind. rewrite H. reflexivity. Qed.

Lemma bind_raised {A B : Type} (m : M A) (k : A -> M B) (w w' : World) :
  m w = (Raised, w') -> bind m k w = (Raised, w').
Proof. intros H. unfold bind. rewrite H. reflexivity. Qed.

Lemma bind_hung {A B : Type} (m : M A) (k : A -> M B) (w w' : World) :
  m w = (Hung, w') -> bind m k w = (Hung, w').
Proof. intros H. unfold bind. rewrite H. reflexivity. Qed.

(** ** The guards *)

Lemma secret_passed (header : option string) (s : ServiceState) :
  webhook_secret_ok header s = true -> _check_webhook_secret header s = Passed.
Proof.
  unfold webhook_secret_ok.
  destruct (_check_webhook_secret header s); [reflexivity | discriminate..].
Qed.

Lemma check_webhook_secret_cases (header : option string) (s : ServiceState) :
  _check_webhook_secret header s = Passed
  \/ _check_webhook_secret header s = Aborted 401
  \/ _check_webhook_secret header s = TypeError.
Proof.
  unfold _check_webhook_secret.
  destruct (negb (str_truthy header)); [auto|].
  destruct (negb (str_truthy (webhook_secret s))); [auto|].
  destruct header as [a|]; [|auto].
  destruct (webhook_secret s) as [b|]; [|auto].
  destruct (compare_digest a b) as [[|]|]; auto.
Qed.

Lemma check_csrf_cases (req : AdminRequest) :
  check_csrf req = Passed \/ check_csrf req = Aborted 400
  \/ check_csrf req = TypeError.
Proof.
  unfold check_csrf.
  destruct (negb (str_truthy (session_csrf req))); [auto|].
  destruct (negb (str_truthy (provided_csrf req))); [auto|].
  destruct (session_csrf req) as [a|]; [|auto].
  destruct (provided_csrf req) as [b|]; [|auto].
  destruct (compare_digest a b) as [[|]|]; auto.
Qed.

Lemma csrf_passed (req : AdminRequest) :
  csrf_ok req = true -> check_csrf req = Passed.
Proof.
  unfold csrf_ok. destruct (check_csrf req); [reflexivity | discriminate..].
Qed.

Lemma compare_digest_true (a b : string) :
  compare_digest a b = Some true <-> a = b /\ isascii a = true.
Proof.
  unfold compare_digest. split.
  - destruct (isascii a) eqn:Ea; [|discriminate].
    destruct (isascii b); [|discriminate]. cbn.
    intros H. injection H as H. apply String.eqb_eq in H. auto.
  - intros [<- Ha]. rewrite Ha. cbn. rewrite String.eqb_refl. reflexivity.
Qed.

Lemma compare_digest_raises (a b : string) :
  compare_digest a b = None <-> isascii a = false \/ isascii b = false.
Proof.
  unfold compare_digest.
  destruct (isascii a), (isascii b); cbn; split; intros H;
    try discriminate; auto; destruct H; discriminate.
Qed.

(** ** The decision rule *)

Lemma choose_s1_eligible (s : ServiceState) :
  choose_s1 s = true <-> target1_eligible s.
Proof.
  unfold choose_s1, target1_eligible.
  rewrite andb_true_iff, orb_true_iff, Z.leb_le, Z.geb_le.
  split; intros [H1 H2]; (split; [exact H1 | destruct H2; [left | right]; lia]).
Qed.

Lemma choose_s2_eligible (s : ServiceState) :
  choose_s2 s = true <-> target2_eligible s.
Proof.
  unfold choose_s2, target2_eligible.
  rewrite !andb_true_iff, orb_true_iff, negb_true_iff, Z.leb_le, Z.geb_le.
  split.
  - intros [[H1 H2] H3]. repeat split; try assumption.
    destruct H3; [left | right]; lia.
  - intros (H1 & H2 & H3). repeat split; try assumption.
    destruct H3; [left | right]; lia.
Qed.

Lemma desired_ip_spec (cfg : Config) (s : ServiceState) :
  spec_desired cfg s (desired_ip cfg s).
Proof.
  unfold spec_desired, desired_ip.
  destruct (choose_s1 s) eqn:E1.
  - left. split; [apply choose_s1_eligible; exact E1 | reflexivity].
  - assert (N1 : ~ target1_eligible s).
    { intros H. apply choose_s1_eligible in H. congruence. }
    destruct (choose_s2 s) eqn:E2.
    + right; left. repeat split; try assumption.
      * apply (proj1 (choose_s2_eligible s) E2).
      * apply (proj1 (choose_s2_eligible s) E2).
      * apply (proj1 (choose_s2_eligible s) E2).
    + right; right. repeat split; try assumption.
      intros H. apply choose_s2_eligible in H. congruence.
Qed.

Lemma update_streaks_keeps (s : ServiceState) :
  server1_up (update_streaks s) = server1_up s
  /\ server2_up (update_streaks s) = server2_up s
  /\ current_dns (update_streaks s) = current_dns s
  /\ last_switch_at (update_streaks s) = last_switch_at s
  /\ freeze (update_streaks s) = freeze s
  /\ up_threshold (update_streaks s) = up_threshold s
  /\ cooldown_seconds (update_streaks s) = cooldown_seconds s
  /\ webhook_secret (update_streaks s) = webhook_secret s.
Proof. repeat split. Qed.

(** ** The record cache *)

(** A registrar whose first page is the last one is read in one request. *)
Lemma load_pages_single_page (cfg : Config) (get : Z -> PageResult)
  (fuel : nat) (result : list DnsRecord) :
  get 1 = Page result None ->
  load_pages cfg get (S fuel) 1 [] = PagesDone (add_page cfg result []).
Proof. intros H. cbn [load_pages]. rewrite H. reflexivity. Qed.

(** An exception on any page leaves the cache as it was. *)
Lemma load_dns_records_raises (cfg : Config) (env : Env) (w : World) :
  load_pages cfg (cf_get env) (max_pages env) 1 [] = PagesRaise ->
  load_dns_records cfg env w = (Raised, w).
Proof. intros H. unfold load_dns_records. rewrite H. reflexivity. Qed.

Example load_pages_two_pages :
  load_pages example_cfg
    (fun page =>
       if page =? 1 then Page [example_record "a.example" "id-a"] (Some 2)
       else Page [example_record "b.example" "id-b";
                  example_record "a.example" "id-a2"] (Some 2))
    8 1 []
  = PagesDone [("a.example", example_record "a.example" "id-a2");
               ("b.example", example_record "b.example" "id-b")].
Proof. reflexivity. Qed.

(** ** The synchroniser *)

Lemma emit_nil (w : World) : emit [] [] w = w.
Proof. destruct w. unfold emit. cbn. rewrite !app_nil_r. reflexivity. Qed.

Lemma emit_emit (l1 l2 : list LogLine) (p1 p2 : list (string * Payload))
  (w : World) :
  emit l2 p2 (emit l1 p1 w) = emit (l1 ++ l2) (p1 ++ p2) w.
Proof. destruct w. unfold emit. cbn. rewrite !app_assoc. reflexivity. Qed.

Lemma put_record_answered (env : Env) (new_ip name : string)
  (record : DnsRecord) (w : World) :
  answers env ->
  put_record env new_ip name record w =
  (Returned tt,
   emit (map (answer_line env new_ip)
           (attempt new_ip (ttl (app_state w)) (name, record)))
        (attempt new_ip (ttl (app_state w)) (name, record)) w).
Proof.
  intros Hans. unfold put_record, attempt. cbn [fst snd].
  destruct (r_id record) as [rid|] eqn:Eid; cbn [str_truthy].
  - destruct (String.eqb rid "") eqn:Eempty; cbn [negb].
    + rewrite emit_nil. reflexivity.
    + unfold http_put. run. fold (payload_for new_ip (ttl (app_state w)) name record).
      cbn [app_state with_put_requests].
      unfold answer_line. cbn [map fst snd].
      pose proof (Hans rid (payload_for new_ip (ttl (app_state w)) name record)) as Hne.
      destruct (cf_put env rid (payload_for new_ip (ttl (app_state w)) name record));
        try congruence; destruct w; reflexivity.
  - rewrite emit_nil. reflexivity.
Qed.

Lemma put_records_answered (env : Env) (new_ip : string)
  (items : list (string * DnsRecord)) :
  answers env ->
  forall w,
    put_records env new_ip items w =
    (Returned tt,
     emit (map (answer_line env new_ip)
             (expected_puts new_ip (ttl (app_state w)) items))
          (expected_puts new_ip (ttl (app_state w)) items) w).
Proof.
  intros Hans. induction items as [|[name record] rest IH]; intros w.
  - cbn. rewrite emit_nil. reflexivity.
  - cbn [put_records].
    rewrite (bind_returned _ _ _ _ _ (put_record_answered env new_ip name record w Hans)).
    rewrite IH. rewrite emit_emit.
    unfold expected_puts. cbn [flat_map]. rewrite map_app.
    destruct w; reflexivity.
Qed.

(** Whatever the registrar does, the loop over the records touches neither
    the state, the cache nor the file. *)
Lemma put_record_frame (env : Env) (new_ip name : string) (record : DnsRecord)
  (w : World) :
  let w' := snd (put_record env new_ip name record w) in
  app_state w' = app_state w /\ cached_records w' = cached_records w
  /\ state_file w' = state_file w /\ telegram w' = telegram w.
Proof.
  unfold put_record.
  destruct (str_truthy (r_id record)); [|cbn; auto].
  destruct (r_id record) as [rid|]; [|cbn; auto].
  unfold http_put. run. cbn [app_state with_put_requests].
  match goal with |- context [cf_put env rid ?p] => destruct (cf_put env rid p) end;
    cbn; auto.
Qed.

Lemma put_records_frame (env : Env) (new_ip : string)
  (items : list (string * DnsRecord)) :
  forall w,
    let w' := snd (put_records env new_ip items w) in
    app_state w' = app_state w /\ cached_records w' = cached_records w
    /\ state_file w' = state_file w /\ telegram w' = telegram w.
Proof.
  induction items as [|[name record] rest IH]; intros w; cbn zeta.
  - cbn. auto.
  - cbn [put_records]. unfold bind.
    pose proof (put_record_frame env new_ip name record w) as Hf. cbn zeta in Hf.
    destruct (put_record env new_ip name record w) as [[[]| |] w1]; cbn [snd] in *.
    + specialize (IH w1). cbn zeta in IH.
      destruct IH as (I1 & I2 & I3 & I4). destruct Hf as (F1 & F2 & F3 & F4).
      repeat split; congruence.
    + exact Hf.
    + exact Hf.
Qed.

(** With records in the cache and a registrar that answers, [update_dns]
    issues the expected requests and commits. *)
Lemma update_dns_cached (cfg : Config) (py : PyRuntime) (env : Env)
  (new_ip : string) (w : World) :
  cached_records w <> [] ->
  answers env ->
  update_dns cfg py env new_ip w =
  (Returned tt,
   let reqs := expected_puts new_ip (ttl (app_state w)) (cached_records w) in
   let w1 := emit (map (answer_line env new_ip) reqs) reqs w in
   let s' := set_published new_ip (utc_iso py (now_publish env)) (app_state w) in
   with_state_file (save s') (with_app_state s' w1)).
Proof.
  intros Hne Hans. unfold update_dns. run.
  destruct (cached_records w) as [|item rest] eqn:Ec; [congruence|].
  cbn beta iota. rewrite Ec.
  rewrite <- Ec at 1.
  rewrite (put_records_answered env new_ip (cached_records w) Hans w).
  unfold commit_switch. run. rewrite Ec. destruct w; reflexivity.
Qed.

Lemma update_dns_unfold (cfg : Config) (py : PyRuntime) (env : Env)
  (new_ip : string) (w : World) :
  update_dns cfg py env new_ip w =
  match cached_records w with
  | [] =>
      match load_pages cfg (cf_get env) (max_pages env) 1 [] with
      | PagesDone found =>
          publish_cached py env new_ip
            (with_log (log w ++ [LogCached (dict_keys found)])
               (with_cached_records found w))
      | PagesRaise => (Raised, w)
      | PagesEndless => (Hung, w)
      end
  | _ => publish_cached py env new_ip w
  end.
Proof.
  unfold update_dns. fold (publish_cached py env new_ip).
  unfold bind at 1. unfold gets at 1.
  destruct (cached_records w) as [|item rest].
  - unfold bind, load_dns_records.
    destruct (load_pages cfg (cf_get env) (max_pages env) 1 []); reflexivity.
  - reflexivity.
Qed.

Lemma publish_cached_state (py : PyRuntime) (env : Env) (new_ip : string)
  (w : World) :
  let r := publish_cached py env new_ip w in
  (app_state (snd r) = app_state w /\ state_file (snd r) = state_file w)
  \/ (fst r = Returned tt
      /\ app_state (snd r) =
         set_published new_ip (utc_iso py (now_publish env)) (app_state w)).
Proof.
  cbn zeta. unfold publish_cached. run.
  destruct (cached_records w) as [|item rest] eqn:Ec.
  - left. cbn. auto.
  - pose proof (put_records_frame env new_ip (item :: rest) w) as Hfr.
    cbn zeta in Hfr.
    destruct (put_records env new_ip (item :: rest) w) as [[[]| |] w1];
      cbn [snd fst] in *.
    + right. unfold commit_switch. run. cbn.
      destruct Hfr as (F1 & _). rewrite F1. auto.
    + left. destruct Hfr as (F1 & _ & F3 & _). split; congruence.
    + left. destruct Hfr as (F1 & _ & F3 & _). split; congruence.
Qed.

(** In every environment [update_dns] leaves the state as it was or commits
    the new address; nothing else of the state moves. *)
Lemma update_dns_state (cfg : Config) (py : PyRuntime) (env : Env)
  (new_ip : string) (w : World) :
  let r := update_dns cfg py env new_ip w in
  (app_state (snd r) = app_state w /\ state_file (snd r) = state_file w)
  \/ (fst r = Returned tt
      /\ app_state (snd r) =
         set_published new_ip (utc_iso py (now_publish env)) (app_state w)).
Proof.
  cbn zeta. rewrite update_dns_unfold.
  destruct (cached_records w) as [|item rest].
  - destruct (load_pages cfg (cf_get env) (max_pages env) 1 []) as [found| |].
    + apply (publish_cached_state py env new_ip
               (with_log (log w ++ [LogCached (dict_keys found)])
                  (with_cached_records found w))).
    + left. cbn. auto.
    + left. cbn. auto.
  - apply publish_cached_state.
Qed.

(** ** C7: publication with no managed record *)

(** C7.  If [update_dns] is called while the record cache is empty, the
    cache is refreshed first (the refresh leaves its log line); if the cache
    is still empty after the refresh, the call logs the no-records error and
    returns without touching anything: the state (so [current_dns] and
    [last_switch_at]) and the state file are as before, and no request was
    sent to update a record. *)
Theorem update_dns_without_records (cfg : Config) (py : PyRuntime) (env : Env)
  (new_ip : string) (w : World) :
  cached_records w = [] ->
  load_pages cfg (cf_get env) (max_pages env) 1 [] = PagesDone [] ->
  let r := update_dns cfg py env new_ip w in
  fst r = Returned tt
  /\ log (snd r) = (log w ++ [LogCached []; LogNoRecords])%list
  /\ app_state (snd r) = app_state w
  /\ current_dns (app_state (snd r)) = current_dns (app_state w)
  /\ last_switch_at (app_state (snd r)) = last_switch_at (app_state w)
  /\ state_file (snd r) = state_file w
  /\ put_requests (snd r) = put_requests w
  /\ cached_records (snd r) = [].
Proof.
  intros Hc Hl. cbn zeta. rewrite update_dns_unfold, Hc, Hl.
  unfold publish_cached. run. cbn.
  rewrite <- app_assoc. cbn. repeat split; reflexivity.
Qed.

Lemma update_dns_without_records_witness :
  let w := example_world (defaults example_cfg) [] in
  let r := update_dns example_cfg example_py (example_env 0) "5.6.7.8" w in
  fst r = Returned tt
  /\ log (snd r) = (log w ++ [LogCached []; LogNoRecords])%list
  /\ app_state (snd r) = app_state w
  /\ current_dns (app_state (snd r)) = current_dns (app_state w)
  /\ last_switch_at (app_state (snd r)) = last_switch_at (app_state w)
  /\ state_file (snd r) = state_file w
  /\ put_requests (snd r) = put_requests w
  /\ cached_records (snd r) = [].
Proof.
  exact (update_dns_without_records example_cfg example_py (example_env 0)
           "5.6.7.8" (example_world (defaults example_cfg) [])
           eq_refl eq_refl).
Defined.

(** ** C6: partial failure isolation *)

(** C6, as stated, fails: an entry of the cache that has no [id] is skipped
    by the guard [if not record_id: continue], so no update is attempted for
    it. *)
Lemma update_dns_skips_record_without_id :
  let w := example_world (defaults example_cfg) cache_with_gap in
  let r := update_dns example_cfg example_py (example_env 0) "5.6.7.8" w in
  cached_records w <> []
  /\ map (fun req => p_name (snd req)) (put_requests (snd r))
     = ["a.example"; "c.example"]
  /\ ~ every_record_attempted w (snd r).
Proof.
  cbn zeta. split; [discriminate|]. split; [reflexivity|].
  intros H.
  destruct (H "b.example"
              {| r_id := None; r_name := "b.example"; r_type := Some "A";
                 r_content := Some "1.2.3.4"; r_ttl := Some 60;
                 r_proxied := Some false |})
    as (rid & p & Hin & Hname).
  { cbn. right; left. reflexivity. }
  cbn in Hin.
  destruct Hin as [Hin | [Hin | []]]; inversion Hin; subst p; discriminate.
Qed.

(** C6, amended.  For every [update_dns(new_ip)] with a non-empty record
    cache and a registrar that answers each request (successfully or with an
    HTTP error), an update is attempted, in cache order, for every cached
    record that carries a non-empty [id], whatever the answers to the earlier
    ones were; and after the last one, however many were answered with an
    error, [current_dns] is [new_ip], [last_switch_at] is the stamp of the
    present time and the state file holds the new state. *)
Theorem update_dns_attempts_all_and_commits (cfg : Config) (py : PyRuntime)
  (env : Env) (new_ip : string) (w : World) :
  cached_records w <> [] ->
  answers env ->
  let r := update_dns cfg py env new_ip w in
  let reqs := expected_puts new_ip (ttl (app_state w)) (cached_records w) in
  fst r = Returned tt
  /\ put_requests (snd r) = (put_requests w ++ reqs)%list
  /\ (forall name record record_id,
        In (name, record) (cached_records w) ->
        r_id record = Some record_id -> record_id <> "" ->
        In (record_id, payload_for new_ip (ttl (app_state w)) name record)
           (put_requests (snd r)))
  /\ log (snd r) = (log w ++ map (answer_line env new_ip) reqs)%list
  /\ current_dns (app_state (snd r)) = new_ip
  /\ last_switch_at (app_state (snd r)) = Some (utc_iso py (now_publish env))
  /\ state_file (snd r) = save (app_state (snd r)).
Proof.
  intros Hne Hans. cbn zeta.
  rewrite (update_dns_cached cfg py env new_ip w Hne Hans). cbn.
  repeat split.
  intros name record rid Hin Hid Hnonempty.
  apply in_or_app. right. unfold expected_puts. apply in_flat_map.
  exists (name, record). split; [exact Hin|].
  unfold attempt. cbn [fst snd]. rewrite Hid.
  destruct (String.eqb rid "") eqn:E.
  - apply String.eqb_eq in E. contradiction.
  - left. reflexivity.
Qed.

Lemma flaky_env_answers (t : Z) : answers (flaky_env t).
Proof.
  intros rid p. cbn. destruct (String.eqb rid "id-b"); discriminate.
Qed.

Lemma example_env_answers (t : Z) : answers (example_env t).
Proof. intros rid p. cbn. discriminate. Qed.

Lemma update_dns_attempts_all_and_commits_witness :
  let w := example_world (defaults example_cfg) three_records in
  let r := update_dns example_cfg example_py (flaky_env 7) "5.6.7.8" w in
  let reqs := expected_puts "5.6.7.8" (ttl (app_state w)) (cached_records w) in
  fst r = Returned tt
  /\ put_requests (snd r) = (put_requests w ++ reqs)%list
  /\ (forall name record record_id,
        In (name, record) (cached_records w) ->
        r_id record = Some record_id -> record_id <> "" ->
        In (record_id, payload_for "5.6.7.8" (ttl (app_state w)) name record)
           (put_requests (snd r)))
  /\ log (snd r) = (log w ++ map (answer_line (flaky_env 7) "5.6.7.8") reqs)%list
  /\ current_dns (app_state (snd r)) = "5.6.7.8"
  /\ last_switch_at (app_state (snd r)) = Some (utc_iso example_py 7)
  /\ state_file (snd r) = save (app_state (snd r)).
Proof.
  refine (update_dns_attempts_all_and_commits example_cfg example_py
            (flaky_env 7) "5.6.7.8"
            (example_world (defaults example_cfg) three_records) _ _).
  - discriminate.
  - exact (flaky_env_answers 7).
Defined.

(** ** C10: the manual switch is not gated *)

(** C10, at a failing input: a non-empty cache of three records and a
    registrar on which the second update request raises (a timeout, a
    refused connection).  [requests.put] is called without a handler, so
    the exception leaves [update_dns] in the middle of the loop and before
    the commit block: the direct call and the manual switch end in the
    exception, the first two requests have gone out, and [current_dns] and
    [last_switch_at] are as before, where the claim has them set to the
    requested address and stamped. *)
Lemma manual_switch_stopped_by_transport_error :
  let w := example_world frozen_cooling_state three_records in
  let direct := update_dns example_cfg example_py (broken_env 5) "5.6.7.8" w in
  let r := api_switch example_cfg example_py (broken_env 5)
             (admin_request "server2") w in
  cached_records w <> []
  /\ (fst direct = Raised
      /\ current_dns (app_state (snd direct)) = "1.2.3.4"
      /\ last_switch_at (app_state (snd direct)) = Some "0Z")
  /\ (fst r = Raised
      /\ current_dns (app_state (snd r)) = "1.2.3.4"
      /\ last_switch_at (app_state (snd r)) = Some "0Z"
      /\ map (fun req => p_name (snd req)) (put_requests (snd r))
         = ["a.example"; "b.example"]).
Proof. cbn zeta. split; [discriminate|]. repeat split; reflexivity. Qed.

(** Publication is not gated.  For every state with a non-empty record
    cache and a registrar that answers every update request (with success
    or with an HTTP error), a direct call of [update_dns], and so the
    manual-switch endpoint [api_switch] once the request is authorised and
    names a target, sets [current_dns] to the requested IP and stamps
    [last_switch_at], whatever [freeze], [cooldown_seconds] and the previous
    [last_switch_at] are: none of them is a hypothesis, and [freeze] is
    left as it was. *)
Theorem manual_switch_ignores_freeze_and_cooldown (cfg : Config)
  (py : PyRuntime) (env : Env) (w : World) :
  cached_records w <> [] ->
  answers env ->
  (forall new_ip,
     let r := update_dns cfg py env new_ip w in
     fst r = Returned tt
     /\ current_dns (app_state (snd r)) = new_ip
     /\ last_switch_at (app_state (snd r)) = Some (utc_iso py (now_publish env))
     /\ freeze (app_state (snd r)) = freeze (app_state w)
     /\ cooldown_seconds (app_state (snd r)) = cooldown_seconds (app_state w))
  /\ (forall req,
        auth_ok cfg req = true -> csrf_ok req = true ->
        (lower (form_target req) = "server1" \/ lower (form_target req) = "server2") ->
        let r := api_switch cfg py env req w in
        let ip := if String.eqb (lower (form_target req)) "server1"
                  then SERVER1_IP cfg else SERVER2_IP cfg in
        fst r = Returned HxRefresh
        /\ current_dns (app_state (snd r)) = ip
        /\ last_switch_at (app_state (snd r)) = Some (utc_iso py (now_publish env))
        /\ freeze (app_state (snd r)) = freeze (app_state w)).
Proof.
  intros Hne Hans. split.
  - intros new_ip. cbn zeta.
    rewrite (update_dns_cached cfg py env new_ip w Hne Hans). cbn.
    repeat split.
  - intros req Hauth Hcsrf Htarget. cbn zeta.
    unfold api_switch. rewrite Hauth, (csrf_passed _ Hcsrf). cbn [negb].
    assert (Hin : (String.eqb (lower (form_target req)) "server1"
                   || String.eqb (lower (form_target req)) "server2")%bool = true).
    { destruct Htarget as [-> | ->]; reflexivity. }
    rewrite Hin. cbn [negb].
    rewrite (bind_returned _ _ _ _ _ (update_dns_cached cfg py env _ w Hne Hans)).
    cbn. repeat split.
Qed.

Lemma manual_switch_ignores_freeze_and_cooldown_witness :
  freeze frozen_cooling_state = true
  /\ _cooldown_ok example_py 5 frozen_cooling_state
       (last_switch_at frozen_cooling_state) = false
  /\ (let r := api_switch example_cfg example_py (example_env 5)
                 (admin_request "Server2")
                 (example_world frozen_cooling_state three_records) in
      fst r = Returned HxRefresh
      /\ current_dns (app_state (snd r)) = "5.6.7.8"
      /\ last_switch_at (app_state (snd r)) = Some "5Z"
      /\ freeze (app_state (snd r)) = true).
Proof.
  split; [reflexivity|]. split; [reflexivity|].
  refine (proj2 (manual_switch_ignores_freeze_and_cooldown example_cfg
                   example_py (example_env 5)
                   (example_world frozen_cooling_state three_records) _ _)
                (admin_request "Server2") _ _ _).
  - discriminate.
  - exact (example_env_answers 5).
  - reflexivity.
  - reflexivity.
  - right. reflexivity.
Defined.

(** ** The decision engine, branch by branch *)

Lemma decide_failover_frozen (cfg : Config) (py : PyRuntime) (env : Env)
  (source : string) (w : World) :
  freeze (app_state w) = true ->
  decide_failover cfg py env source w =
  let s := app_state w in
  let msg := MsgFrozen (server1_up s) (server2_up s) (current_dns s) in
  (Returned msg, with_log (log w ++ [LogDecision msg]) w).
Proof.
  intros Hf. unfold decide_failover. run. rewrite Hf. reflexivity.
Qed.

Lemma decide_failover_cooldown (cfg : Config) (py : PyRuntime) (env : Env)
  (source : string) (w : World) :
  freeze (app_state w) = false ->
  _cooldown_ok py (now_decide env) (app_state w)
    (last_switch_at (app_state w)) = false ->
  decide_failover cfg py env source w =
  let msg := MsgCooldown (current_dns (app_state w)) in
  (Returned msg, with_log (log w ++ [LogDecision msg]) w).
Proof.
  intros Hf Hc. unfold decide_failover. run. rewrite Hf, Hc. reflexivity.
Qed.

Lemma decide_failover_unchanged (cfg : Config) (py : PyRuntime) (env : Env)
  (source : string) (w : World) :
  freeze (app_state w) = false ->
  _cooldown_ok py (now_decide env) (app_state w)
    (last_switch_at (app_state w)) = true ->
  desired_ip cfg (update_streaks (app_state w)) = current_dns (app_state w) ->
  decide_failover cfg py env source w =
  let s := update_streaks (app_state w) in
  let msg := MsgNoChange (server1_up s) (server2_up s) (current_dns s) in
  (Returned msg,
   with_state_file (save s) (with_log (log w ++ [LogDecision msg]) (streaked w))).
Proof.
  intros Hf Hc Hd. unfold decide_failover. run. rewrite Hf, Hc.
  cbn [negb app_state with_app_state]. rewrite Hd.
  change (current_dns (update_streaks (app_state w)))
    with (current_dns (app_state w)).
  rewrite String.eqb_refl. reflexivity.
Qed.

Lemma decide_failover_changed (cfg : Config) (py : PyRuntime) (env : Env)
  (source : string) (w : World) :
  freeze (app_state w) = false ->
  _cooldown_ok py (now_decide env) (app_state w)
    (last_switch_at (app_state w)) = true ->
  desired_ip cfg (update_streaks (app_state w)) <> current_dns (app_state w) ->
  decide_failover cfg py env source w =
  switch_to cfg py env (desired_ip cfg (update_streaks (app_state w))) source
    (streaked w).
Proof.
  intros Hf Hc Hd. unfold decide_failover. run. rewrite Hf, Hc.
  cbn [negb app_state with_app_state].
  change (current_dns (update_streaks (app_state w)))
    with (current_dns (app_state w)).
  apply String.eqb_neq in Hd. rewrite Hd. reflexivity.
Qed.

(** [switch_to] returns the switched message or does not return a message
    at all; the flags it reports are those of the world it started in. *)
Lemma switch_to_result (cfg : Config) (py : PyRuntime) (env : Env)
  (desired source : string) (w : World) :
  match fst (switch_to cfg py env desired source w) with
  | Returned msg =>
      msg = MsgSwitched desired source (server1_up (app_state w))
              (server2_up (app_state w))
      /\ fst (update_dns cfg py env desired w) = Returned tt
  | Raised => fst (update_dns cfg py env desired w) = Raised
  | Hung => fst (update_dns cfg py env desired w) = Hung
  end.
Proof.
  unfold switch_to, bind at 1.
  pose proof (update_dns_state cfg py env desired w) as Hs. cbn zeta in Hs.
  destruct (update_dns cfg py env desired w) as [[[]| |] w1]; cbn [fst snd] in *.
  - run. telegram_cases cfg; cbn [fst]; (split; [|reflexivity]);
      destruct Hs as [[Hs _] | [_ Hs]]; rewrite Hs; reflexivity.
  - reflexivity.
  - reflexivity.
Qed.

Lemma switch_to_state (cfg : Config) (py : PyRuntime) (env : Env)
  (desired source : string) (w : World) :
  app_state (snd (switch_to cfg py env desired source w))
  = app_state (snd (update_dns cfg py env desired w)).
Proof.
  unfold switch_to, bind at 1.
  destruct (update_dns cfg py env desired w) as [[[]| |] w1];
    try reflexivity.
  run. telegram_cases cfg; reflexivity.
Qed.

(** ** C1: the desired target *)

(** C1.  At every decision the desired target, computed from the state as
    it stands when lines 264-273 run (the streaks have just been updated),
    is target 1's IP if [server1_up] holds and ([up_threshold <= 1] or
    [_s1_up_streak >= up_threshold]); else target 2's IP if target 1 is
    down, [server2_up] holds and ([up_threshold <= 1] or
    [_s2_up_streak >= up_threshold]); else the published value, unchanged.
    In particular with both targets down the published value is held.  The
    message the decision returns agrees with it: a switch is announced to
    exactly that target and only when it differs from the published value,
    every other message leaves [current_dns] as it was, and a decision that
    returns no message is one whose switch was under way. *)
Theorem desired_target_rule (cfg : Config) (py : PyRuntime) (env : Env)
  (source : string) (w : World) :
  let s := update_streaks (app_state w) in
  let r := decide_failover cfg py env source w in
  spec_desired cfg s (desired_ip cfg s)
  /\ (server1_up s = false -> server2_up s = false ->
      desired_ip cfg s = current_dns (app_state w))
  /\ match fst r with
     | Returned (MsgSwitched d _ _ _) =>
         d = desired_ip cfg s /\ d <> current_dns (app_state w)
     | Returned (MsgNoChange _ _ cur) =>
         desired_ip cfg s = current_dns (app_state w)
         /\ cur = current_dns (app_state w)
         /\ current_dns (app_state (snd r)) = current_dns (app_state w)
     | Returned (MsgFrozen _ _ cur) | Returned (MsgCooldown cur) =>
         cur = current_dns (app_state w)
         /\ app_state (snd r) = app_state w
     | Raised | Hung => desired_ip cfg s <> current_dns (app_state w)
     end.
Proof.
  cbn zeta. split; [apply desired_ip_spec|]. split.
  - intros H1 H2. unfold desired_ip, choose_s1, choose_s2.
    rewrite H1, H2. reflexivity.
  - destruct (freeze (app_state w)) eqn:Hf.
    { rewrite decide_failover_frozen by exact Hf. cbn. auto. }
    destruct (_cooldown_ok py (now_decide env) (app_state w)
                (last_switch_at (app_state w))) eqn:Hc.
    2:{ rewrite decide_failover_cooldown by assumption. cbn. auto. }
    destruct (String.eqb (desired_ip cfg (update_streaks (app_state w)))
                (current_dns (app_state w))) eqn:Hd.
    + apply String.eqb_eq in Hd.
      rewrite decide_failover_unchanged by assumption. cbn. auto.
    + apply String.eqb_neq in Hd.
      rewrite decide_failover_changed by assumption.
      pose proof (switch_to_result cfg py env
                    (desired_ip cfg (update_streaks (app_state w))) source
                    (streaked w)) as Hr.
      destruct (fst (switch_to cfg py env
                       (desired_ip cfg (update_streaks (app_state w))) source
                       (streaked w))) as [msg| |].
      * destruct Hr as [-> _]. split; [reflexivity | exact Hd].
      * exact Hd.
      * exact Hd.
Qed.

Lemma desired_target_rule_witness :
  desired_ip example_cfg (update_streaks both_down_state) = "5.6.7.8".
Proof.
  exact (proj1 (proj2 (desired_target_rule example_cfg example_py
                         (example_env 0) "auto"
                         (example_world both_down_state three_records)))
               eq_refl eq_refl).
Defined.

(** ** The webhook handlers *)

Lemma webhook_server1_accepted (cfg : Config) (py : PyRuntime) (env : Env)
  (req : WebhookRequest) (j : Json) (w : World) :
  webhook_secret_ok (x_webhook_secret req) (app_state w) = true ->
  body req = Decoded j ->
  webhook_server1 cfg py env req w =
  let is_up := _parse_status py (json_or_empty j) in
  (msg <- decide_failover cfg py env "webhook:s1";;
   s <- gets app_state;;
   ret (WebhookUpdated is_up (server2_up s) msg)) (reported1 is_up w).
Proof.
  intros Hs Hb. unfold webhook_server1.
  unfold bind at 1, gets at 1. rewrite (secret_passed _ _ Hs), Hb. reflexivity.
Qed.

Lemma webhook_server2_accepted (cfg : Config) (py : PyRuntime) (env : Env)
  (req : WebhookRequest) (j : Json) (w : World) :
  webhook_secret_ok (x_webhook_secret req) (app_state w) = true ->
  body req = Decoded j ->
  webhook_server2 cfg py env req w =
  let is_up := _parse_status py (json_or_empty j) in
  (msg <- decide_failover cfg py env "webhook:s2";;
   s <- gets app_state;;
   ret (WebhookUpdated (server1_up s) is_up msg)) (reported2 is_up w).
Proof.
  intros Hs Hb. unfold webhook_server2.
  unfold bind at 1, gets at 1. rewrite (secret_passed _ _ Hs), Hb. reflexivity.
Qed.

(** ** C4: freeze *)

(** C4.  While [freeze] is true every decision returns the frozen hold and
    recomputes nothing: the state, and so [current_dns] and the streaks, the
    cache and the file are as before and no request goes to the registrar.
    This is so whatever the heartbeats report: a heartbeat still sets its
    flag, and the decision it triggers holds.  Once [api_freeze] has cleared
    the flag, the next decision is evaluated as any other: held if the
    cooldown is running, else recomputed from the flags as they now are,
    ending in no change or in a switch to the desired target. *)
Theorem freeze_holds_until_cleared (cfg : Config) (py : PyRuntime) (env : Env)
  (source : string) (w : World) :
  (freeze (app_state w) = true ->
   decide_failover cfg py env source w =
   let s := app_state w in
   let msg := MsgFrozen (server1_up s) (server2_up s) (current_dns s) in
   (Returned msg, with_log (log w ++ [LogDecision msg]) w))
  /\ (freeze (app_state w) = true ->
      forall req j,
        webhook_secret_ok (x_webhook_secret req) (app_state w) = true ->
        body req = Decoded j ->
        let is_up := _parse_status py (json_or_empty j) in
        let r1 := webhook_server1 cfg py env req w in
        let r2 := webhook_server2 cfg py env req w in
        (fst r1 = Returned (WebhookUpdated is_up (server2_up (app_state w))
                     (MsgFrozen is_up (server2_up (app_state w))
                        (current_dns (app_state w))))
         /\ app_state (snd r1) = set_server1_up is_up (app_state w)
         /\ current_dns (app_state (snd r1)) = current_dns (app_state w)
         /\ put_requests (snd r1) = put_requests w)
        /\ (fst r2 = Returned (WebhookUpdated (server1_up (app_state w)) is_up
                        (MsgFrozen (server1_up (app_state w)) is_up
                           (current_dns (app_state w))))
            /\ app_state (snd r2) = set_server2_up is_up (app_state w)
            /\ current_dns (app_state (snd r2)) = current_dns (app_state w)
            /\ put_requests (snd r2) = put_requests w))
  /\ (forall req,
        auth_ok cfg req = true -> csrf_ok req = true ->
        existsb (String.eqb (lower (form_enabled req)))
          ["1"; "true"; "yes"; "on"] = false ->
        let w1 := snd (api_freeze cfg req w) in
        let s1 := app_state w1 in
        let cooled := _cooldown_ok py (now_decide env) s1 (last_switch_at s1) in
        let desired := desired_ip cfg (update_streaks s1) in
        s1 = set_freeze false (app_state w)
        /\ (cooled = false ->
            decide_failover cfg py env source w1 =
            (Returned (MsgCooldown (current_dns s1)),
             with_log (log w1 ++ [LogDecision (MsgCooldown (current_dns s1))]) w1))
        /\ (cooled = true -> desired = current_dns s1 ->
            fst (decide_failover cfg py env source w1) =
            Returned (MsgNoChange (server1_up s1) (server2_up s1) (current_dns s1))
            /\ app_state (snd (decide_failover cfg py env source w1))
               = update_streaks s1)
        /\ (cooled = true -> desired <> current_dns s1 ->
            decide_failover cfg py env source w1 =
            switch_to cfg py env desired source (streaked w1))).
Proof.
  split; [|split].
  - apply decide_failover_frozen.
  - intros Hf req j Hs Hb. cbn zeta.
    rewrite (webhook_server1_accepted cfg py env req j w Hs Hb).
    rewrite (webhook_server2_accepted cfg py env req j w Hs Hb).
    cbn zeta. split.
    + rewrite (bind_returned _ _ _ _ _
                 (decide_failover_frozen cfg py env "webhook:s1"
                    (reported1 (_parse_status py (json_or_empty j)) w) Hf)).
      cbn. repeat split.
    + rewrite (bind_returned _ _ _ _ _
                 (decide_failover_frozen cfg py env "webhook:s2"
                    (reported2 (_parse_status py (json_or_empty j)) w) Hf)).
      cbn. repeat split.
  - intros req Ha Hc He. cbn zeta.
    assert (Hw1 : app_state (snd (api_freeze cfg req w))
                  = set_freeze false (app_state w)).
    { unfold api_freeze. rewrite Ha, (csrf_passed _ Hc), He. reflexivity. }
    split; [exact Hw1|].
    assert (Hfz : freeze (app_state (snd (api_freeze cfg req w))) = false).
    { rewrite Hw1. reflexivity. }
    split; [|split].
    + intros Hcool. apply decide_failover_cooldown; assumption.
    + intros Hcool Hd.
      rewrite decide_failover_unchanged by assumption. cbn. split; reflexivity.
    + intros Hcool Hd. apply decide_failover_changed; assumption.
Qed.

Lemma freeze_holds_until_cleared_witness :
  let w := example_world frozen_failed_state three_records in
  decide_failover example_cfg example_py (example_env 9) "auto" w
  = (Returned (MsgFrozen false true "1.2.3.4"),
     with_log [LogDecision (MsgFrozen false true "1.2.3.4")] w)
  /\ (let w1 := snd (api_freeze example_cfg (admin_request "") w) in
      decide_failover example_cfg example_py (example_env 9) "auto" w1
      = switch_to example_cfg example_py (example_env 9) "5.6.7.8" "auto"
          (streaked w1)).
Proof.
  split.
  - exact (proj1 (freeze_holds_until_cleared example_cfg example_py
                    (example_env 9) "auto"
                    (example_world frozen_failed_state three_records))
                 eq_refl).
  - destruct (proj2 (proj2
                 (freeze_holds_until_cleared example_cfg example_py
                    (example_env 9) "auto"
                    (example_world frozen_failed_state three_records)))
                (admin_request "") eq_refl eq_refl eq_refl)
      as (_ & _ & _ & Hswitch).
    apply Hswitch; [reflexivity | discriminate].
Defined.

(** ** C3: cooldown *)

Lemma switch_to_cached (cfg : Config) (py : PyRuntime) (env : Env)
  (desired source : string) (w : World) :
  cached_records w <> [] ->
  answers env ->
  let r := switch_to cfg py env desired source w in
  let s' := set_published desired (utc_iso py (now_publish env)) (app_state w) in
  fst r = Returned (MsgSwitched desired source (server1_up (app_state w))
                      (server2_up (app_state w)))
  /\ app_state (snd r) = s'
  /\ cached_records (snd r) = cached_records w
  /\ state_file (snd r) = save s'
  /\ put_requests (snd r)
     = (put_requests w
        ++ expected_puts desired (ttl (app_state w)) (cached_records w))%list.
Proof.
  intros Hne Hans. cbn zeta. unfold switch_to.
  rewrite (bind_returned _ _ _ _ _ (update_dns_cached cfg py env desired w Hne Hans)).
  run. telegram_cases cfg; cbn; repeat split.
Qed.



(** ** What a decision does to the state *)

Lemma decide_failover_gated_state (cfg : Config) (py : PyRuntime) (env : Env)
  (source : string) (w : World) :
  freeze (app_state w) = true
  \/ _cooldown_ok py (now_decide env) (app_state w)
       (last_switch_at (app_state w)) = false ->
  app_state (snd (decide_failover cfg py env source w)) = app_state w.
Proof.
  intros H. destruct (freeze (app_state w)) eqn:Hf.
  - rewrite decide_failover_frozen by exact Hf. reflexivity.
  - destruct H as [H | H]; [discriminate|].
    rewrite decide_failover_cooldown by assumption. reflexivity.
Qed.

Lemma decide_failover_open_state (cfg : Config) (py : PyRuntime) (env : Env)
  (source : string) (w : World) :
  freeze (app_state w) = false ->
  _cooldown_ok py (now_decide env) (app_state w)
    (last_switch_at (app_state w)) = true ->
  let s' := app_state (snd (decide_failover cfg py env source w)) in
  s' = update_streaks (app_state w)
  \/ s' = set_published (desired_ip cfg (update_streaks (app_state w)))
            (utc_iso py (now_publish env)) (update_streaks (app_state w)).
Proof.
  intros Hf Hc. cbn zeta.
  destruct (String.eqb (desired_ip cfg (update_streaks (app_state w)))
              (current_dns (app_state w))) eqn:Hd.
  - apply String.eqb_eq in Hd.
    rewrite decide_failover_unchanged by assumption. left. reflexivity.
  - apply String.eqb_neq in Hd.
    rewrite decide_failover_changed by assumption.
    rewrite switch_to_state.
    pose proof (update_dns_state cfg py env
                  (desired_ip cfg (update_streaks (app_state w)))
                  (streaked w)) as Hs.
    cbn zeta in Hs. destruct Hs as [[Hs _] | [_ Hs]]; rewrite Hs.
    + left. reflexivity.
    + right. reflexivity.
Qed.

(** A decision never touches the health flags, the freeze flag, the
    thresholds or the secret. *)
Lemma decide_failover_keeps (cfg : Config) (py : PyRuntime) (env : Env)
  (source : string) (w : World) :
  let s' := app_state (snd (decide_failover cfg py env source w)) in
  server1_up s' = server1_up (app_state w)
  /\ server2_up s' = server2_up (app_state w)
  /\ freeze s' = freeze (app_state w)
  /\ up_threshold s' = up_threshold (app_state w)
  /\ cooldown_seconds s' = cooldown_seconds (app_state w)
  /\ webhook_secret s' = webhook_secret (app_state w).
Proof.
  cbn zeta.
  destruct (freeze (app_state w)) eqn:Hf.
  { rewrite decide_failover_gated_state by (left; exact Hf).
    rewrite Hf. repeat split. }
  destruct (_cooldown_ok py (now_decide env) (app_state w)
              (last_switch_at (app_state w))) eqn:Hc.
  - destruct (decide_failover_open_state cfg py env source w Hf Hc) as [H | H];
      rewrite H; cbn; rewrite ?Hf; repeat split.
  - rewrite decide_failover_gated_state by (right; exact Hc).
    rewrite Hf. repeat split.
Qed.

(** ** C5: malformed heartbeats *)

Lemma parse_status_malformed (py : PyRuntime) (j : Json) :
  malformed_status py j -> _parse_status py (json_or_empty j) = false.
Proof.
  unfold malformed_status, heartbeat_status, json_or_empty.
  destruct (truthy j) eqn:Ht; [|intros _; reflexivity].
  destruct j as [| | | | | |members]; try (intros _; reflexivity).
  unfold _parse_status.
  destruct (dict_get "heartbeat" members) as [hb|]; [|intros _; reflexivity].
  destruct hb as [| | | | | |hb]; try (intros _; reflexivity).
  destruct (dict_get "status" hb) as [v|].
  - intros Hv. rewrite Hv. reflexivity.
  - intros _. reflexivity.
Qed.

(** C5, as stated, fails: a heartbeat whose status is missing, or is not a
    number, is not rejected.  It is read as a down report: the flag of the
    target goes from up to down, and here DNS is switched on it. *)
Lemma malformed_heartbeat_counts_as_down :
  let w := example_world (fresh_state example_cfg "tok") three_records in
  let missing := {| x_webhook_secret := Some "tok";
                    body := Decoded (JObj [("heartbeat", JObj [])]) |} in
  let r1 := webhook_server1 example_cfg example_py (example_env 3) missing w in
  let r2 := webhook_server1 example_cfg example_py (example_env 3)
              (heartbeat "tok" (JStr "unknown")) w in
  server1_up (app_state w) = true
  /\ fst r1 = Returned (WebhookUpdated false true
                          (MsgSwitched "5.6.7.8" "webhook:s1" false true))
  /\ server1_up (app_state (snd r1)) = false
  /\ current_dns (app_state (snd r1)) = "5.6.7.8"
  /\ fst r2 = Returned (WebhookUpdated false true
                          (MsgSwitched "5.6.7.8" "webhook:s1" false true))
  /\ server1_up (app_state (snd r2)) = false.
Proof. cbn zeta. repeat split; reflexivity. Qed.

(** C5, amended.  A heartbeat request is rejected, with no change of any
    kind, when its secret is wrong or its body is not JSON (a wrong secret
    is answered 401, unless the header or the stored secret holds a
    character that is not ASCII: then [compare_digest] raises and the
    request ends in that exception).  A request that
    carries the secret and a decoded body whose heartbeat status is missing
    or not numeric is not rejected: [_parse_status] resolves it to [False],
    the flag of the target is set to down and the decision runs on that.
    What reaches the flag is in every case the boolean [_parse_status]
    returned. *)
Theorem malformed_heartbeat_handling (cfg : Config) (py : PyRuntime)
  (env : Env) (req : WebhookRequest) (w : World) :
  (webhook_secret_ok (x_webhook_secret req) (app_state w) = false ->
   let refused :=
     match _check_webhook_secret (x_webhook_secret req) (app_state w) with
     | TypeError => Raised
     | _ => Returned (Abort 401)
     end in
   webhook_server1 cfg py env req w = (refused, w)
   /\ webhook_server2 cfg py env req w = (refused, w))
  /\ (webhook_secret_ok (x_webhook_secret req) (app_state w) = true ->
      (body req = WrongMime ->
       webhook_server1 cfg py env req w = (Returned (Abort 415), w)
       /\ webhook_server2 cfg py env req w = (Returned (Abort 415), w))
      /\ (body req = BadJson ->
          webhook_server1 cfg py env req w = (Returned (Abort 400), w)
          /\ webhook_server2 cfg py env req w = (Returned (Abort 400), w))
      /\ (forall j, body req = Decoded j ->
          let is_up := _parse_status py (json_or_empty j) in
          let r1 := webhook_server1 cfg py env req w in
          let r2 := webhook_server2 cfg py env req w in
          (malformed_status py j -> is_up = false)
          /\ server1_up (app_state (snd r1)) = is_up
          /\ server2_up (app_state (snd r2)) = is_up
          /\ (forall code, fst r1 <> Returned (Abort code))
          /\ (forall code, fst r2 <> Returned (Abort code)))).
Proof.
  split.
  - intros Hs. cbn zeta. unfold webhook_server1, webhook_server2. run.
    unfold webhook_secret_ok in Hs.
    destruct (check_webhook_secret_cases (x_webhook_secret req) (app_state w))
      as [E | [E | E]]; rewrite E in *; [discriminate | |]; split; reflexivity.
  - intros Hs. apply secret_passed in Hs. split; [|split].
    + intros Hb. unfold webhook_server1, webhook_server2. run.
      rewrite Hs, Hb. split; reflexivity.
    + intros Hb. unfold webhook_server1, webhook_server2. run.
      rewrite Hs, Hb. split; reflexivity.
    + intros j Hb. cbn zeta.
      assert (Hok : webhook_secret_ok (x_webhook_secret req) (app_state w)
                    = true).
      { unfold webhook_secret_ok. rewrite Hs. reflexivity. }
      rewrite (webhook_server1_accepted cfg py env req j w Hok Hb).
      rewrite (webhook_server2_accepted cfg py env req j w Hok Hb).
      cbn zeta.
      set (is_up := _parse_status py (json_or_empty j)).
      split; [apply parse_status_malformed|].
      pose proof (decide_failover_keeps cfg py env "webhook:s1"
                    (reported1 is_up w)) as K1.
      pose proof (decide_failover_keeps cfg py env "webhook:s2"
                    (reported2 is_up w)) as K2.
      cbn zeta in K1, K2. unfold bind.
      destruct (decide_failover cfg py env "webhook:s1" (reported1 is_up w))
        as [[m1| |] w1];
      destruct (decide_failover cfg py env "webhook:s2" (reported2 is_up w))
        as [[m2| |] w2];
      cbn [fst snd] in *; run; cbn [fst snd];
      destruct K1 as (K1 & _); destruct K2 as (_ & K2 & _);
      (split; [exact K1|]); (split; [exact K2|]);
      split; intros code; discriminate.
Qed.

Lemma malformed_heartbeat_handling_witness :
  _parse_status example_py
    (json_or_empty (JObj [("heartbeat", JObj [("status", JNull)])])) = false
  /\ server1_up
       (app_state
          (snd (webhook_server1 example_cfg example_py (example_env 3)
                  (heartbeat "tok" JNull)
                  (example_world (fresh_state example_cfg "tok") three_records))))
     = false.
Proof.
  destruct (proj2 (proj2 (proj2
                (malformed_heartbeat_handling example_cfg example_py
                   (example_env 3) (heartbeat "tok" JNull)
                   (example_world (fresh_state example_cfg "tok") three_records))
                eq_refl))
              (JObj [("heartbeat", JObj [("status", JNull)])]) eq_refl)
    as (Hfalse & Hflag & _).
  split.
  - apply Hfalse. reflexivity.
  - rewrite Hflag. apply Hfalse. reflexivity.
Defined.

(** ** C8: what a heartbeat does to the flag and the streaks *)

Lemma webhook_tail_state {A : Type} (m : M Message)
  (k : Message -> ServiceState -> A)
  (w : World) :
  app_state (snd ((msg <- m;; s <- gets app_state;; ret (k msg s)) w))
  = app_state (snd (m w)).
Proof.
  unfold bind at 1. destruct (m w) as [[msg| |] w1]; reflexivity.
Qed.

(** C8, as stated, fails: under freeze a heartbeat sets the flag and leaves
    the streaks alone.  A down report for target 1 neither resets its
    up-streak nor increments its down-streak, and an up report does not
    increment the up-streak. *)
Lemma frozen_heartbeat_leaves_streaks :
  let w := example_world frozen_cooling_state three_records in
  let r := webhook_server1 example_cfg example_py (example_env 5)
             (heartbeat "tok" (JInt 0)) w in
  let w' := example_world frozen_failed_state three_records in
  let r' := webhook_server1 example_cfg example_py (example_env 5)
              (heartbeat "tok" (JInt 1)) w' in
  (server1_up (app_state w) = true
   /\ _s1_up_streak (app_state w) = 3 /\ _s1_down_streak (app_state w) = 0
   /\ server1_up (app_state (snd r)) = false
   /\ _s1_up_streak (app_state (snd r)) = 3
   /\ _s1_down_streak (app_state (snd r)) = 0)
  /\ (server1_up (app_state w') = false /\ _s1_up_streak (app_state w') = 3
      /\ server1_up (app_state (snd r')) = true
      /\ _s1_up_streak (app_state (snd r')) = 3).
Proof. cbn zeta. repeat split; reflexivity. Qed.

(** C8, amended.  Every accepted heartbeat sets the flag of its target to
    the reported value and leaves the other flag alone.  The streaks are
    updated by the decision the heartbeat triggers, in the same request,
    when that decision is held neither by freeze nor by the cooldown: then
    an up report increments the up-streak of its target and resets its
    down-streak to 0, a down report increments the down-streak and resets
    the up-streak to 0, and the streaks of the other target advance in the
    same way on the flag it has.  A decision held by freeze or cooldown
    leaves all four streaks as they were. *)
Theorem heartbeat_updates_flag_and_streaks (cfg : Config) (py : PyRuntime)
  (env : Env) (req : WebhookRequest) (j : Json) (w : World) :
  webhook_secret_ok (x_webhook_secret req) (app_state w) = true ->
  body req = Decoded j ->
  let s := app_state w in
  let is_up := _parse_status py (json_or_empty j) in
  let s1 := app_state (snd (webhook_server1 cfg py env req w)) in
  let s2 := app_state (snd (webhook_server2 cfg py env req w)) in
  (server1_up s1 = is_up /\ server2_up s1 = server2_up s)
  /\ (server2_up s2 = is_up /\ server1_up s2 = server1_up s)
  /\ (gated py (now_decide env) s = true ->
      streaks_of s1 = streaks_of s /\ streaks_of s2 = streaks_of s)
  /\ (gated py (now_decide env) s = false ->
      (_s1_up_streak s1 = (if is_up then _s1_up_streak s + 1 else 0)
       /\ _s1_down_streak s1 = (if is_up then 0 else _s1_down_streak s + 1)
       /\ _s2_up_streak s1 = (if server2_up s then _s2_up_streak s + 1 else 0)
       /\ _s2_down_streak s1 = (if server2_up s then 0 else _s2_down_streak s + 1))
      /\ (_s2_up_streak s2 = (if is_up then _s2_up_streak s + 1 else 0)
          /\ _s2_down_streak s2 = (if is_up then 0 else _s2_down_streak s + 1)
          /\ _s1_up_streak s2 = (if server1_up s then _s1_up_streak s + 1 else 0)
          /\ _s1_down_streak s2
             = (if server1_up s then 0 else _s1_down_streak s + 1))).
Proof.
  intros Hs Hb. cbn zeta.
  rewrite (webhook_server1_accepted cfg py env req j w Hs Hb).
  rewrite (webhook_server2_accepted cfg py env req j w Hs Hb).
  cbn zeta. set (is_up := _parse_status py (json_or_empty j)).
  rewrite (webhook_tail_state (decide_failover cfg py env "webhook:s1")
             (fun msg s => WebhookUpdated is_up (server2_up s) msg)).
  rewrite (webhook_tail_state (decide_failover cfg py env "webhook:s2")
             (fun msg s => WebhookUpdated (server1_up s) is_up msg)).
  pose proof (decide_failover_keeps cfg py env "webhook:s1" (reported1 is_up w))
    as (K1 & K2 & _).
  pose proof (decide_failover_keeps cfg py env "webhook:s2" (reported2 is_up w))
    as (L1 & L2 & _).
  split; [split; assumption|]. split; [split; assumption|].
  unfold gated. split.
  - intros Hg.
    assert (G : freeze (app_state w) = true
                \/ _cooldown_ok py (now_decide env) (app_state w)
                     (last_switch_at (app_state w)) = false).
    { apply orb_true_iff in Hg. destruct Hg as [Hg | Hg]; [left; exact Hg|].
      right. apply negb_true_iff. exact Hg. }
    rewrite (decide_failover_gated_state cfg py env "webhook:s1"
               (reported1 is_up w) G).
    rewrite (decide_failover_gated_state cfg py env "webhook:s2"
               (reported2 is_up w) G).
    split; reflexivity.
  - intros Hg. apply orb_false_iff in Hg. destruct Hg as [Hf Hc].
    apply negb_false_iff in Hc.
    destruct (decide_failover_open_state cfg py env "webhook:s1"
                (reported1 is_up w) Hf Hc) as [E1 | E1];
    destruct (decide_failover_open_state cfg py env "webhook:s2"
                (reported2 is_up w) Hf Hc) as [E2 | E2];
    rewrite E1, E2; cbn; destruct is_up; repeat split; reflexivity.
Qed.

Lemma heartbeat_updates_flag_and_streaks_witness :
  let w := example_world (fresh_state example_cfg "tok") three_records in
  let s1 := app_state (snd (webhook_server1 example_cfg example_py
                              (example_env 3) (heartbeat "tok" (JInt 1)) w)) in
  server1_up s1 = true /\ _s1_up_streak s1 = 1 /\ _s1_down_streak s1 = 0.
Proof.
  cbn zeta.
  destruct (heartbeat_updates_flag_and_streaks example_cfg example_py
              (example_env 3) (heartbeat "tok" (JInt 1))
              (JObj [("heartbeat", JObj [("status", JInt 1)])])
              (example_world (fresh_state example_cfg "tok") three_records)
              eq_refl eq_refl)
    as ((Hflag & _) & _ & _ & Hopen).
  destruct (Hopen eq_refl) as ((Hup & Hdown & _) & _).
  split; [exact Hflag|]. split; [exact Hup | exact Hdown].
Defined.

(** ** C2: hysteresis *)

Lemma heartbeat_parse (py : PyRuntime) (n : Z) :
  _parse_status py
    (json_or_empty (JObj [("heartbeat", JObj [("status", JInt n)])]))
  = (n =? 1).
Proof. reflexivity. Qed.

Lemma cooldown_off (py : PyRuntime) (now : Z) (s : ServiceState)
  (last : option string) :
  cooldown_seconds s = 0 -> _cooldown_ok py now s last = true.
Proof. intros H. unfold _cooldown_ok. rewrite H. reflexivity. Qed.

Lemma desired_ip_hold_on_up (cfg : Config) (s : ServiceState) :
  server1_up s = true -> 1 < up_threshold s ->
  _s1_up_streak s < up_threshold s ->
  desired_ip cfg s = current_dns s.
Proof.
  intros H1 Hn Hu. unfold desired_ip, choose_s1, choose_s2. rewrite H1.
  assert (E1 : (up_threshold s <=? 1) = false) by (apply Z.leb_gt; lia).
  assert (E2 : (_s1_up_streak s >=? up_threshold s) = false).
  { rewrite Z.geb_leb. apply Z.leb_gt. lia. }
  rewrite E1, E2. reflexivity.
Qed.

Lemma desired_ip_promote (cfg : Config) (s : ServiceState) :
  server1_up s = true -> up_threshold s <= _s1_up_streak s ->
  desired_ip cfg s = SERVER1_IP cfg.
Proof.
  intros H1 Hu. unfold desired_ip, choose_s1. rewrite H1.
  assert (E2 : (_s1_up_streak s >=? up_threshold s) = true).
  { rewrite Z.geb_leb. apply Z.leb_le. lia. }
  rewrite E2, orb_true_r. reflexivity.
Qed.

Lemma desired_ip_failover (cfg : Config) (s : ServiceState) :
  server1_up s = false -> server2_up s = true ->
  up_threshold s <= _s2_up_streak s ->
  desired_ip cfg s = SERVER2_IP cfg.
Proof.
  intros H1 H2 Hu. unfold desired_ip, choose_s1, choose_s2. rewrite H1, H2.
  assert (E2 : (_s2_up_streak s >=? up_threshold s) = true).
  { rewrite Z.geb_leb. apply Z.leb_le. lia. }
  rewrite E2, orb_true_r. reflexivity.
Qed.

Lemma secret_accepted (secret : string) (s : ServiceState) :
  webhook_secret s = Some secret -> secret <> "" -> isascii secret = true ->
  webhook_secret_ok (Some secret) s = true.
Proof.
  intros H Hne Hascii. unfold webhook_secret_ok, _check_webhook_secret.
  rewrite H. cbn [str_truthy].
  apply String.eqb_neq in Hne. rewrite Hne. cbn [negb].
  rewrite (proj2 (compare_digest_true secret secret) (conj eq_refl Hascii)).
  reflexivity.
Qed.

(** An up report for target 1 that leaves its up-streak below the
    threshold changes nothing but the streaks. *)
Lemma up_report_holds (cfg : Config) (py : PyRuntime) (e : Env)
  (N : Z) (secret : string) (u : Z) (w : World) :
  secret <> "" -> isascii secret = true -> 1 < N -> u + 1 < N ->
  on_backup cfg N secret u w ->
  let r := webhook_server1 cfg py e (heartbeat secret (JInt 1)) w in
  fst r = Returned (WebhookUpdated true true
                      (MsgNoChange true true (SERVER2_IP cfg)))
  /\ on_backup cfg N secret (u + 1) (snd r)
  /\ cached_records (snd r) = cached_records w.
Proof.
  intros Hne Hascii HN Hu (Hf & Hc & Hsec & Hthr & Hcur & H2 & Hstreak).
  cbn zeta.
  rewrite (webhook_server1_accepted cfg py e (heartbeat secret (JInt 1))
             (JObj [("heartbeat", JObj [("status", JInt 1)])]) w
             (secret_accepted secret (app_state w) Hsec Hne Hascii) eq_refl).
  cbn zeta. rewrite heartbeat_parse. change (1 =? 1) with true.
  assert (Hd : desired_ip cfg (update_streaks (app_state (reported1 true w)))
               = current_dns (app_state (reported1 true w))).
  { apply (desired_ip_hold_on_up cfg
             (update_streaks (app_state (reported1 true w)))).
    - reflexivity.
    - cbn. lia.
    - cbn. lia. }
  rewrite (bind_returned _ _ _ _ _
             (decide_failover_unchanged cfg py e "webhook:s1"
                (reported1 true w) Hf
                (cooldown_off py (now_decide e) _ _ Hc) Hd)).
  cbn. rewrite H2, Hcur. unfold on_backup. cbn.
  repeat split; try assumption. lia.
Qed.

Lemma up_reports_hold (cfg : Config) (py : PyRuntime)
  (N : Z) (secret : string) :
  secret <> "" -> isascii secret = true -> 1 < N ->
  forall (ups : list Env) (u : Z) (w : World),
    u + Z.of_nat (List.length ups) < N ->
    on_backup cfg N secret u w ->
    let rs := serve (map (fun e => webhook_server1 cfg py e
                                     (heartbeat secret (JInt 1))) ups) w in
    Forall (fun r => r = Returned (WebhookUpdated true true
                                     (MsgNoChange true true (SERVER2_IP cfg))))
           (fst rs)
    /\ on_backup cfg N secret (u + Z.of_nat (List.length ups)) (snd rs)
    /\ cached_records (snd rs) = cached_records w.
Proof.
  intros Hne Hascii HN.
  induction ups as [|e ups IH]; intros u w Hlen Hinv; cbn zeta.
  - cbn. rewrite Z.add_0_r. auto.
  - cbn [map serve List.length] in *.
    rewrite Nat2Z.inj_succ in *.
    destruct (up_report_holds cfg py e N secret u w Hne Hascii HN ltac:(lia)
                Hinv)
      as (Hr & Hinv1 & Hcache1).
    destruct (webhook_server1 cfg py e (heartbeat secret (JInt 1)) w)
      as [r w1]. cbn [fst snd] in *.
    specialize (IH (u + 1) w1 ltac:(lia) Hinv1). cbn zeta in IH.
    destruct (serve (map (fun e0 => webhook_server1 cfg py e0
                                      (heartbeat secret (JInt 1))) ups) w1)
      as [rs w2]. cbn [fst snd] in *.
    destruct IH as (IHr & IHinv & IHc).
    split; [constructor; assumption|].
    split; [|congruence].
    replace (u + Z.succ (Z.of_nat (List.length ups)))
      with (u + 1 + Z.of_nat (List.length ups)) by lia.
    exact IHinv.
Qed.

(** The up report that brings the streak of target 1 to the threshold
    switches back. *)
Lemma up_report_promotes (cfg : Config) (py : PyRuntime) (e : Env)
  (N : Z) (secret : string) (w : World) :
  secret <> "" -> isascii secret = true -> 1 < N ->
  SERVER1_IP cfg <> SERVER2_IP cfg ->
  cached_records w <> [] -> answers e ->
  on_backup cfg N secret (N - 1) w ->
  let r := webhook_server1 cfg py e (heartbeat secret (JInt 1)) w in
  fst r = Returned (WebhookUpdated true true
                      (MsgSwitched (SERVER1_IP cfg) "webhook:s1" true true))
  /\ current_dns (app_state (snd r)) = SERVER1_IP cfg.
Proof.
  intros Hne Hascii HN Hips Hcache Hans
    (Hf & Hc & Hsec & Hthr & Hcur & H2 & Hstreak).
  cbn zeta.
  rewrite (webhook_server1_accepted cfg py e (heartbeat secret (JInt 1))
             (JObj [("heartbeat", JObj [("status", JInt 1)])]) w
             (secret_accepted secret (app_state w) Hsec Hne Hascii) eq_refl).
  cbn zeta. rewrite heartbeat_parse. change (1 =? 1) with true.
  assert (Hd : desired_ip cfg (update_streaks (app_state (reported1 true w)))
               = SERVER1_IP cfg).
  { apply (desired_ip_promote cfg
             (update_streaks (app_state (reported1 true w)))).
    - reflexivity.
    - cbn. lia. }
  assert (Hchg : desired_ip cfg (update_streaks (app_state (reported1 true w)))
                 <> current_dns (app_state (reported1 true w))).
  { rewrite Hd. cbn. rewrite Hcur. exact Hips. }
  pose proof (decide_failover_changed cfg py e "webhook:s1" (reported1 true w)
                Hf (cooldown_off py (now_decide e) _ _ Hc) Hchg) as Hdec.
  rewrite Hd in Hdec.
  destruct (switch_to_cached cfg py e (SERVER1_IP cfg) "webhook:s1"
              (streaked (reported1 true w)) Hcache Hans)
    as (S1 & S2 & _).
  destruct (switch_to cfg py e (SERVER1_IP cfg) "webhook:s1"
              (streaked (reported1 true w))) as [r w1].
  cbn [fst snd] in S1, S2. subst r.
  rewrite (bind_returned _ _ _ _ _ Hdec).
  run. cbn [fst snd]. rewrite S2. cbn.
  rewrite H2. split; reflexivity.
Qed.

(** The down report for target 1 fails over to target 2 when target 2 has
    been seen up often enough. *)
Lemma down_report_fails_over (cfg : Config) (py : PyRuntime) (e : Env)
  (N : Z) (secret : string) (w : World) :
  secret <> "" -> isascii secret = true -> SERVER1_IP cfg <> SERVER2_IP cfg ->
  cached_records w <> [] -> answers e ->
  freeze (app_state w) = false -> cooldown_seconds (app_state w) = 0 ->
  webhook_secret (app_state w) = Some secret ->
  up_threshold (app_state w) = N ->
  current_dns (app_state w) = SERVER1_IP cfg ->
  server2_up (app_state w) = true ->
  N - 1 <= _s2_up_streak (app_state w) ->
  let r := webhook_server1 cfg py e (heartbeat secret (JInt 0)) w in
  fst r = Returned (WebhookUpdated false true
                      (MsgSwitched (SERVER2_IP cfg) "webhook:s1" false true))
  /\ on_backup cfg N secret 0 (snd r)
  /\ cached_records (snd r) = cached_records w.
Proof.
  intros Hne Hascii Hips Hcache Hans Hf Hc Hsec Hthr Hcur H2 Hstreak.
  cbn zeta.
  rewrite (webhook_server1_accepted cfg py e (heartbeat secret (JInt 0))
             (JObj [("heartbeat", JObj [("status", JInt 0)])]) w
             (secret_accepted secret (app_state w) Hsec Hne Hascii) eq_refl).
  cbn zeta. rewrite heartbeat_parse. change (0 =? 1) with false.
  assert (Hd : desired_ip cfg (update_streaks (app_state (reported1 false w)))
               = SERVER2_IP cfg).
  { apply (desired_ip_failover cfg
             (update_streaks (app_state (reported1 false w)))).
    - reflexivity.
    - exact H2.
    - cbn. rewrite H2. lia. }
  assert (Hchg : desired_ip cfg (update_streaks (app_state (reported1 false w)))
                 <> current_dns (app_state (reported1 false w))).
  { rewrite Hd. cbn. rewrite Hcur. congruence. }
  pose proof (decide_failover_changed cfg py e "webhook:s1" (reported1 false w)
                Hf (cooldown_off py (now_decide e) _ _ Hc) Hchg) as Hdec.
  rewrite Hd in Hdec.
  destruct (switch_to_cached cfg py e (SERVER2_IP cfg) "webhook:s1"
              (streaked (reported1 false w)) Hcache Hans)
    as (S1 & S2 & S3 & _).
  destruct (switch_to cfg py e (SERVER2_IP cfg) "webhook:s1"
              (streaked (reported1 false w))) as [r w1].
  cbn [fst snd] in S1, S2, S3. subst r.
  rewrite (bind_returned _ _ _ _ _ Hdec).
  run. cbn [fst snd].
  unfold on_backup. rewrite S2, S3. cbn. rewrite H2.
  repeat split; assumption.
Qed.

(** C2, as stated, fails in two ways, both because the streaks count
    decisions and are updated for both targets at each of them.  From a
    first start (all streaks 0) with threshold 2, target 1 up and DNS on
    target 1, a heartbeat reporting target 1 down does not switch to target
    2: the up-streak of target 2 is only 1 at that decision.  And after a
    failover, one up report for target 1 followed by a heartbeat of target 2
    switches back to target 1: target 1 has reported up once, not twice. *)
Lemma hysteresis_counts_decisions_not_reports :
  (let r := webhook_server1 example_cfg example_py (example_env 1)
              (heartbeat "tok" (JInt 0))
              (example_world fresh2 three_records) in
   fst r = Returned (WebhookUpdated false true
                       (MsgNoChange false true "1.2.3.4"))
   /\ current_dns (app_state (snd r)) = "1.2.3.4")
  /\ (let rs := serve
                  [ webhook_server1 example_cfg example_py (example_env 1)
                      (heartbeat "tok" (JInt 0));
                    webhook_server1 example_cfg example_py (example_env 2)
                      (heartbeat "tok" (JInt 1));
                    webhook_server2 example_cfg example_py (example_env 3)
                      (heartbeat "tok" (JInt 1)) ]
                  (example_world steady2 three_records) in
      fst rs
      = [ Returned (WebhookUpdated false true
                      (MsgSwitched "5.6.7.8" "webhook:s1" false true));
          Returned (WebhookUpdated true true
                      (MsgNoChange true true "5.6.7.8"));
          Returned (WebhookUpdated true true
                      (MsgSwitched "1.2.3.4" "webhook:s2" true true)) ]
      /\ current_dns (app_state (snd rs)) = "1.2.3.4").
Proof. cbn zeta. repeat split; reflexivity. Qed.

(** C2, amended.  Let [up_threshold = N > 1], the state not frozen, no
    cooldown configured, the two target IPs distinct, records in the cache
    and a registrar that answers; let DNS be on target 1 and target 2 be up
    with an up-streak of at least [N - 1], and let the heartbeats carry the
    secret of the state (non-empty and ASCII, as the generated ones are, so
    that they are accepted).  Then a heartbeat reporting
    target 1 down triggers a decision that switches DNS to target 2's IP;
    with only heartbeats of target 1 arriving, each of the next [N - 1]
    consecutive up reports causes no switch, and the [N]-th switches DNS
    back to target 1's IP.  For [N = 2]: down switches to target 2, one up
    causes no switch, the second consecutive up switches back. *)
Theorem hysteresis_scenario (cfg : Config) (py : PyRuntime)
  (e0 : Env) (ups : list Env) (eN : Env) (N : Z) (secret : string) (w : World) :
  up_threshold (app_state w) = N -> 1 < N ->
  freeze (app_state w) = false ->
  cooldown_seconds (app_state w) = 0 ->
  webhook_secret (app_state w) = Some secret -> secret <> "" ->
  isascii secret = true ->
  SERVER1_IP cfg <> SERVER2_IP cfg ->
  cached_records w <> [] -> answers e0 -> answers eN ->
  current_dns (app_state w) = SERVER1_IP cfg ->
  server2_up (app_state w) = true ->
  N - 1 <= _s2_up_streak (app_state w) ->
  Z.of_nat (List.length ups) = N - 1 ->
  let r0 := webhook_server1 cfg py e0 (heartbeat secret (JInt 0)) w in
  let rs := serve (map (fun e => webhook_server1 cfg py e
                                   (heartbeat secret (JInt 1))) ups)
              (snd r0) in
  let rN := webhook_server1 cfg py eN (heartbeat secret (JInt 1)) (snd rs) in
  (fst r0 = Returned (WebhookUpdated false true
                        (MsgSwitched (SERVER2_IP cfg) "webhook:s1" false true))
   /\ current_dns (app_state (snd r0)) = SERVER2_IP cfg)
  /\ (Forall (fun r => r = Returned (WebhookUpdated true true
                                       (MsgNoChange true true (SERVER2_IP cfg))))
        (fst rs)
      /\ List.length (fst rs) = List.length ups
      /\ current_dns (app_state (snd rs)) = SERVER2_IP cfg)
  /\ (fst rN = Returned (WebhookUpdated true true
                           (MsgSwitched (SERVER1_IP cfg) "webhook:s1" true true))
      /\ current_dns (app_state (snd rN)) = SERVER1_IP cfg).
Proof.
  intros Hthr HN Hf Hc Hsec Hne Hascii Hips Hcache Hans0 HansN Hcur H2 Hstreak
    Hlen.
  cbn zeta.
  destruct (down_report_fails_over cfg py e0 N secret w Hne Hascii Hips Hcache
              Hans0 Hf Hc Hsec Hthr Hcur H2 Hstreak) as (R0 & I0 & C0).
  destruct (webhook_server1 cfg py e0 (heartbeat secret (JInt 0)) w)
    as [r0 w0]. cbn [fst snd] in *.
  destruct (up_reports_hold cfg py N secret Hne Hascii HN ups 0 w0 ltac:(lia)
              I0)
    as (Rs & Is & Cs).
  assert (Hlen_rs :
    forall (hs : list (M Reply)) (w' : World),
      List.length (fst (serve hs w')) = List.length hs).
  { induction hs as [|h hs IH]; intros w'; [reflexivity|].
    cbn [serve]. destruct (h w') as [r w1]. specialize (IH w1).
    destruct (serve hs w1) as [rs1 w2]. cbn [fst List.length] in *. congruence. }
  pose proof (Hlen_rs (map (fun e => webhook_server1 cfg py e
                                       (heartbeat secret (JInt 1))) ups) w0)
    as Hl. rewrite length_map in Hl.
  destruct (serve (map (fun e => webhook_server1 cfg py e
                                   (heartbeat secret (JInt 1))) ups) w0)
    as [rs w1]. cbn [fst snd] in *.
  replace (0 + Z.of_nat (List.length ups)) with (N - 1) in Is by lia.
  destruct (up_report_promotes cfg py eN N secret w1 Hne Hascii HN Hips
              ltac:(congruence) HansN Is) as (RN & CN).
  split; [split; [exact R0 | apply I0]|].
  split; [split; [exact Rs | split; [exact Hl | apply Is]]|].
  split; assumption.
Qed.

Lemma hysteresis_scenario_witness :
  let w := example_world steady2 three_records in
  let r0 := webhook_server1 example_cfg example_py (example_env 1)
              (heartbeat "tok" (JInt 0)) w in
  let rs := serve (map (fun e => webhook_server1 example_cfg example_py e
                                   (heartbeat "tok" (JInt 1)))
                     [example_env 2])
              (snd r0) in
  let rN := webhook_server1 example_cfg example_py (example_env 3)
              (heartbeat "tok" (JInt 1)) (snd rs) in
  (fst r0 = Returned (WebhookUpdated false true
                        (MsgSwitched "5.6.7.8" "webhook:s1" false true))
   /\ current_dns (app_state (snd r0)) = "5.6.7.8")
  /\ (Forall (fun r => r = Returned (WebhookUpdated true true
                                       (MsgNoChange true true "5.6.7.8")))
        (fst rs)
      /\ List.length (fst rs) = 1%nat
      /\ current_dns (app_state (snd rs)) = "5.6.7.8")
  /\ (fst rN = Returned (WebhookUpdated true true
                           (MsgSwitched "1.2.3.4" "webhook:s1" true true))
      /\ current_dns (app_state (snd rN)) = "1.2.3.4").
Proof.
  refine (hysteresis_scenario example_cfg example_py (example_env 1)
            [example_env 2] (example_env 3) 2 "tok"
            (example_world steady2 three_records)
            eq_refl eq_refl eq_refl eq_refl eq_refl _ eq_refl _ _
            (example_env_answers 1) (example_env_answers 3)
            eq_refl eq_refl _ eq_refl); cbn; discriminate.
Defined.

(** ** C9: the webhook secret *)

Lemma load_saved (cfg : Config) (s : ServiceState) (token : string) :
  load cfg (save s) token
  = Some (if str_truthy (webhook_secret s) then s
          else set_webhook_secret (Some token) s).
Proof.
  destruct s as [a b c l f t ws dt ut cs d1 u1 d2 u2].
  unfold load, save.
  destruct ws as [sec|]; destruct l as [iso|]; cbn;
    try (destruct (String.eqb sec ""); reflexivity); reflexivity.
Qed.

(** C9, as stated, fails in its last part: the secret that [load]
    generates is not persisted by it.  [load] reads the file and writes
    nothing, so after a first start without a state file there is still no
    file; a heartbeat that is refused leaves it so, and a restart then
    generates another secret. *)
Lemma generated_secret_is_not_persisted :
  let first := fresh_state example_cfg "first" in
  let w := example_world first three_records in
  let w1 := snd (webhook_server1 example_cfg example_py (example_env 1)
                   (heartbeat "guess" (JInt 1)) w) in
  load example_cfg NoFile "first" = Some first
  /\ webhook_secret first = Some "first"
  /\ state_file w = NoFile
  /\ state_file w1 = NoFile
  /\ load example_cfg (state_file w1) "second"
     = Some (fresh_state example_cfg "second")
  /\ webhook_secret (fresh_state example_cfg "second") = Some "second".
Proof. cbn zeta. repeat split; reflexivity. Qed.

(** C9, amended.  For every state whose webhook secret is set (a non-empty
    string), the public snapshot [to_public] carries the mask in place of
    the secret and does not depend on the secret's value in any way: the
    snapshots of two states that differ only in their secret are equal.
    The record [save] writes is [asdict] of the state and holds the real
    secret, and loading it gives the state back with that secret.  The
    secret is generated by [load] when it is absent, on loading a missing
    file or a record without a secret, and once a state has been saved it
    is not generated again: loading keeps the saved secret whatever fresh
    token is on offer. *)
Theorem secret_masked_but_persisted (cfg : Config) (s : ServiceState)
  (sec : string) :
  webhook_secret s = Some sec -> sec <> "" ->
  dict_get "webhook_secret" (to_public s) = Some (JStr "***")
  /\ (forall other, other <> "" ->
      to_public (set_webhook_secret (Some other) s) = to_public s)
  /\ save s = JsonDoc (JObj (asdict s))
  /\ dict_get "webhook_secret" (asdict s) = Some (JStr sec)
  /\ (forall token, load cfg (save s) token = Some s)
  /\ (forall token, token <> "" ->
      load cfg NoFile token = Some (fresh_state cfg token)
      /\ webhook_secret (fresh_state cfg token) = Some token
      /\ (forall token',
            load cfg (save (fresh_state cfg token)) token'
            = Some (fresh_state cfg token)))
  /\ (forall s0 token,
        webhook_secret s0 = None ->
        load cfg (save s0) token = Some (set_webhook_secret (Some token) s0)).
Proof.
  intros Hsec Hne.
  assert (Hnonempty : forall x, x <> "" -> String.eqb x "" = false).
  { intros x Hx. apply String.eqb_neq. exact Hx. }
  split; [|split; [|split; [|split; [|split; [|split]]]]].
  - destruct s as [a b c l f t ws dt ut cs d1 u1 d2 u2]. cbn in Hsec. subst ws.
    unfold to_public. cbn. rewrite (Hnonempty sec Hne). reflexivity.
  - intros other Hother.
    destruct s as [a b c l f t ws dt ut cs d1 u1 d2 u2]. cbn in Hsec. subst ws.
    unfold to_public. cbn.
    rewrite (Hnonempty sec Hne), (Hnonempty other Hother). reflexivity.
  - reflexivity.
  - destruct s as [a b c l f t ws dt ut cs d1 u1 d2 u2]. cbn in Hsec. subst ws.
    reflexivity.
  - intros token. rewrite load_saved, Hsec. cbn.
    rewrite (Hnonempty sec Hne). reflexivity.
  - intros token Htoken. split; [reflexivity|]. split; [reflexivity|].
    intros token'. rewrite load_saved. cbn.
    rewrite (Hnonempty token Htoken). reflexivity.
  - intros s0 token Hnone. rewrite load_saved, Hnone. reflexivity.
Qed.

Lemma secret_masked_but_persisted_witness :
  let s := fresh_state example_cfg "s3cr3t" in
  dict_get "webhook_secret" (to_public s) = Some (JStr "***")
  /\ to_public (set_webhook_secret (Some "another") s) = to_public s
  /\ dict_get "webhook_secret" (asdict s) = Some (JStr "s3cr3t")
  /\ load example_cfg (save s) "fresh-token" = Some s.
Proof.
  cbn zeta.
  destruct (secret_masked_but_persisted example_cfg
              (fresh_state example_cfg "s3cr3t") "s3cr3t" eq_refl
              ltac:(discriminate))
    as (Hmask & Hindep & _ & Hfile & Hload & _).
  split; [exact Hmask|].
  split; [apply Hindep; discriminate|].
  split; [exact Hfile | apply Hload].
Defined.

(** * Further properties of the code *)

(** ** [_parse_status] and [_check_webhook_secret] *)

(** A body counts as an up report exactly when it is an object whose
    [heartbeat] member is an object whose [status] member is read by [int]
    as 1.  Everything else, including a missing [heartbeat] or [status], is
    a down report. *)
Theorem parse_status_up_iff (py : PyRuntime) (body : Json) :
  _parse_status py body = true
  <-> exists members hb v,
        body = JObj members
        /\ dict_get "heartbeat" members = Some (JObj hb)
        /\ dict_get "status" hb = Some v
        /\ py_int py v = Some 1.
Proof.
  split.
  - unfold _parse_status.
    destruct body as [| | | | | |members]; try discriminate.
    destruct (dict_get "heartbeat" members) as [hbv|] eqn:Ehb.
    + destruct hbv as [| | | | | |hb]; try discriminate.
      destruct (dict_get "status" hb) as [v|] eqn:Est.
      * destruct (py_int py v) as [n|] eqn:En; [|discriminate].
        intros H. apply Z.eqb_eq in H. subst n.
        exists members, hb, v. auto.
      * cbn. discriminate.
    + cbn. discriminate.
  - intros (members & hb & v & -> & Ehb & Est & En).
    unfold _parse_status. rewrite Ehb, Est, En. reflexivity.
Qed.

(** [int] truncates and takes booleans: the statuses [true] and [1.9] are up
    reports, the status ["1"] is one when [int] reads the string as 1. *)
Example parse_status_loose_values :
  _parse_status example_py
    (JObj [("heartbeat", JObj [("status", JBool true)])]) = true
  /\ _parse_status example_py
       (JObj [("heartbeat", JObj [("status", JFloat (Finite 19 10))])]) = true
  /\ _parse_status example_py
       (JObj [("heartbeat", JObj [("status", JStr "1")])]) = true
  /\ _parse_status example_py
       (JObj [("heartbeat", JObj [("status", JInt 2)])]) = false.
Proof. repeat split; reflexivity. Qed.

Lemma webhook_secret_ok_spec (header : option string) (s : ServiceState) :
  webhook_secret_ok header s = true
  <-> exists secret,
        header = Some secret /\ webhook_secret s = Some secret
        /\ secret <> "" /\ isascii secret = true.
Proof.
  unfold webhook_secret_ok, _check_webhook_secret. split.
  - destruct header as [h|]; [|discriminate]. cbn [str_truthy].
    destruct (String.eqb h "") eqn:Hh; [discriminate|]. cbn [negb].
    destruct (webhook_secret s) as [e|]; [|discriminate]. cbn [str_truthy].
    destruct (String.eqb e ""); [discriminate|]. cbn [negb].
    destruct (compare_digest h e) as [[|]|] eqn:Ec; try discriminate.
    intros _. apply compare_digest_true in Ec. destruct Ec as [<- Ha].
    apply String.eqb_neq in Hh. exists h. auto.
  - intros (secret & -> & -> & Hne & Ha). cbn [str_truthy].
    apply String.eqb_neq in Hne. rewrite Hne. cbn [negb].
    rewrite (proj2 (compare_digest_true secret secret) (conj eq_refl Ha)).
    reflexivity.
Qed.

(** The webhook secret check passes exactly when the header carries a
    non-empty ASCII string equal to the stored secret.  In particular a
    state without a secret, or with an empty one, lets no request through. *)
Theorem webhook_secret_ok_iff (header : option string) (s : ServiceState) :
  webhook_secret_ok header s = true
  <-> exists secret,
        header = Some secret /\ webhook_secret s = Some secret
        /\ secret <> "" /\ isascii secret = true.
Proof. exact (webhook_secret_ok_spec header s). Qed.

(** ** [_cooldown_ok] *)

(** The cooldown holds a decision exactly when a non-zero cooldown is
    configured and [last_switch_at] is a non-empty string that parses to a
    time less than [cooldown_seconds] before now.  A missing, empty or
    unparsable [last_switch_at] never holds a decision. *)
Theorem cooldown_blocks_iff (py : PyRuntime) (now : Z) (s : ServiceState)
  (last : option string) :
  _cooldown_ok py now s last = false
  <-> cooldown_seconds s <> 0
      /\ exists iso t,
           last = Some iso /\ iso <> "" /\ parse_iso py iso = Some t
           /\ now - t < cooldown_seconds s * 1000000.
Proof.
  unfold _cooldown_ok. split.
  - destruct (cooldown_seconds s =? 0) eqn:Ec; [discriminate|].
    apply Z.eqb_neq in Ec.
    destruct last as [iso|]; [|discriminate]. cbn [str_truthy orb].
    destruct (String.eqb iso "") eqn:Ei; [discriminate|]. cbn [negb].
    destruct (parse_iso py iso) as [t|] eqn:Ep; [|discriminate].
    intros H. rewrite Z.geb_leb in H. apply Z.leb_gt in H.
    split; [exact Ec|]. exists iso, t. apply String.eqb_neq in Ei. auto.
  - intros (Hc & iso & t & -> & Hi & Hp & Hlt).
    apply Z.eqb_neq in Hc. apply String.eqb_neq in Hi.
    rewrite Hc. cbn [str_truthy orb]. rewrite Hi. cbn [negb]. rewrite Hp.
    rewrite Z.geb_leb. apply Z.leb_gt. exact Hlt.
Qed.

(** ** The decision rule at its edges *)

(** Target 2 is only ever a fallback and a down flag acts at once: while
    target 1 is flagged up the desired target is target 1's IP or the
    published value, never a fresh choice of target 2; once it is flagged
    down the desired target is target 2's IP or the published value,
    whatever the streaks and the threshold are; and with a threshold of at
    most 1 the rule is the plain one: target 1 if it is up, else target 2 if
    it is up, else the published value. *)
Theorem desired_ip_edges (cfg : Config) (s : ServiceState) :
  (server1_up s = true ->
   desired_ip cfg s = SERVER1_IP cfg \/ desired_ip cfg s = current_dns s)
  /\ (server1_up s = false ->
      desired_ip cfg s = SERVER2_IP cfg \/ desired_ip cfg s = current_dns s)
  /\ (up_threshold s <= 1 ->
      desired_ip cfg s
      = if server1_up s then SERVER1_IP cfg
        else if server2_up s then SERVER2_IP cfg
        else current_dns s).
Proof.
  unfold desired_ip, choose_s1, choose_s2. split; [|split].
  - intros H. rewrite H. cbn.
    destruct ((up_threshold s <=? 1) || (_s1_up_streak s >=? up_threshold s));
      auto.
  - intros H. rewrite H. cbn.
    destruct (server2_up s
              && ((up_threshold s <=? 1) || (_s2_up_streak s >=? up_threshold s)));
      auto.
  - intros H. apply Z.leb_le in H. rewrite H. cbn.
    destruct (server1_up s), (server2_up s); reflexivity.
Qed.

Lemma desired_ip_edges_witness :
  desired_ip example_cfg fresh2 = "1.2.3.4"
  \/ desired_ip example_cfg fresh2 = current_dns fresh2.
Proof.
  exact (proj1 (desired_ip_edges example_cfg fresh2) eq_refl).
Defined.

(** ** The views of the state *)

Lemma to_public_eq (s : ServiceState) :
  to_public s
  = [ ("server1_up", JBool (server1_up s));
      ("server2_up", JBool (server2_up s));
      ("current_dns", JStr (current_dns s));
      ("last_switch_at", json_of_opt_str (last_switch_at s));
      ("freeze", JBool (freeze s));
      ("ttl", JInt (ttl s));
      ("webhook_secret",
       if str_truthy (webhook_secret s) then JStr "***"
       else json_of_opt_str (webhook_secret s));
      ("down_threshold", JInt (down_threshold s));
      ("up_threshold", JInt (up_threshold s));
      ("cooldown_seconds", JInt (cooldown_seconds s)) ].
Proof.
  destruct s as [a b c l f t ws dt ut cs d1 u1 d2 u2].
  unfold to_public. destruct ws as [sec|]; cbn; [|reflexivity].
  destruct (String.eqb sec ""); reflexivity.
Qed.

(** The public snapshot, computed: the ten public fields in declaration
    order with the values of the state, the secret replaced by the mask
    when it is a non-empty string, and none of the four streak counters. *)
Theorem to_public_computed (s : ServiceState) :
  to_public s
  = [ ("server1_up", JBool (server1_up s));
      ("server2_up", JBool (server2_up s));
      ("current_dns", JStr (current_dns s));
      ("last_switch_at", json_of_opt_str (last_switch_at s));
      ("freeze", JBool (freeze s));
      ("ttl", JInt (ttl s));
      ("webhook_secret",
       if str_truthy (webhook_secret s) then JStr "***"
       else json_of_opt_str (webhook_secret s));
      ("down_threshold", JInt (down_threshold s));
      ("up_threshold", JInt (up_threshold s));
      ("cooldown_seconds", JInt (cooldown_seconds s)) ].
Proof. exact (to_public_eq s). Qed.

(** Whatever the state file holds (its members of the types of the fields,
    where it has them), the state that [load] returns has a non-empty
    secret, provided the fresh token is non-empty. *)
Theorem load_always_has_secret (cfg : Config) (file : FileContent)
  (token : string) (s : ServiceState) :
  token <> "" ->
  load cfg file token = Some s ->
  str_truthy (webhook_secret s) = true.
Proof.
  intros Hne Hload.
  assert (Hfresh : str_truthy (webhook_secret (fresh_state cfg token)) = true).
  { cbn. apply String.eqb_neq in Hne. rewrite Hne. reflexivity. }
  unfold load in Hload.
  destruct file as [| |j];
    try (injection Hload as <-; exact Hfresh).
  destruct j as [| | | | | |data];
    try (injection Hload as <-; exact Hfresh).
  destruct (forallb _ (dict_keys data));
    [|injection Hload as <-; exact Hfresh].
  destruct (of_dict _) as [obj|]; [|discriminate].
  destruct (str_truthy (webhook_secret obj)) eqn:Et.
  - injection Hload as <-. exact Et.
  - injection Hload as <-. cbn. apply String.eqb_neq in Hne.
    rewrite Hne. reflexivity.
Qed.

Lemma load_always_has_secret_witness :
  str_truthy (webhook_secret (fresh_state example_cfg "tok")) = true.
Proof.
  exact (load_always_has_secret example_cfg NotJson "tok"
           (fresh_state example_cfg "tok") ltac:(discriminate) eq_refl).
Defined.

(** [load] recovers from every unusable state file with the defaults and a
    fresh secret: a missing file, text that is not JSON, a JSON document
    that is not an object, and an object with a key that is no field of the
    state.  An empty object gives the same. *)
Theorem load_falls_back_to_defaults (cfg : Config) (token : string) :
  load cfg NoFile token = Some (fresh_state cfg token)
  /\ load cfg NotJson token = Some (fresh_state cfg token)
  /\ (forall j, (forall data, j <> JObj data) ->
      load cfg (JsonDoc j) token = Some (fresh_state cfg token))
  /\ (forall data k,
        In k (dict_keys data) ->
        ~ In k (dict_keys (asdict (defaults cfg))) ->
        load cfg (JsonDoc (JObj data)) token = Some (fresh_state cfg token))
  /\ load cfg (JsonDoc (JObj [])) token = Some (fresh_state cfg token).
Proof.
  split; [reflexivity|]. split; [reflexivity|]. split; [|split].
  - intros j Hj. destruct j; try reflexivity. exfalso. exact (Hj members eq_refl).
  - intros data k Hin Hnot. unfold load.
    destruct (forallb
                (fun k0 => existsb (String.eqb k0) (dict_keys (asdict (defaults cfg))))
                (dict_keys data)) eqn:E; [|reflexivity].
    exfalso. apply Hnot.
    rewrite forallb_forall in E. specialize (E k Hin).
    apply existsb_exists in E. destruct E as (x & Hx & Heq).
    apply String.eqb_eq in Heq. subst x. exact Hx.
  - reflexivity.
Qed.

Lemma load_falls_back_to_defaults_witness :
  load example_cfg (JsonDoc (JObj [("currentDNS", JStr "9.9.9.9")])) "tok"
  = Some (fresh_state example_cfg "tok").
Proof.
  refine (proj1 (proj2 (proj2 (proj2
            (load_falls_back_to_defaults example_cfg "tok"))))
            [("currentDNS", JStr "9.9.9.9")] "currentDNS" _ _).
  - left. reflexivity.
  - cbn. intros H.
    repeat (destruct H as [H | H]; [discriminate|]). exact H.
Defined.

(** ** Dictionaries *)

Lemma dict_set_in {V : Type} (k : string) (v : V) (d : list (string * V))
  (k' : string) (v' : V) :
  In (k', v') (dict_set k v d) -> (k' = k /\ v' = v) \/ In (k', v') d.
Proof.
  induction d as [|[k0 v0] rest IH]; cbn.
  - intros [H | []]. injection H as <- <-. auto.
  - destruct (String.eqb k k0) eqn:E.
    + intros [H | H]; [injection H as <- <-; auto | auto].
    + intros [H | H]; [auto|]. destruct (IH H); auto.
Qed.

Lemma dict_set_keys_in {V : Type} (k : string) (v : V) (d : list (string * V))
  (k' : string) :
  In k' (dict_keys (dict_set k v d)) -> k' = k \/ In k' (dict_keys d).
Proof.
  unfold dict_keys. intros H. apply in_map_iff in H.
  destruct H as ([k1 v1] & <- & Hin). cbn.
  destruct (dict_set_in k v d k1 v1 Hin) as [[-> _] | Hd]; [auto|].
  right. apply in_map_iff. exists (k1, v1). auto.
Qed.

Lemma dict_set_nodup {V : Type} (k : string) (v : V) (d : list (string * V)) :
  NoDup (dict_keys d) -> NoDup (dict_keys (dict_set k v d)).
Proof.
  induction d as [|[k0 v0] rest IH]; cbn; intros Hnd.
  - constructor; [intros [] | constructor].
  - inversion Hnd as [|x xs Hnotin Hrest]; subst.
    destruct (String.eqb k k0) eqn:E.
    + apply String.eqb_eq in E. subst k0. cbn. constructor; assumption.
    + cbn. constructor; [|apply IH; exact Hrest].
      intros Hin. apply (dict_set_keys_in k v rest k0) in Hin.
      destruct Hin as [-> | Hin]; [|contradiction].
      rewrite String.eqb_refl in E. discriminate.
Qed.

(** Lookup after assignment. *)
Lemma dict_get_set {V : Type} (k : string) (v : V) (d : list (string * V))
  (k' : string) :
  dict_get k' (dict_set k v d)
  = if String.eqb k' k then Some v else dict_get k' d.
Proof.
  induction d as [|[k0 v0] rest IH]; cbn.
  - destruct (String.eqb k' k); reflexivity.
  - destruct (String.eqb k k0) eqn:E; cbn.
    + apply String.eqb_eq in E. subst k0.
      destruct (String.eqb k' k); reflexivity.
    + destruct (String.eqb k' k0) eqn:E0.
      * apply String.eqb_eq in E0. subst k0.
        rewrite String.eqb_sym, E. reflexivity.
      * exact IH.
Qed.

(** ** The record cache *)

Lemma add_page_cache_from (cfg : Config) (get : Z -> PageResult) (page : Z)
  (total : option Z) (result : list DnsRecord) :
  get page = Page result total ->
  forall (shown : list DnsRecord) (found : list (string * DnsRecord)),
    (forall r, In r shown -> In r result) ->
    cache_from cfg get found ->
    cache_from cfg get (add_page cfg shown found).
Proof.
  intros Hget. unfold add_page.
  induction shown as [|r shown IH]; intros found Hsub Hc; cbn; [exact Hc|].
  apply IH; [intros r0 H0; apply Hsub; right; exact H0|].
  destruct (listed cfg (r_name r)) eqn:El; [|exact Hc].
  destruct Hc as [Hnd Hall]. split; [apply dict_set_nodup; exact Hnd|].
  intros name r0 Hin. apply dict_set_in in Hin.
  destruct Hin as [[-> ->] | Hin]; [|apply Hall; exact Hin].
  split; [reflexivity|]. split; [exact El|].
  exists page, result, total. split; [exact Hget|]. apply Hsub. left. reflexivity.
Qed.

Lemma load_pages_cache_from (cfg : Config) (get : Z -> PageResult) :
  forall (fuel : nat) (page : Z) (found c : list (string * DnsRecord)),
    cache_from cfg get found ->
    load_pages cfg get fuel page found = PagesDone c ->
    cache_from cfg get c.
Proof.
  induction fuel as [|fuel IH]; intros page found c Hc; cbn; [discriminate|].
  destruct (get page) as [|result total] eqn:Eget; [discriminate|].
  pose proof (add_page_cache_from cfg get page total result Eget result found
                (fun r H => H) Hc) as Hc'.
  destruct (page >=? match total with Some t => t | None => 1 end).
  - intros H. injection H as <-. exact Hc'.
  - apply IH. exact Hc'.
Qed.

(** [load_dns_records] replaces the cache wholesale or not at all.  When it
    returns, the new cache owes nothing to the old one: it has no name
    twice, files every record under its own name, holds only names that
    [DNS_RECORD_NAMES] allows (any name when the list is empty) and only
    records the registrar listed.  When a request raises, or the registrar
    never reports a last page, the world is left exactly as it was, however
    many pages had been read. *)
Theorem load_dns_records_all_or_nothing (cfg : Config) (env : Env) (w : World) :
  let r := load_dns_records cfg env w in
  match fst r with
  | Returned _ =>
      cache_from cfg (cf_get env) (cached_records (snd r))
      /\ load_pages cfg (cf_get env) (max_pages env) 1 []
         = PagesDone (cached_records (snd r))
      /\ app_state (snd r) = app_state w
      /\ state_file (snd r) = state_file w
  | Raised | Hung => snd r = w
  end.
Proof.
  cbn zeta. unfold load_dns_records.
  destruct (load_pages cfg (cf_get env) (max_pages env) 1 []) as [found| |] eqn:E;
    cbn; [|reflexivity|reflexivity].
  split; [|auto].
  apply (load_pages_cache_from cfg (cf_get env) (max_pages env) 1 [] found);
    [|exact E].
  split; [constructor | intros name r []].
Qed.

Lemma load_pages_reads (cfg : Config) (get : Z -> PageResult)
  (pages : list (list DnsRecord)) :
  (forall i, (i < List.length pages)%nat ->
     get (1 + Z.of_nat i)
     = Page (nth i pages []) (Some (Z.of_nat (List.length pages)))) ->
  forall (rest done : list (list DnsRecord)) (found : list (string * DnsRecord))
         (fuel : nat),
    pages = (done ++ rest)%list -> rest <> [] ->
    (List.length rest <= fuel)%nat ->
    load_pages cfg get fuel (1 + Z.of_nat (List.length done)) found
    = PagesDone (fold_left (fun acc result => add_page cfg result acc) rest found).
Proof.
  intros Hget. induction rest as [|result rest IH];
    intros done found fuel Hpages Hne Hfuel; [congruence|].
  destruct fuel as [|fuel]; [cbn in Hfuel; lia|].
  cbn [load_pages fold_left].
  assert (Hlen : List.length pages
                 = (List.length done + S (List.length rest))%nat).
  { rewrite Hpages, length_app. reflexivity. }
  rewrite (Hget (List.length done)) by lia.
  assert (Hnth : nth (List.length done) pages [] = result).
  { rewrite Hpages, app_nth2 by lia. rewrite Nat.sub_diag. reflexivity. }
  rewrite Hnth.
  destruct rest as [|next rest'].
  - assert (E : (1 + Z.of_nat (List.length done)
                 >=? Z.of_nat (List.length pages)) = true).
    { rewrite Z.geb_leb. apply Z.leb_le. rewrite Hlen. cbn [List.length]. lia. }
    rewrite E. reflexivity.
  - assert (E : (1 + Z.of_nat (List.length done)
                 >=? Z.of_nat (List.length pages)) = false).
    { rewrite Z.geb_leb. apply Z.leb_gt. rewrite Hlen. cbn [List.length]. lia. }
    rewrite E.
    replace (1 + Z.of_nat (List.length done) + 1)
      with (1 + Z.of_nat (List.length (done ++ [result])%list))
      by (rewrite length_app; cbn [List.length]; lia).
    apply IH.
    + rewrite Hpages, <- app_assoc. reflexivity.
    + discriminate.
    + cbn [List.length] in *. lia.
Qed.

(** The pagination ends: when the registrar serves [n >= 1] pages, each
    announcing [total_pages = n], and at least [n] requests are allowed,
    [load_dns_records] reads page 1 to page [n] once each, in order, and the
    cache is what the pages add up to, a later record replacing an earlier
    one of the same name. *)
Theorem load_pages_reads_every_page (cfg : Config) (get : Z -> PageResult)
  (pages : list (list DnsRecord)) (fuel : nat) :
  pages <> [] ->
  (forall i, (i < List.length pages)%nat ->
     get (1 + Z.of_nat i)
     = Page (nth i pages []) (Some (Z.of_nat (List.length pages)))) ->
  (List.length pages <= fuel)%nat ->
  load_pages cfg get fuel 1 []
  = PagesDone (fold_left (fun acc result => add_page cfg result acc) pages []).
Proof.
  intros Hne Hget Hfuel.
  exact (load_pages_reads cfg get pages Hget pages [] [] fuel eq_refl Hne Hfuel).
Qed.

Lemma load_pages_reads_every_page_witness :
  load_pages example_cfg
    (fun page =>
       if page =? 1 then Page [example_record "a.example" "id-a"] (Some 2)
       else Page [example_record "b.example" "id-b";
                  example_record "a.example" "id-a2"] (Some 2))
    8 1 []
  = PagesDone
      (fold_left (fun acc result => add_page example_cfg result acc)
         [ [example_record "a.example" "id-a"];
           [example_record "b.example" "id-b";
            example_record "a.example" "id-a2"] ] []).
Proof.
  refine (load_pages_reads_every_page example_cfg _
            [ [example_record "a.example" "id-a"];
              [example_record "b.example" "id-b";
               example_record "a.example" "id-a2"] ] 8 _ _ _).
  - discriminate.
  - intros i Hi. destruct i as [|[|i]]; [reflexivity | reflexivity |].
    cbn in Hi. lia.
  - cbn. lia.
Defined.

(** ** The synchroniser under exceptions *)

Lemma issued_app (env : Env) (a b : list (string * Payload)) :
  issued env (a ++ b)
  = if existsb (put_raises env) a then issued env a
    else (a ++ issued env b)%list.
Proof.
  induction a as [|req a IH]; cbn; [reflexivity|].
  destruct (put_raises env req); cbn; [reflexivity|].
  rewrite IH. destruct (existsb (put_raises env) a); reflexivity.
Qed.

Lemma answered_app (env : Env) (a b : list (string * Payload)) :
  answered env (a ++ b)
  = if existsb (put_raises env) a then answered env a
    else (a ++ answered env b)%list.
Proof.
  induction a as [|req a IH]; cbn; [reflexivity|].
  destruct (put_raises env req); cbn; [reflexivity|].
  rewrite IH. destruct (existsb (put_raises env) a); reflexivity.
Qed.

Lemma issued_all (env : Env) (a : list (string * Payload)) :
  existsb (put_raises env) a = false ->
  issued env a = a /\ answered env a = a.
Proof.
  induction a as [|req a IH]; cbn; [auto|].
  destruct (put_raises env req); cbn; [discriminate|].
  intros H. destruct (IH H) as [-> ->]. auto.
Qed.

Lemma put_record_general (env : Env) (new_ip name : string)
  (record : DnsRecord) (w : World) :
  let a := attempt new_ip (ttl (app_state w)) (name, record) in
  put_record env new_ip name record w
  = (if existsb (put_raises env) a then Raised else Returned tt,
     emit (map (answer_line env new_ip) (answered env a)) (issued env a) w).
Proof.
  cbn zeta. unfold put_record, attempt. cbn [fst snd].
  destruct (r_id record) as [rid|] eqn:Eid; cbn [str_truthy].
  - destruct (String.eqb rid "") eqn:Eempty; cbn [negb].
    + cbn. rewrite emit_nil. reflexivity.
    + unfold http_put. run.
      fold (payload_for new_ip (ttl (app_state w)) name record).
      cbn [app_state with_put_requests existsb issued answered orb].
      unfold put_raises, answer_line. cbn [fst snd map].
      destruct (cf_put env rid (payload_for new_ip (ttl (app_state w)) name record))
        eqn:E; cbn [map fst snd]; rewrite ?E; destruct w;
        unfold emit; cbn; rewrite ?app_nil_r; reflexivity.
  - cbn. rewrite emit_nil. reflexivity.
Qed.

Lemma put_records_general (env : Env) (new_ip : string)
  (items : list (string * DnsRecord)) :
  forall w,
    let reqs := expected_puts new_ip (ttl (app_state w)) items in
    put_records env new_ip items w
    = (if existsb (put_raises env) reqs then Raised else Returned tt,
       emit (map (answer_line env new_ip) (answered env reqs))
            (issued env reqs) w).
Proof.
  induction items as [|[name record] rest IH]; intros w; cbn zeta.
  - cbn. rewrite emit_nil. reflexivity.
  - cbn [put_records]. unfold bind.
    rewrite (put_record_general env new_ip name record w). cbn zeta.
    unfold expected_puts. cbn [flat_map].
    rewrite existsb_app, issued_app, answered_app.
    destruct (existsb (put_raises env)
                (attempt new_ip (ttl (app_state w)) (name, record))) eqn:Er.
    + reflexivity.
    + destruct (issued_all env _ Er) as [Ei Ea]. rewrite Ei, Ea.
      rewrite IH. cbn zeta. rewrite emit_emit.
      cbn [orb]. unfold expected_puts. rewrite map_app.
      destruct w; reflexivity.
Qed.

Lemma issued_incl (env : Env) (reqs : list (string * Payload)) :
  incl (issued env reqs) reqs.
Proof.
  induction reqs as [|req rest IH]; cbn; [intros x []|].
  destruct (put_raises env req).
  - intros x [<- | []]. left. reflexivity.
  - intros x [<- | H]; [left; reflexivity | right; apply IH; exact H].
Qed.

Lemma expected_puts_origin (new_ip : string) (ttl_now : Z)
  (items : list (string * DnsRecord)) (req : string * Payload) :
  In req (expected_puts new_ip ttl_now items) ->
  exists name record,
    In (name, record) items /\ r_id record = Some (fst req)
    /\ fst req <> ""
    /\ snd req = payload_for new_ip ttl_now name record.
Proof.
  unfold expected_puts. intros H. apply in_flat_map in H.
  destruct H as ([name record] & Hin & Hatt).
  unfold attempt in Hatt. cbn [fst snd] in Hatt.
  destruct (r_id record) as [rid|] eqn:Eid; [|destruct Hatt].
  destruct (String.eqb rid "") eqn:E; [destruct Hatt|].
  destruct Hatt as [<- | []]. cbn [fst snd].
  exists name, record. apply String.eqb_neq in E. auto.
Qed.

(** With records in the cache, [update_dns] in any environment.  The
    requests that go out are the intended ones, in cache order, up to and
    including the first on which the transport raises.  Each of them writes
    a cached record under its own id, with [new_ip] as content, the TTL of
    the state, and the type and proxied flag of the record ([A] and not
    proxied when the record has none).  If a request raises, the exception
    leaves [update_dns]: the state and the state file are as before, so
    [current_dns] still names the old address although the records before
    the failing one were rewritten.  If none raises, the new address is
    committed. *)
Theorem update_dns_requests (cfg : Config) (py : PyRuntime) (env : Env)
  (new_ip : string) (w : World) :
  cached_records w <> [] ->
  let reqs := expected_puts new_ip (ttl (app_state w)) (cached_records w) in
  let r := update_dns cfg py env new_ip w in
  put_requests (snd r) = (put_requests w ++ issued env reqs)%list
  /\ (forall req, In req (issued env reqs) ->
      exists name record,
        In (name, record) (cached_records w)
        /\ r_id record = Some (fst req)
        /\ p_name (snd req) = name
        /\ p_content (snd req) = new_ip
        /\ p_ttl (snd req) = ttl (app_state w)
        /\ p_type (snd req)
           = match r_type record with Some t => t | None => "A" end
        /\ p_proxied (snd req)
           = match r_proxied record with Some b => b | None => false end)
  /\ (existsb (put_raises env) reqs = true ->
      fst r = Raised
      /\ app_state (snd r) = app_state w
      /\ state_file (snd r) = state_file w)
  /\ (existsb (put_raises env) reqs = false ->
      fst r = Returned tt
      /\ app_state (snd r)
         = set_published new_ip (utc_iso py (now_publish env)) (app_state w)
      /\ state_file (snd r) = save (app_state (snd r))).
Proof.
  intros Hne. cbn zeta. rewrite update_dns_unfold.
  destruct (cached_records w) as [|item rest] eqn:Ec; [congruence|].
  rewrite <- Ec. unfold publish_cached. run. rewrite Ec. rewrite <- Ec.
  rewrite (put_records_general env new_ip (cached_records w) w). cbn zeta.
  split; [|split; [|split]].
  - destruct (existsb (put_raises env)
                (expected_puts new_ip (ttl (app_state w)) (cached_records w)));
      unfold commit_switch; run; cbn; reflexivity.
  - intros req Hin. apply issued_incl in Hin.
    destruct (expected_puts_origin _ _ _ _ Hin)
      as (name & record & Hitem & Hid & _ & Hpay).
    exists name, record. rewrite Hpay. cbn. auto 10.
  - intros Hr. rewrite Hr. cbn. auto.
  - intros Hr. rewrite Hr. unfold commit_switch. run. cbn. auto.
Qed.

Lemma update_dns_requests_witness :
  let w := example_world (defaults example_cfg) three_records in
  let r := update_dns example_cfg example_py (broken_env 7) "5.6.7.8" w in
  fst r = Raised
  /\ current_dns (app_state (snd r)) = "1.2.3.4"
  /\ map (fun req => p_name (snd req)) (put_requests (snd r))
     = ["a.example"; "b.example"].
Proof.
  cbn zeta.
  destruct (update_dns_requests example_cfg example_py (broken_env 7) "5.6.7.8"
              (example_world (defaults example_cfg) three_records)
              ltac:(discriminate))
    as (Hreqs & _ & Hraise & _).
  destruct (Hraise eq_refl) as (Hr & Hs & _).
  split; [exact Hr|]. split; [rewrite Hs; reflexivity|].
  rewrite Hreqs. reflexivity.
Defined.

(** Publishing the same address twice is publishing it once: with a
    registrar that answers, the second call leaves the state and the file
    as one call at that time would, and the cache as it was; only the
    requests to the registrar go out a second time. *)
Theorem update_dns_idempotent (cfg : Config) (py : PyRuntime) (e1 e2 : Env)
  (new_ip : string) (w : World) :
  cached_records w <> [] -> answers e1 -> answers e2 ->
  let once := snd (update_dns cfg py e2 new_ip w) in
  let twice :=
    snd (update_dns cfg py e2 new_ip (snd (update_dns cfg py e1 new_ip w))) in
  let reqs := expected_puts new_ip (ttl (app_state w)) (cached_records w) in
  app_state twice = app_state once
  /\ state_file twice = state_file once
  /\ cached_records twice = cached_records w
  /\ current_dns (app_state twice) = new_ip
  /\ put_requests twice = (put_requests w ++ reqs ++ reqs)%list.
Proof.
  intros Hne H1 H2. cbn zeta.
  rewrite (update_dns_cached cfg py e1 new_ip w Hne H1). cbn [snd].
  rewrite (update_dns_cached cfg py e2 new_ip w Hne H2). cbn [snd].
  rewrite update_dns_cached; [|exact Hne|exact H2]. cbn.
  rewrite <- app_assoc. repeat split.
Qed.

Lemma update_dns_idempotent_witness :
  let w := example_world (defaults example_cfg) three_records in
  let twice :=
    snd (update_dns example_cfg example_py (example_env 9) "5.6.7.8"
           (snd (update_dns example_cfg example_py (flaky_env 7) "5.6.7.8" w))) in
  app_state twice
  = app_state (snd (update_dns example_cfg example_py (example_env 9)
                      "5.6.7.8" w))
  /\ current_dns (app_state twice) = "5.6.7.8".
Proof.
  cbn zeta.
  destruct (update_dns_idempotent example_cfg example_py (flaky_env 7)
              (example_env 9) "5.6.7.8"
              (example_world (defaults example_cfg) three_records)
              ltac:(discriminate) (flaky_env_answers 7) (example_env_answers 9))
    as (Hs & _ & _ & Hc & _).
  split; [exact Hs | exact Hc].
Defined.

(** ** What the handlers do to the state *)

Lemma touches_one (cfg : Config) (s s' : ServiceState) :
  touch cfg s s' -> touches cfg s s'.
Proof. intros H. eapply touches_more; [exact H | apply touches_none]. Qed.

Lemma touches_trans (cfg : Config) (s1 s2 s3 : ServiceState) :
  touches cfg s1 s2 -> touches cfg s2 s3 -> touches cfg s1 s3.
Proof.
  induction 1 as [|s s1 s2 Hstep Hrest IH]; intros H; [exact H|].
  eapply touches_more; [exact Hstep | apply IH; exact H].
Qed.

Lemma desired_ip_cases (cfg : Config) (s : ServiceState) :
  desired_ip cfg s = SERVER1_IP cfg \/ desired_ip cfg s = SERVER2_IP cfg
  \/ desired_ip cfg s = current_dns s.
Proof.
  unfold desired_ip. destruct (choose_s1 s); [auto|].
  destruct (choose_s2 s); auto.
Qed.

Lemma decide_failover_touches (cfg : Config) (py : PyRuntime) (env : Env)
  (source : string) (w : World) :
  touches cfg (app_state w)
    (app_state (snd (decide_failover cfg py env source w))).
Proof.
  destruct (freeze (app_state w)) eqn:Hf.
  { rewrite decide_failover_gated_state by (left; exact Hf).
    apply touches_none. }
  destruct (_cooldown_ok py (now_decide env) (app_state w)
              (last_switch_at (app_state w))) eqn:Hc.
  2:{ rewrite decide_failover_gated_state by (right; exact Hc).
      apply touches_none. }
  destruct (String.eqb (desired_ip cfg (update_streaks (app_state w)))
              (current_dns (app_state w))) eqn:Hd.
  - apply String.eqb_eq in Hd.
    rewrite decide_failover_unchanged by assumption.
    apply touches_one. apply touch_streaks.
  - apply String.eqb_neq in Hd.
    rewrite decide_failover_changed by assumption.
    rewrite switch_to_state.
    eapply touches_more; [apply touch_streaks|].
    pose proof (update_dns_state cfg py env
                  (desired_ip cfg (update_streaks (app_state w)))
                  (streaked w)) as Hs.
    cbn zeta in Hs. destruct Hs as [[Hs _] | [_ Hs]]; rewrite Hs.
    + apply touches_none.
    + apply touches_one. cbn [streaked app_state with_app_state].
      destruct (desired_ip_cases cfg (update_streaks (app_state w)))
        as [E | [E | E]]; rewrite E in *.
      * apply touch_publish1.
      * apply touch_publish2.
      * exfalso. apply Hd. reflexivity.
Qed.

Lemma after_request_touches (cfg : Config) (py : PyRuntime) (env : Env)
  (r : Request) (w : World) :
  touches cfg (app_state w) (app_state (after_request cfg py env r w)).
Proof.
  destruct r as [req|req|req|req|req|token req|req]; cbn [after_request].
  - unfold webhook_server1. unfold bind at 1, gets at 1.
    destruct (_check_webhook_secret (x_webhook_secret req) (app_state w));
      [|apply touches_none..].
    destruct (body req) as [| |j]; try apply touches_none.
    unfold bind at 1, modify at 1.
    rewrite (webhook_tail_state (decide_failover cfg py env "webhook:s1")
               (fun msg s =>
                  WebhookUpdated (_parse_status py (json_or_empty j))
                    (server2_up s) msg)).
    eapply touches_more; [apply (touch_flag1 cfg (_parse_status py (json_or_empty j)))|].
    apply (decide_failover_touches cfg py env "webhook:s1"
             (reported1 (_parse_status py (json_or_empty j)) w)).
  - unfold webhook_server2. unfold bind at 1, gets at 1.
    destruct (_check_webhook_secret (x_webhook_secret req) (app_state w));
      [|apply touches_none..].
    destruct (body req) as [| |j]; try apply touches_none.
    unfold bind at 1, modify at 1.
    rewrite (webhook_tail_state (decide_failover cfg py env "webhook:s2")
               (fun msg s =>
                  WebhookUpdated (server1_up s)
                    (_parse_status py (json_or_empty j)) msg)).
    eapply touches_more; [apply (touch_flag2 cfg (_parse_status py (json_or_empty j)))|].
    apply (decide_failover_touches cfg py env "webhook:s2"
             (reported2 (_parse_status py (json_or_empty j)) w)).
  - unfold api_switch.
    destruct (negb (auth_ok cfg req)); [apply touches_none|].
    destruct (check_csrf req); [|apply touches_none..].
    destruct (negb _); [apply touches_none|].
    unfold bind at 1.
    match goal with
    | |- context [update_dns cfg py env ?ip w] =>
        pose proof (update_dns_state cfg py env ip w) as Hs;
        assert (Hip : ip = SERVER1_IP cfg \/ ip = SERVER2_IP cfg)
          by (destruct (String.eqb (lower (form_target req)) "server1"); auto);
        destruct (update_dns cfg py env ip w) as [[[]| |] w1]
    end; cbn zeta in Hs; cbn [fst snd] in *.
    + run. cbn [snd app_state with_log].
      destruct Hs as [[Hs _] | [_ Hs]]; rewrite Hs; [apply touches_none|].
      apply touches_one. destruct Hip as [-> | ->];
        [apply touch_publish1 | apply touch_publish2].
    + destruct Hs as [[Hs _] | [Hs _]]; [|discriminate].
      rewrite Hs. apply touches_none.
    + destruct Hs as [[Hs _] | [Hs _]]; [|discriminate].
      rewrite Hs. apply touches_none.
  - unfold api_freeze.
    destruct (negb (auth_ok cfg req)); [apply touches_none|].
    destruct (check_csrf req); [|apply touches_none..].
    run. cbn. apply touches_one. apply touch_freeze.
  - unfold api_config_post.
    destruct (negb (auth_ok cfg (config_admin req))); [apply touches_none|].
    destruct (check_csrf (config_admin req)); [|apply touches_none..].
    destruct (form_of req) as [reply|form]; [apply touches_none|].
    run. cbn. apply touches_one. apply touch_tuning; lia.
  - unfold api_webhook_secret_rotate.
    destruct (negb (auth_ok cfg req)); [apply touches_none|].
    destruct (check_csrf req); [|apply touches_none..].
    run. cbn. apply touches_one. apply touch_secret.
  - unfold api_refresh_records.
    destruct (negb (auth_ok cfg req)); [apply touches_none|].
    destruct (check_csrf req); [|apply touches_none..].
    unfold bind, load_dns_records.
    destruct (load_pages cfg (cf_get env) (max_pages env) 1 []);
      cbn; apply touches_none.
Qed.

(** Every route that writes changes the state only through the assignments
    of [touch]: a health flag, the streak update, the commit of a switch to
    one of the two configured targets, the freeze flag, clamped tuning
    values, the secret.  No route publishes an address that is not one of
    the two targets, and none edits the streaks other than by the update of
    a decision. *)
Theorem handlers_touch (cfg : Config) (py : PyRuntime) (env : Env)
  (r : Request) (w : World) :
  touches cfg (app_state w) (app_state (after_request cfg py env r w)).
Proof. exact (after_request_touches cfg py env r w). Qed.

(** ** Invariants *)

Lemma update_streaks_wf (s : ServiceState) :
  streaks_wf s -> streaks_wf (update_streaks s).
Proof.
  unfold streaks_wf, update_streaks. cbn.
  destruct (server1_up s), (server2_up s); intros; lia.
Qed.

Lemma touch_streaks_wf (cfg : Config) (s s' : ServiceState) :
  touch cfg s s' -> streaks_wf s -> streaks_wf s'.
Proof.
  intros H Hwf. destruct H; try exact Hwf. apply update_streaks_wf. exact Hwf.
Qed.

Lemma touch_on_a_target (cfg : Config) (s s' : ServiceState) :
  touch cfg s s' -> on_a_target cfg s -> on_a_target cfg s'.
Proof.
  intros H Hon. destruct H; try exact Hon.
  - left. reflexivity.
  - right. reflexivity.
Qed.

Lemma touch_tuning_ok (cfg : Config) (s s' : ServiceState) :
  touch cfg s s' -> tuning_ok s -> tuning_ok s'.
Proof.
  intros H Hok. destruct H; try exact Hok.
  unfold tuning_ok. cbn. auto.
Qed.

Lemma touches_keep (cfg : Config) (P : ServiceState -> Prop) :
  (forall s s', touch cfg s s' -> P s -> P s') ->
  forall s s', touches cfg s s' -> P s -> P s'.
Proof.
  intros Hstep s s' H. induction H as [|s s1 s2 H1 _ IH]; [auto|].
  intros HP. apply IH. apply (Hstep s s1 H1 HP).
Qed.

Lemma after_requests_keep (cfg : Config) (py : PyRuntime)
  (P : ServiceState -> Prop) :
  (forall s s', touch cfg s s' -> P s -> P s') ->
  forall (rs : list (Env * Request)) (w : World),
    P (app_state w) -> P (app_state (after_requests cfg py rs w)).
Proof.
  intros Hstep. induction rs as [|[env r] rs IH]; intros w HP; [exact HP|].
  cbn [after_requests]. apply IH.
  apply (touches_keep cfg P Hstep _ _ (after_request_touches cfg py env r w) HP).
Qed.

(** The streak counters stay counters: if no streak is negative and of the
    two streaks of each target one is zero, this is still so after any
    sequence of requests to the routes that write, in any environments. *)
Theorem streaks_stay_wf (cfg : Config) (py : PyRuntime)
  (rs : list (Env * Request)) (w : World) :
  streaks_wf (app_state w) ->
  streaks_wf (app_state (after_requests cfg py rs w)).
Proof. apply after_requests_keep. apply touch_streaks_wf. Qed.

(** DNS stays on a target: if [current_dns] is the IP of target 1 or of
    target 2, it still is after any sequence of requests to the routes that
    write, whatever the heartbeats, the registrar and the operator do. *)
Theorem dns_stays_on_a_target (cfg : Config) (py : PyRuntime)
  (rs : list (Env * Request)) (w : World) :
  on_a_target cfg (app_state w) ->
  on_a_target cfg (app_state (after_requests cfg py rs w)).
Proof. apply after_requests_keep. apply touch_on_a_target. Qed.

(** A state as [load] makes it on a first start satisfies both. *)
Lemma fresh_state_invariants (cfg : Config) (token : string) :
  streaks_wf (fresh_state cfg token) /\ on_a_target cfg (fresh_state cfg token).
Proof.
  split; [unfold streaks_wf; cbn; lia | left; reflexivity].
Qed.

Lemma streaks_stay_wf_witness :
  streaks_wf
    (app_state
       (after_requests example_cfg example_py example_requests
          (example_world (fresh_state example_cfg "tok") three_records))).
Proof.
  apply (streaks_stay_wf example_cfg example_py example_requests
           (example_world (fresh_state example_cfg "tok") three_records)).
  exact (proj1 (fresh_state_invariants example_cfg "tok")).
Defined.

Lemma dns_stays_on_a_target_witness :
  on_a_target example_cfg
    (app_state
       (after_requests example_cfg example_py example_requests
          (example_world (fresh_state example_cfg "tok") three_records))).
Proof.
  apply (dns_stays_on_a_target example_cfg example_py example_requests
           (example_world (fresh_state example_cfg "tok") three_records)).
  exact (proj2 (fresh_state_invariants example_cfg "tok")).
Defined.

Example example_requests_end :
  let s := app_state
             (after_requests example_cfg example_py example_requests
                (example_world (fresh_state example_cfg "tok") three_records)) in
  current_dns s = "1.2.3.4" /\ ttl s = 30 /\ up_threshold s = 1
  /\ webhook_secret s = Some "tok2" /\ server2_up s = false
  /\ streaks_of s = (2, 0, 1, 0).
Proof. cbn zeta. repeat split; reflexivity. Qed.

(** ** The settings endpoints *)

Lemma form_int_default (py : PyRuntime) (form : Json) (name : string)
  (default : Z) :
  (forall members v,
     form = JObj members -> dict_get name members = Some v ->
     py_int py v = None) ->
  form_int py form name default = default.
Proof.
  intros H. unfold form_int.
  destruct form as [| | | | | |members]; try reflexivity.
  destruct (dict_get name members) as [v|] eqn:E; [|reflexivity].
  rewrite (H members v eq_refl E). reflexivity.
Qed.

(** An accepted settings update leaves the tuning values within their
    bounds whatever was posted: [ttl >= 30], [cooldown_seconds >= 0],
    [up_threshold >= 1], [down_threshold >= 0].  A value that is missing
    from the form, or that [int] does not read, stands for the present
    value, which is clamped like a posted one.  Nothing else of the state
    changes, the cache is untouched and the new state is saved. *)
Theorem api_config_post_clamps (cfg : Config) (py : PyRuntime)
  (req : ConfigRequest) (form : Json) (w : World) :
  auth_ok cfg (config_admin req) = true ->
  csrf_ok (config_admin req) = true ->
  form_of req = inr form ->
  let r := api_config_post cfg py req w in
  let s := app_state w in
  let s' := app_state (snd r) in
  fst r = Returned (HxRedirect "/settings")
  /\ tuning_ok s'
  /\ (forall members,
        form = JObj members -> dict_get "ttl" members = None ->
        ttl s' = Z.max 30 (ttl s))
  /\ (forall members v n,
        form = JObj members -> dict_get "ttl" members = Some v ->
        py_int py v = Some n -> ttl s' = Z.max 30 n)
  /\ (forall members v,
        form = JObj members -> dict_get "ttl" members = Some v ->
        py_int py v = None -> ttl s' = Z.max 30 (ttl s))
  /\ (server1_up s' = server1_up s /\ server2_up s' = server2_up s
      /\ current_dns s' = current_dns s
      /\ last_switch_at s' = last_switch_at s
      /\ freeze s' = freeze s /\ webhook_secret s' = webhook_secret s
      /\ streaks_of s' = streaks_of s)
  /\ cached_records (snd r) = cached_records w
  /\ state_file (snd r) = save s'.
Proof.
  intros Ha Hc Hf. cbn zeta. unfold api_config_post.
  rewrite Ha, (csrf_passed _ Hc), Hf. cbn [negb]. run. cbn.
  split; [reflexivity|]. split; [unfold tuning_ok; cbn; lia|].
  split; [|split; [|split]].
  - intros members -> Hnone. unfold form_int. rewrite Hnone. reflexivity.
  - intros members v n -> Hsome Hint. unfold form_int.
    rewrite Hsome, Hint. reflexivity.
  - intros members v -> Hsome Hint. unfold form_int.
    rewrite Hsome, Hint. reflexivity.
  - repeat split.
Qed.

Lemma api_config_post_clamps_witness :
  let req := {| config_admin := admin_request "";
                config_form := [("ttl", "5"); ("up_threshold", "x")];
                config_json := WrongMime |} in
  let r := api_config_post example_cfg example_py req
             (example_world fresh2 three_records) in
  fst r = Returned (HxRedirect "/settings")
  /\ tuning_ok (app_state (snd r))
  /\ ttl (app_state (snd r)) = 30
  /\ up_threshold (app_state (snd r)) = 2.
Proof.
  cbn zeta.
  destruct (api_config_post_clamps example_cfg example_py
              {| config_admin := admin_request "";
                 config_form := [("ttl", "5"); ("up_threshold", "x")];
                 config_json := WrongMime |}
              (JObj [("ttl", JStr "5"); ("up_threshold", JStr "x")])
              (example_world fresh2 three_records) eq_refl eq_refl eq_refl)
    as (Hr & Hok & _ & Httl & _).
  split; [exact Hr|]. split; [exact Hok|].
  split; [|reflexivity].
  exact (Httl [("ttl", JStr "5"); ("up_threshold", JStr "x")] (JStr "5") 5
           eq_refl eq_refl eq_refl).
Defined.

(** Once within their bounds the tuning values stay there, whatever
    requests follow. *)
Theorem tuning_stays_ok (cfg : Config) (py : PyRuntime)
  (rs : list (Env * Request)) (w : World) :
  tuning_ok (app_state w) ->
  tuning_ok (app_state (after_requests cfg py rs w)).
Proof. apply after_requests_keep. apply touch_tuning_ok. Qed.

Lemma tuning_stays_ok_witness :
  tuning_ok
    (app_state
       (after_requests example_cfg example_py example_requests
          (example_world (set_tuning 60 0 1 1 (fresh_state example_cfg "tok"))
             three_records))).
Proof.
  apply (tuning_stays_ok example_cfg example_py example_requests
           (example_world (set_tuning 60 0 1 1 (fresh_state example_cfg "tok"))
              three_records)).
  unfold tuning_ok. cbn. lia.
Defined.

(** After a rotation of the secret the webhooks accept the new secret and
    only that: a request carrying any other value in the header, the old
    secret included, is refused and changes nothing.  It is answered 401,
    unless the header holds a character that is not ASCII: then
    [compare_digest] raises and the request ends in that exception.  The
    new secret is in the state file. *)
Theorem rotated_secret_replaces_old (cfg : Config) (py : PyRuntime)
  (env : Env) (token : string) (req : AdminRequest) (w : World) :
  auth_ok cfg req = true -> csrf_ok req = true ->
  token <> "" -> isascii token = true ->
  let r := api_webhook_secret_rotate cfg token req w in
  let w' := snd r in
  fst r = Returned (HxRedirect "/settings")
  /\ app_state w' = set_webhook_secret (Some token) (app_state w)
  /\ state_file w' = save (app_state w')
  /\ (forall hook, x_webhook_secret hook <> Some token ->
      let refused :=
        match x_webhook_secret hook with
        | Some header =>
            if isascii header then Returned (Abort 401) else Raised
        | None => Returned (Abort 401)
        end in
      webhook_server1 cfg py env hook w' = (refused, w')
      /\ webhook_server2 cfg py env hook w' = (refused, w'))
  /\ (forall hook, x_webhook_secret hook = Some token ->
      webhook_secret_ok (x_webhook_secret hook) (app_state w') = true).
Proof.
  intros Ha Hc Hne Hascii. cbn zeta. unfold api_webhook_secret_rotate.
  rewrite Ha, (csrf_passed _ Hc). cbn [negb]. run.
  cbn [fst snd app_state with_app_state with_state_file state_file].
  split; [reflexivity|]. split; [reflexivity|]. split; [reflexivity|].
  split.
  - intros hook Hhook.
    assert (Hcheck :
      _check_webhook_secret (x_webhook_secret hook)
        (set_webhook_secret (Some token) (app_state w))
      = match x_webhook_secret hook with
        | Some header => if isascii header then Aborted 401 else TypeError
        | None => Aborted 401
        end).
    { unfold _check_webhook_secret. cbn [webhook_secret set_webhook_secret].
      destruct (x_webhook_secret hook) as [header|]; [|reflexivity].
      cbn [str_truthy]. apply String.eqb_neq in Hne. rewrite Hne.
      destruct (String.eqb header "") eqn:Eh.
      - apply String.eqb_eq in Eh. subst header. reflexivity.
      - cbn [negb]. unfold compare_digest. rewrite Hascii, andb_true_r.
        destruct (isascii header); [|reflexivity].
        destruct (String.eqb header token) eqn:E; [|reflexivity].
        apply String.eqb_eq in E. subst header. exfalso. apply Hhook.
        reflexivity. }
    unfold webhook_server1, webhook_server2. run.
    cbn [app_state with_state_file with_app_state]. rewrite Hcheck.
    destruct (x_webhook_secret hook) as [header|]; [|split; reflexivity].
    destruct (isascii header); split; reflexivity.
  - intros hook Hhook. apply webhook_secret_ok_spec.
    exists token. rewrite Hhook. cbn. auto.
Qed.

Lemma rotated_secret_replaces_old_witness :
  let w' := snd (api_webhook_secret_rotate example_cfg "tok2" (admin_request "")
                   (example_world (fresh_state example_cfg "tok") three_records)) in
  webhook_server1 example_cfg example_py (example_env 1)
    (heartbeat "tok" (JInt 0)) w'
  = (Returned (Abort 401), w').
Proof.
  cbn zeta.
  destruct (rotated_secret_replaces_old example_cfg example_py (example_env 1)
              "tok2" (admin_request "")
              (example_world (fresh_state example_cfg "tok") three_records)
              eq_refl eq_refl ltac:(discriminate) eq_refl)
    as (_ & _ & _ & Hold & _).
  apply (Hold (heartbeat "tok" (JInt 0))). discriminate.
Defined.

(** ** Requests that are turned away *)

(** A request that is turned away leaves the world exactly as it was: no
    flag, no log line, no request to the registrar, no write to the state
    file. *)
Theorem turned_away_changes_nothing (cfg : Config) (py : PyRuntime)
  (env : Env) (r : Request) (w : World) :
  turned_away cfg r w -> after_request cfg py env r w = w.
Proof.
  destruct r as [req|req|req|req|req|token req|req];
    cbn [turned_away after_request].
  - unfold webhook_server1, webhook_secret_ok. run.
    intros [H | [H | H]]; try rewrite H;
      destruct (_check_webhook_secret (x_webhook_secret req) (app_state w));
      try discriminate; reflexivity.
  - unfold webhook_server2, webhook_secret_ok. run.
    intros [H | [H | H]]; try rewrite H;
      destruct (_check_webhook_secret (x_webhook_secret req) (app_state w));
      try discriminate; reflexivity.
  - unfold api_switch, csrf_ok.
    intros [H | [H | [H1 H2]]].
    + rewrite H. reflexivity.
    + destruct (negb (auth_ok cfg req)); [reflexivity|].
      destruct (check_csrf req); try discriminate; reflexivity.
    + apply String.eqb_neq in H1, H2. rewrite H1, H2.
      destruct (negb (auth_ok cfg req)); [reflexivity|].
      destruct (check_csrf req); reflexivity.
  - unfold api_freeze, csrf_ok. intros [H | H]; [rewrite H; reflexivity|].
    destruct (negb (auth_ok cfg req)); [reflexivity|].
    destruct (check_csrf req); try discriminate; reflexivity.
  - unfold api_config_post, csrf_ok. intros [H | [H | [reply H]]].
    + rewrite H. reflexivity.
    + destruct (negb (auth_ok cfg (config_admin req))); [reflexivity|].
      destruct (check_csrf (config_admin req)); try discriminate; reflexivity.
    + rewrite H.
      destruct (negb (auth_ok cfg (config_admin req))); [reflexivity|].
      destruct (check_csrf (config_admin req)); reflexivity.
  - unfold api_webhook_secret_rotate, csrf_ok.
    intros [H | H]; [rewrite H; reflexivity|].
    destruct (negb (auth_ok cfg req)); [reflexivity|].
    destruct (check_csrf req); try discriminate; reflexivity.
  - unfold api_refresh_records, csrf_ok.
    intros [H | H]; [rewrite H; reflexivity|].
    destruct (negb (auth_ok cfg req)); [reflexivity|].
    destruct (check_csrf req); try discriminate; reflexivity.
Qed.

Lemma turned_away_changes_nothing_witness :
  let w := example_world (fresh_state example_cfg "tok") three_records in
  after_request example_cfg example_py (example_env 1)
    (ApiSwitch (admin_request "server3")) w = w.
Proof.
  apply (turned_away_changes_nothing example_cfg example_py (example_env 1)
           (ApiSwitch (admin_request "server3"))
           (example_world (fresh_state example_cfg "tok") three_records)).
  right; right. split; discriminate.
Defined.

Lemma opt_str_eqb_eq (a b : option string) :
  opt_str_eqb a b = true <-> a = b.
Proof.
  destruct a as [x|], b as [y|]; cbn; rewrite ?String.eqb_eq;
    split; intros H; try discriminate; try congruence; reflexivity.
Qed.

(** Who passes [requires_auth] and [check_csrf].  With neither
    [ADMIN_USER] nor [ADMIN_PASS] set every request passes.  With one of
    them set, a request passes exactly when its [Authorization] header
    carries a username and a password that are those of the configuration,
    an absent one matching an unset one: with only one of the two set, no
    request with Basic credentials passes (they carry both), while a header
    that carries the one and lacks the other does.  [check_csrf] passes
    exactly when the session holds a non-empty ASCII token and the request
    provides the same; it raises the [TypeError] of [compare_digest], and
    does not abort, exactly when both are non-empty and one of them holds a
    character that is not ASCII. *)
Theorem admin_guards (cfg : Config) (req : AdminRequest) :
  (str_truthy (ADMIN_USER cfg) = false -> str_truthy (ADMIN_PASS cfg) = false ->
   auth_ok cfg req = true)
  /\ (str_truthy (ADMIN_USER cfg) = true \/ str_truthy (ADMIN_PASS cfg) = true ->
      (auth_ok cfg req = true
       <-> authorization req = Some (ADMIN_USER cfg, ADMIN_PASS cfg)))
  /\ (forall username password,
        str_truthy (ADMIN_USER cfg) = true \/ str_truthy (ADMIN_PASS cfg) = true ->
        ADMIN_USER cfg = None \/ ADMIN_PASS cfg = None ->
        authorization req = Some (Some username, Some password) ->
        auth_ok cfg req = false)
  /\ (csrf_ok req = true
      <-> exists token,
            token <> "" /\ isascii token = true
            /\ session_csrf req = Some token
            /\ provided_csrf req = Some token)
  /\ (check_csrf req = TypeError
      <-> exists expected provided,
            session_csrf req = Some expected
            /\ provided_csrf req = Some provided
            /\ expected <> "" /\ provided <> ""
            /\ (isascii expected = false \/ isascii provided = false)).
Proof.
  assert (Hset : str_truthy (ADMIN_USER cfg) = true
                 \/ str_truthy (ADMIN_PASS cfg) = true ->
                 (auth_ok cfg req = true
                  <-> authorization req = Some (ADMIN_USER cfg, ADMIN_PASS cfg))).
  { intros Hone. unfold auth_ok.
    assert (E : (negb (str_truthy (ADMIN_USER cfg))
                 && negb (str_truthy (ADMIN_PASS cfg)))%bool = false).
    { destruct Hone as [H | H]; rewrite H; cbn;
        [reflexivity | apply andb_false_r]. }
    rewrite E. destruct (authorization req) as [[un pw]|].
    - rewrite andb_true_iff, !opt_str_eqb_eq. split.
      + intros [-> ->]. reflexivity.
      + intros H. injection H as -> ->. auto.
    - split; discriminate. }
  split; [|split; [exact Hset|split; [|split]]].
  - intros Hu Hp. unfold auth_ok. rewrite Hu, Hp. reflexivity.
  - intros username password Hone Hunset Hbasic.
    destruct (Hset Hone) as [Hfwd _]. clear Hset.
    destruct (auth_ok cfg req); [|reflexivity].
    specialize (Hfwd eq_refl). rewrite Hbasic in Hfwd.
    injection Hfwd as Eu Ep.
    destruct Hunset as [H | H]; rewrite H in *; discriminate.
  - unfold csrf_ok, check_csrf. split.
    + destruct (session_csrf req) as [a|]; [|discriminate]. cbn [str_truthy].
      destruct (String.eqb a "") eqn:Ea; [discriminate|]. cbn [negb].
      destruct (provided_csrf req) as [b|]; [|discriminate]. cbn [str_truthy].
      destruct (String.eqb b ""); [discriminate|]. cbn [negb].
      destruct (compare_digest a b) as [[|]|] eqn:Ec; try discriminate.
      intros _. apply compare_digest_true in Ec. destruct Ec as [<- Hascii].
      apply String.eqb_neq in Ea. exists a. auto.
    + intros (token & Hne & Hascii & -> & ->). cbn [str_truthy].
      apply String.eqb_neq in Hne. rewrite Hne. cbn [negb].
      rewrite (proj2 (compare_digest_true token token) (conj eq_refl Hascii)).
      reflexivity.
  - unfold check_csrf. split.
    + destruct (session_csrf req) as [a|]; [|discriminate]. cbn [str_truthy].
      destruct (String.eqb a "") eqn:Ea; [discriminate|]. cbn [negb].
      destruct (provided_csrf req) as [b|]; [|discriminate]. cbn [str_truthy].
      destruct (String.eqb b "") eqn:Eb; [discriminate|]. cbn [negb].
      destruct (compare_digest a b) as [[|]|] eqn:Ec; try discriminate.
      intros _. apply compare_digest_raises in Ec.
      apply String.eqb_neq in Ea, Eb. exists a, b. auto 6.
    + intros (a & b & -> & -> & Ha & Hb & Hnon). cbn [str_truthy].
      apply String.eqb_neq in Ha, Hb. rewrite Ha, Hb. cbn [negb].
      rewrite (proj2 (compare_digest_raises a b) Hnon). reflexivity.
Qed.

Lemma admin_guards_witness :
  auth_ok user_only_cfg (with_authorization (Some (Some "admin", None))
                           (admin_request "server1")) = true
  /\ auth_ok user_only_cfg
       (with_authorization (Some (Some "admin", Some ""))
          (admin_request "server1")) = false.
Proof.
  split.
  - apply (proj1 (proj2 (admin_guards user_only_cfg
                           (with_authorization (Some (Some "admin", None))
                              (admin_request "server1"))))).
    + left. reflexivity.
    + reflexivity.
  - apply (proj1 (proj2 (proj2 (admin_guards user_only_cfg
                                  (with_authorization
                                     (Some (Some "admin", Some ""))
                                     (admin_request "server1")))))
             "admin" "").
    + left. reflexivity.
    + right. reflexivity.
    + reflexivity.
Defined.

(** ** Decisions that do not switch *)

Lemma publish_cached_issued (py : PyRuntime) (env : Env) (new_ip : string)
  (w : World) :
  let r := publish_cached py env new_ip w in
  put_requests (snd r)
  = (put_requests w
     ++ issued env
          (expected_puts new_ip (ttl (app_state w)) (cached_records w)))%list
  /\ cached_records (snd r) = cached_records w
  /\ telegram (snd r) = telegram w.
Proof.
  cbn zeta. unfold publish_cached. run.
  destruct (cached_records w) as [|item rest] eqn:Ec.
  - cbn. rewrite app_nil_r. auto.
  - rewrite <- Ec.
    rewrite (put_records_general env new_ip (cached_records w) w). cbn zeta.
    destruct (existsb (put_raises env)
                (expected_puts new_ip (ttl (app_state w)) (cached_records w)));
      unfold commit_switch; run; cbn; auto.
Qed.

(** Whatever the outcome of [update_dns], the requests it has sent are the
    intended ones for the cache it ends with, up to and including the first
    on which the transport raises, and nothing went to Telegram. *)
Lemma update_dns_issued (cfg : Config) (py : PyRuntime) (env : Env)
  (new_ip : string) (w : World) :
  let r := update_dns cfg py env new_ip w in
  put_requests (snd r)
  = (put_requests w
     ++ issued env
          (expected_puts new_ip (ttl (app_state w)) (cached_records (snd r))))%list
  /\ telegram (snd r) = telegram w.
Proof.
  cbn zeta. rewrite update_dns_unfold.
  destruct (cached_records w) as [|item rest] eqn:Ec.
  - destruct (load_pages cfg (cf_get env) (max_pages env) 1 []) as [found| |].
    + match goal with
      | |- context [publish_cached py env new_ip ?w1] =>
          destruct (publish_cached_issued py env new_ip w1) as (Hp & Hc & Ht)
      end.
      rewrite Hp, Hc, Ht. cbn. auto.
    + cbn. rewrite Ec. cbn. rewrite app_nil_r. auto.
    + cbn. rewrite Ec. cbn. rewrite app_nil_r. auto.
  - destruct (publish_cached_issued py env new_ip w) as (Hp & Hc & Ht).
    rewrite Hp, Hc, Ht, Ec. auto.
Qed.

(** The decisions that do not announce a switch.  A decision held by
    freeze or cooldown adds its log line and nothing else: in particular it
    does not save the state.  A decision that finds no change saves the
    state with the streaks it has just updated; it sends nothing to the
    registrar or to Telegram and leaves the cache and the published address
    alone.  A decision that does not come back (the synchroniser raised, or
    the listing of the records never ended) was on its way to a switch: it
    has logged no decision and announced nothing, the published address,
    the stamp and the state file are as before and the streaks are updated
    in memory only, but the requests up to the failing one have gone to the
    registrar.  A switch is announced only for the desired target, when it
    differs from the published one and the synchroniser returned. *)
Theorem decisions_without_switch (cfg : Config) (py : PyRuntime) (env : Env)
  (source : string) (w : World) :
  let r := decide_failover cfg py env source w in
  let desired := desired_ip cfg (update_streaks (app_state w)) in
  match fst r with
  | Returned (MsgFrozen s1 s2 cur) =>
      snd r = with_log (log w ++ [LogDecision (MsgFrozen s1 s2 cur)]) w
  | Returned (MsgCooldown cur) =>
      snd r = with_log (log w ++ [LogDecision (MsgCooldown cur)]) w
  | Returned (MsgNoChange s1 s2 cur) =>
      app_state (snd r) = update_streaks (app_state w)
      /\ state_file (snd r) = save (update_streaks (app_state w))
      /\ current_dns (app_state (snd r)) = current_dns (app_state w)
      /\ put_requests (snd r) = put_requests w
      /\ telegram (snd r) = telegram w
      /\ cached_records (snd r) = cached_records w
  | Returned (MsgSwitched d src s1 s2) =>
      d = desired /\ src = source
      /\ desired <> current_dns (app_state w)
      /\ fst (update_dns cfg py env desired (streaked w)) = Returned tt
  | Raised | Hung =>
      desired <> current_dns (app_state w)
      /\ fst (update_dns cfg py env desired (streaked w)) <> Returned tt
      /\ snd r = snd (update_dns cfg py env desired (streaked w))
      /\ app_state (snd r) = update_streaks (app_state w)
      /\ state_file (snd r) = state_file w
      /\ telegram (snd r) = telegram w
      /\ put_requests (snd r)
         = (put_requests w
            ++ issued env
                 (expected_puts desired (ttl (app_state w))
                    (cached_records (snd r))))%list
  end.
Proof.
  cbn zeta.
  destruct (freeze (app_state w)) eqn:Hf.
  { rewrite decide_failover_frozen by exact Hf. reflexivity. }
  destruct (_cooldown_ok py (now_decide env) (app_state w)
              (last_switch_at (app_state w))) eqn:Hc.
  2:{ rewrite decide_failover_cooldown by assumption. reflexivity. }
  destruct (String.eqb (desired_ip cfg (update_streaks (app_state w)))
              (current_dns (app_state w))) eqn:Hd.
  - apply String.eqb_eq in Hd.
    rewrite decide_failover_unchanged by assumption. cbn. repeat split.
  - apply String.eqb_neq in Hd.
    rewrite decide_failover_changed by assumption.
    set (desired := desired_ip cfg (update_streaks (app_state w))) in *.
    pose proof (update_dns_state cfg py env desired (streaked w)) as Hs.
    pose proof (update_dns_issued cfg py env desired (streaked w)) as Hi.
    cbn zeta in Hs, Hi. unfold switch_to.
    destruct (update_dns cfg py env desired (streaked w)) as [[[]| |] w1] eqn:E;
      cbn [fst snd] in *.
    + rewrite (bind_returned _ _ _ _ _ E). run.
      telegram_cases cfg; cbn [fst]; auto.
    + rewrite (bind_raised _ _ _ _ E). cbn [fst snd].
      destruct Hs as [[Hs Hfile] | [Hs _]]; [|discriminate].
      destruct Hi as [Hp Ht]. cbn in *.
      repeat split; try assumption; discriminate.
    + rewrite (bind_hung _ _ _ _ E). cbn [fst snd].
      destruct Hs as [[Hs Hfile] | [Hs _]]; [|discriminate].
      destruct Hi as [Hp Ht]. cbn in *.
      repeat split; try assumption; discriminate.
Qed.

Lemma decisions_without_switch_witness :
  let w := example_world frozen_failed_state three_records in
  let w0 := with_app_state (set_freeze false frozen_failed_state) w in
  let r := decide_failover example_cfg example_py (broken_env 7) "auto" w0 in
  fst r = Raised
  /\ current_dns (app_state (snd r)) = "1.2.3.4"
  /\ state_file (snd r) = NoFile
  /\ telegram (snd r) = []
  /\ map (fun req => p_name (snd req)) (put_requests (snd r))
     = ["a.example"; "b.example"].
Proof.
  cbn zeta.
  pose proof (decisions_without_switch example_cfg example_py (broken_env 7)
                "auto"
                (with_app_state (set_freeze false frozen_failed_state)
                   (example_world frozen_failed_state three_records))) as H.
  cbn zeta in H.
  assert (E : fst (decide_failover example_cfg example_py (broken_env 7) "auto"
                     (with_app_state (set_freeze false frozen_failed_state)
                        (example_world frozen_failed_state three_records)))
              = Raised) by reflexivity.
  rewrite E in H. destruct H as (_ & _ & _ & Hs & Hf & Ht & Hp).
  split; [exact E|]. split; [rewrite Hs; reflexivity|].
  split; [exact Hf|]. split; [exact Ht|].
  rewrite Hp. reflexivity.
Defined.

(** A heartbeat that arrives while decisions are held by freeze or
    cooldown sets its flag in memory only: the state file is not written,
    so a state file that was up to date still holds the state of before the
    heartbeat, and that is the state a restart would load. *)
Theorem held_heartbeat_is_not_saved (cfg : Config) (py : PyRuntime)
  (env : Env) (req : WebhookRequest) (j : Json) (token : string) (w : World) :
  webhook_secret_ok (x_webhook_secret req) (app_state w) = true ->
  body req = Decoded j ->
  gated py (now_decide env) (app_state w) = true ->
  state_file w = save (app_state w) ->
  let is_up := _parse_status py (json_or_empty j) in
  let w1 := snd (webhook_server1 cfg py env req w) in
  let w2 := snd (webhook_server2 cfg py env req w) in
  (app_state w1 = set_server1_up is_up (app_state w)
   /\ state_file w1 = state_file w
   /\ load cfg (state_file w1) token = Some (app_state w))
  /\ (app_state w2 = set_server2_up is_up (app_state w)
      /\ state_file w2 = state_file w
      /\ load cfg (state_file w2) token = Some (app_state w)).
Proof.
  intros Hs Hb Hg Hfile. cbn zeta.
  assert (Hsec : str_truthy (webhook_secret (app_state w)) = true).
  { apply webhook_secret_ok_spec in Hs.
    destruct Hs as (sec & _ & Hsec & Hne & _).
    rewrite Hsec. cbn. apply String.eqb_neq in Hne. rewrite Hne. reflexivity. }
  assert (Hload : load cfg (state_file w) token = Some (app_state w)).
  { rewrite Hfile, load_saved, Hsec. reflexivity. }
  rewrite (webhook_server1_accepted cfg py env req j w Hs Hb).
  rewrite (webhook_server2_accepted cfg py env req j w Hs Hb).
  cbn zeta. set (is_up := _parse_status py (json_or_empty j)).
  unfold gated in Hg. apply orb_true_iff in Hg.
  destruct (freeze (app_state w)) eqn:Hf.
  - rewrite (bind_returned _ _ _ _ _
               (decide_failover_frozen cfg py env "webhook:s1"
                  (reported1 is_up w) Hf)).
    rewrite (bind_returned _ _ _ _ _
               (decide_failover_frozen cfg py env "webhook:s2"
                  (reported2 is_up w) Hf)).
    cbn. auto.
  - destruct Hg as [Hg | Hg]; [discriminate|]. apply negb_true_iff in Hg.
    rewrite (bind_returned _ _ _ _ _
               (decide_failover_cooldown cfg py env "webhook:s1"
                  (reported1 is_up w) Hf Hg)).
    rewrite (bind_returned _ _ _ _ _
               (decide_failover_cooldown cfg py env "webhook:s2"
                  (reported2 is_up w) Hf Hg)).
    cbn. auto.
Qed.

Lemma held_heartbeat_is_not_saved_witness :
  let w := with_state_file (save frozen_cooling_state)
             (example_world frozen_cooling_state three_records) in
  let w1 := snd (webhook_server1 example_cfg example_py (example_env 5)
                   (heartbeat "tok" (JInt 0)) w) in
  server1_up (app_state w1) = false
  /\ load example_cfg (state_file w1) "fresh" = Some frozen_cooling_state.
Proof.
  cbn zeta.
  destruct (held_heartbeat_is_not_saved example_cfg example_py (example_env 5)
              (heartbeat "tok" (JInt 0))
              (JObj [("heartbeat", JObj [("status", JInt 0)])]) "fresh"
              (with_state_file (save frozen_cooling_state)
                 (example_world frozen_cooling_state three_records))
              eq_refl eq_refl eq_refl eq_refl)
    as ((Hs & _ & Hl) & _).
  split; [rewrite Hs; reflexivity | exact Hl].
Defined.

(** ** The manual switch and the decisions that follow *)

Lemma api_switch_server1 (cfg : Config) (py : PyRuntime) (env : Env)
  (req : AdminRequest) (w : World) :
  auth_ok cfg req = true -> csrf_ok req = true ->
  lower (form_target req) = "server1" ->
  api_switch cfg py env req w
  = (update_dns cfg py env (SERVER1_IP cfg);;;
     logger (LogManualSwitch (SERVER1_IP cfg) "server1");;;
     ret HxRefresh) w.
Proof.
  intros Ha Hc Ht. unfold api_switch. rewrite Ha, (csrf_passed _ Hc), Ht. reflexivity.
Qed.

Lemma desired_ip_plain (cfg : Config) (s : ServiceState) :
  up_threshold s <= 1 ->
  desired_ip cfg s
  = if server1_up s then SERVER1_IP cfg
    else if server2_up s then SERVER2_IP cfg
    else current_dns s.
Proof.
  intros H. unfold desired_ip, choose_s1, choose_s2.
  apply Z.leb_le in H. rewrite H. cbn.
  destruct (server1_up s), (server2_up s); reflexivity.
Qed.

(** The manual switch is not sticky.  After a switch to target 1 while
    target 1 is flagged down and target 2 up (threshold at most 1, no
    freeze, no cooldown), the next decision, whatever triggers it, moves DNS
    to target 2 again. *)
Theorem manual_switch_is_not_sticky (cfg : Config) (py : PyRuntime)
  (e1 e2 : Env) (source : string) (req : AdminRequest) (w : World) :
  auth_ok cfg req = true -> csrf_ok req = true ->
  lower (form_target req) = "server1" ->
  cached_records w <> [] -> answers e1 -> answers e2 ->
  SERVER1_IP cfg <> SERVER2_IP cfg ->
  freeze (app_state w) = false -> cooldown_seconds (app_state w) = 0 ->
  server1_up (app_state w) = false -> server2_up (app_state w) = true ->
  up_threshold (app_state w) <= 1 ->
  let w1 := snd (api_switch cfg py e1 req w) in
  let r := decide_failover cfg py e2 source w1 in
  current_dns (app_state w1) = SERVER1_IP cfg
  /\ fst r = Returned (MsgSwitched (SERVER2_IP cfg) source false true)
  /\ current_dns (app_state (snd r)) = SERVER2_IP cfg.
Proof.
  intros Ha Hc Ht Hcache H1 H2 Hips Hf Hcool Hs1 Hs2 Hthr. cbn zeta.
  rewrite (api_switch_server1 cfg py e1 req w Ha Hc Ht).
  rewrite (bind_returned _ _ _ _ _
             (update_dns_cached cfg py e1 (SERVER1_IP cfg) w Hcache H1)).
  run. cbn [snd].
  match goal with
  | |- context [decide_failover cfg py e2 source ?w1] => set (w1' := w1)
  end.
  assert (Hst : app_state w1'
                = set_published (SERVER1_IP cfg) (utc_iso py (now_publish e1))
                    (app_state w)) by reflexivity.
  assert (Hc1 : cached_records w1' = cached_records w) by reflexivity.
  split; [rewrite Hst; reflexivity|].
  assert (Hd : desired_ip cfg (update_streaks (app_state w1')) = SERVER2_IP cfg).
  { rewrite desired_ip_plain; rewrite Hst; cbn;
      [rewrite Hs1, Hs2; reflexivity | exact Hthr]. }
  assert (Hchg : desired_ip cfg (update_streaks (app_state w1'))
                 <> current_dns (app_state w1')).
  { rewrite Hd, Hst. cbn. congruence. }
  rewrite (decide_failover_changed cfg py e2 source w1').
  - rewrite Hd.
    destruct (switch_to_cached cfg py e2 (SERVER2_IP cfg) source (streaked w1'))
      as (R1 & R2 & _); [exact Hcache | exact H2 |].
    rewrite R1, R2. subst w1'. cbn. rewrite Hs1, Hs2. split; reflexivity.
  - rewrite Hst. exact Hf.
  - apply cooldown_off. rewrite Hst. exact Hcool.
  - exact Hchg.
Qed.

Lemma manual_switch_is_not_sticky_witness :
  let w := example_world cooling_failed_state three_records in
  let w0 := with_app_state (set_tuning 60 0 1 1 cooling_failed_state) w in
  let w1 := snd (api_switch example_cfg example_py (example_env 1)
                   (admin_request "SERVER1") w0) in
  let r := decide_failover example_cfg example_py (example_env 2)
             "webhook:s2" w1 in
  current_dns (app_state w1) = "1.2.3.4"
  /\ fst r = Returned (MsgSwitched "5.6.7.8" "webhook:s2" false true)
  /\ current_dns (app_state (snd r)) = "5.6.7.8".
Proof.
  refine (manual_switch_is_not_sticky example_cfg example_py (example_env 1)
            (example_env 2) "webhook:s2" (admin_request "SERVER1")
            (with_app_state (set_tuning 60 0 1 1 cooling_failed_state)
               (example_world cooling_failed_state three_records))
            eq_refl eq_refl eq_refl _ (example_env_answers 1)
            (example_env_answers 2) _ eq_refl eq_refl eq_refl eq_refl _);
    cbn; discriminate.
Defined.

(** A published address stands for the cooldown.  After [update_dns] has
    committed an address at time [t], as a decision or the manual switch
    makes it do, every decision taken less than [cooldown_seconds] after [t]
    in a state that is not frozen is the cooldown hold, whatever the health
    flags say.  The stamp [update_dns] writes must read back as [t], as
    [isoformat] and [fromisoformat] ensure. *)
Theorem published_address_stands_for_cooldown (cfg : Config) (py : PyRuntime)
  (e1 e2 : Env) (new_ip source : string) (w : World) :
  cached_records w <> [] -> answers e1 ->
  utc_iso py (now_publish e1) <> "" ->
  parse_iso py (utc_iso py (now_publish e1)) = Some (now_publish e1) ->
  freeze (app_state w) = false ->
  0 < cooldown_seconds (app_state w) ->
  now_decide e2 - now_publish e1 < cooldown_seconds (app_state w) * 1000000 ->
  let w1 := snd (update_dns cfg py e1 new_ip w) in
  current_dns (app_state w1) = new_ip
  /\ decide_failover cfg py e2 source w1
     = (Returned (MsgCooldown new_ip),
        with_log (log w1 ++ [LogDecision (MsgCooldown new_ip)]) w1).
Proof.
  intros Hcache Hans Hne Hparse Hf Hpos Hlt. cbn zeta.
  rewrite (update_dns_cached cfg py e1 new_ip w Hcache Hans). cbn [snd].
  split; [reflexivity|].
  apply decide_failover_cooldown; [exact Hf|].
  cbn [app_state with_state_file with_app_state].
  unfold _cooldown_ok. cbn [cooldown_seconds last_switch_at set_published
    str_truthy].
  assert (E : (cooldown_seconds (app_state w) =? 0) = false)
    by (apply Z.eqb_neq; lia).
  rewrite E. apply String.eqb_neq in Hne. rewrite Hne. cbn [negb orb].
  rewrite Hparse. rewrite Z.geb_leb. apply Z.leb_gt. exact Hlt.
Qed.

Lemma published_address_stands_for_cooldown_witness :
  let w := example_world cooling_failed_state three_records in
  let w1 := snd (update_dns example_cfg example_py (example_env 1000)
                   "1.2.3.4" w) in
  decide_failover example_cfg example_py (example_env 2000) "webhook:s1" w1
  = (Returned (MsgCooldown "1.2.3.4"),
     with_log (log w1 ++ [LogDecision (MsgCooldown "1.2.3.4")]) w1).
Proof.
  refine (proj2 (published_address_stands_for_cooldown example_cfg example_py
                   (example_env 1000) (example_env 2000) "1.2.3.4" "webhook:s1"
                   (example_world cooling_failed_state three_records)
                   _ (example_env_answers 1000) _ eq_refl eq_refl eq_refl
                   eq_refl)); discriminate.
Defined.

(** ** [down_threshold] *)

Lemma publish_cached_shifted (py : PyRuntime) (env : Env) (new_ip : string)
  (d : Z) (f : FileContent) (w : World) :
  exists f',
    publish_cached py env new_ip (shifted d f w)
    = (fst (publish_cached py env new_ip w),
       shifted d f' (snd (publish_cached py env new_ip w))).
Proof.
  unfold publish_cached. run.
  change (cached_records (shifted d f w)) with (cached_records w).
  destruct (cached_records w) as [|item rest].
  - exists f. reflexivity.
  - rewrite !put_records_general. cbn zeta.
    change (ttl (app_state (shifted d f w))) with (ttl (app_state w)).
    destruct (existsb (put_raises env)
                (expected_puts new_ip (ttl (app_state w)) (item :: rest))).
    + exists f. reflexivity.
    + unfold commit_switch. run. eexists. reflexivity.
Qed.

Lemma update_dns_shifted (cfg : Config) (py : PyRuntime) (env : Env)
  (new_ip : string) (d : Z) (f : FileContent) (w : World) :
  exists f',
    update_dns cfg py env new_ip (shifted d f w)
    = (fst (update_dns cfg py env new_ip w),
       shifted d f' (snd (update_dns cfg py env new_ip w))).
Proof.
  rewrite !update_dns_unfold.
  change (cached_records (shifted d f w)) with (cached_records w).
  destruct (cached_records w) as [|item rest].
  - destruct (load_pages cfg (cf_get env) (max_pages env) 1 []) as [found| |].
    + apply (publish_cached_shifted py env new_ip d f
               (with_log (log w ++ [LogCached (dict_keys found)])
                  (with_cached_records found w))).
    + exists f. reflexivity.
    + exists f. reflexivity.
  - apply publish_cached_shifted.
Qed.

Lemma switch_to_shifted (cfg : Config) (py : PyRuntime) (env : Env)
  (desired source : string) (d : Z) (f : FileContent) (w : World) :
  exists f',
    switch_to cfg py env desired source (shifted d f w)
    = (fst (switch_to cfg py env desired source w),
       shifted d f' (snd (switch_to cfg py env desired source w))).
Proof.
  unfold switch_to.
  destruct (update_dns_shifted cfg py env desired d f w) as (f' & Hsh).
  destruct (update_dns cfg py env desired w) as [r0 w1] eqn:E0.
  cbn [fst snd] in Hsh. destruct r0 as [[]| |].
  - rewrite (bind_returned _ _ _ _ _ Hsh), (bind_returned _ _ _ _ _ E0).
    run. telegram_cases cfg; exists f'; reflexivity.
  - rewrite (bind_raised _ _ _ _ Hsh), (bind_raised _ _ _ _ E0).
    exists f'. reflexivity.
  - rewrite (bind_hung _ _ _ _ Hsh), (bind_hung _ _ _ _ E0).
    exists f'. reflexivity.
Qed.

Lemma decide_failover_shifted (cfg : Config) (py : PyRuntime) (env : Env)
  (source : string) (d : Z) (f : FileContent) (w : World) :
  exists f',
    decide_failover cfg py env source (shifted d f w)
    = (fst (decide_failover cfg py env source w),
       shifted d f' (snd (decide_failover cfg py env source w))).
Proof.
  destruct (freeze (app_state w)) eqn:Hf.
  { rewrite (decide_failover_frozen cfg py env source (shifted d f w) Hf).
    rewrite (decide_failover_frozen cfg py env source w Hf).
    exists f. reflexivity. }
  destruct (_cooldown_ok py (now_decide env) (app_state w)
              (last_switch_at (app_state w))) eqn:Hc.
  2:{ rewrite (decide_failover_cooldown cfg py env source (shifted d f w) Hf Hc).
      rewrite (decide_failover_cooldown cfg py env source w Hf Hc).
      exists f. reflexivity. }
  destruct (String.eqb (desired_ip cfg (update_streaks (app_state w)))
              (current_dns (app_state w))) eqn:Hd.
  - apply String.eqb_eq in Hd.
    rewrite (decide_failover_unchanged cfg py env source (shifted d f w) Hf Hc Hd).
    rewrite (decide_failover_unchanged cfg py env source w Hf Hc Hd).
    eexists. reflexivity.
  - apply String.eqb_neq in Hd.
    rewrite (decide_failover_changed cfg py env source (shifted d f w) Hf Hc Hd).
    rewrite (decide_failover_changed cfg py env source w Hf Hc Hd).
    apply (switch_to_shifted cfg py env
             (desired_ip cfg (update_streaks (app_state w))) source d f
             (streaked w)).
Qed.

(** [down_threshold] is stored, shown and saved, and never consulted: a
    decision in a world that differs only in [down_threshold] returns the
    same message, sends the same requests to the registrar and to Telegram,
    writes the same log and leaves the same state and cache, but for the
    [down_threshold] the state carries along. *)
Theorem down_threshold_is_never_consulted (cfg : Config) (py : PyRuntime)
  (env : Env) (source : string) (d : Z) (w : World) :
  let w' := with_app_state (set_down_threshold d (app_state w)) w in
  let r := decide_failover cfg py env source w in
  let r' := decide_failover cfg py env source w' in
  fst r' = fst r
  /\ app_state (snd r') = set_down_threshold d (app_state (snd r))
  /\ cached_records (snd r') = cached_records (snd r)
  /\ put_requests (snd r') = put_requests (snd r)
  /\ telegram (snd r') = telegram (snd r)
  /\ log (snd r') = log (snd r).
Proof.
  cbn zeta.
  destruct (decide_failover_shifted cfg py env source d (state_file w) w)
    as (f' & H).
  replace (with_app_state (set_down_threshold d (app_state w)) w)
    with (shifted d (state_file w) w) by (destruct w; reflexivity).
  rewrite H. cbn. repeat split.
Qed.

(** ** The first version of the service *)

(** With a threshold of at most 1 the decision rule of the present script
    is the rule of the first one: target 1 if it is up, else target 2 if it
    is up, else the published address. *)
Theorem legacy_rule_is_threshold_one (cfg : Config) (s : ServiceState) :
  up_threshold s <= 1 ->
  desired_ip cfg s = Legacy.new_ip cfg (legacy_view s).
Proof. intros H. rewrite (desired_ip_plain cfg s H). reflexivity. Qed.

Lemma legacy_rule_is_threshold_one_witness :
  desired_ip example_cfg cooling_failed_state
  = Legacy.new_ip example_cfg (legacy_view cooling_failed_state).
Proof.
  apply (legacy_rule_is_threshold_one example_cfg cooling_failed_state).
  cbn. lia.
Defined.

(** The two scripts use the same state file path and cannot read each
    other's file.  The present script finds keys in the file of the first
    that are no fields of its state and starts from its defaults with a fresh
    secret, forgetting the flags and the published address; the first script
    does not find its keys in the file of the present one and dies at import
    with a [KeyError].  Each reads back its own. *)
Theorem state_files_are_not_interchangeable (cfg : Config)
  (s : ServiceState) (old : Legacy.State) (token : string) :
  load cfg (JsonDoc (Legacy.state_json old)) token = Some (fresh_state cfg token)
  /\ Legacy.load_state cfg (save s) = Legacy.Crashed
  /\ Legacy.load_state cfg (JsonDoc (Legacy.state_json old)) = Legacy.Booted old
  /\ load cfg (save s) token
     = Some (if str_truthy (webhook_secret s) then s
             else set_webhook_secret (Some token) s).
Proof.
  split; [reflexivity|]. split; [reflexivity|].
  split; [destruct old; reflexivity | apply load_saved].
Qed.

Lemma legacy_put_records_state (env : Env) (ip : string)
  (records : list DnsRecord) :
  forall w,
    Legacy.state (snd (Legacy.put_records env ip records w)) = Legacy.state w
    /\ Legacy.state_file (snd (Legacy.put_records env ip records w))
       = Legacy.state_file w.
Proof.
  induction records as [|record rest IH]; intros w; cbn; [auto|].
  unfold Legacy.put_record.
  destruct (r_id record) as [rid|]; [|cbn; auto].
  destruct (r_type record) as [ty|]; [|cbn; auto].
  destruct (r_proxied record) as [px|]; [|cbn; auto].
  destruct (cf_put env rid _); cbn; auto;
    match goal with
    | |- context [Legacy.put_records env ip rest ?w1] =>
        destruct (IH w1) as [E1 E2]; rewrite E1, E2; cbn; auto
    end.
Qed.

Lemma legacy_decide_flags (cfg : Config) (env : Env) (w : Legacy.World) :
  let s' := Legacy.state (snd (Legacy.decide_failover cfg env w)) in
  Legacy.server1_status s' = Legacy.server1_status (Legacy.state w)
  /\ Legacy.server2_status s' = Legacy.server2_status (Legacy.state w).
Proof.
  cbn zeta. unfold Legacy.decide_failover.
  destruct (negb _); [|cbn; auto].
  unfold Legacy.update_dns.
  match goal with
  | |- context [Legacy.put_records env ?ip ?rs w] =>
      destruct (legacy_put_records_state env ip rs w) as [E _];
      destruct (Legacy.put_records env ip rs w) as [[[]| |] w1]
  end; cbn [snd] in *; cbn; rewrite ?E; auto.
Qed.

(** In the first script a body without a [heartbeat] member is an invalid
    payload for target 1 and a down report for target 2: [webhook_server1]
    answers 400 and changes no flag, no address, no file and no record,
    while [webhook_server2] reads the missing heartbeat as an empty one,
    flags target 2 down and does not answer 400. *)
Theorem legacy_missing_heartbeat (cfg : Config) (env : Env)
  (members : list (string * Json)) (w : Legacy.World) :
  dict_get "heartbeat" members = None ->
  let r1 := Legacy.webhook_server1 cfg env (Some (JObj members)) w in
  let r2 := Legacy.webhook_server2 cfg env (Some (JObj members)) w in
  (fst r1 = Legacy.InvalidHeartbeat400
   /\ Legacy.state (snd r1) = Legacy.state w
   /\ Legacy.state_file (snd r1) = Legacy.state_file w
   /\ Legacy.put_requests (snd r1) = Legacy.put_requests w)
  /\ (Legacy.server2_status (Legacy.state (snd r2)) = false
      /\ Legacy.server1_status (Legacy.state (snd r2))
         = Legacy.server1_status (Legacy.state w)
      /\ fst r2 <> Legacy.InvalidHeartbeat400).
Proof.
  intros Hnone. cbn zeta.
  unfold Legacy.webhook_server1, Legacy.webhook_server2. rewrite Hnone.
  split; [cbn; auto|].
  cbn [dict_get Legacy.equals_one].
  match goal with
  | |- context [Legacy.decide_failover cfg env ?w2] =>
      pose proof (legacy_decide_flags cfg env w2) as Hf;
      destruct (Legacy.decide_failover cfg env w2) as [[[]| |] w3]
  end; cbn zeta in Hf; cbn [snd fst] in *; destruct Hf as [F1 F2];
    cbn; rewrite ?F1, ?F2; cbn; repeat split; discriminate.
Qed.

Lemma legacy_missing_heartbeat_witness :
  let w := legacy_world {| Legacy.server1_status := false;
                           Legacy.server2_status := true;
                           Legacy.current_dns := "5.6.7.8" |}
             [example_record "a.example" "id-a"] in
  fst (Legacy.webhook_server1 example_cfg (example_env 1) (Some (JObj [])) w)
  = Legacy.InvalidHeartbeat400
  /\ Legacy.server2_status
       (Legacy.state
          (snd (Legacy.webhook_server2 example_cfg (example_env 1)
                  (Some (JObj [])) w))) = false.
Proof.
  cbn zeta.
  destruct (legacy_missing_heartbeat example_cfg (example_env 1) []
              (legacy_world {| Legacy.server1_status := false;
                               Legacy.server2_status := true;
                               Legacy.current_dns := "5.6.7.8" |}
                 [example_record "a.example" "id-a"]) eq_refl)
    as ((H1 & _) & (H2 & _)).
  split; [exact H1 | exact H2].
Defined.

(** The first script commits a switch it never made: with no record in its
    cache, a down report for target 1 while target 2 is up sends nothing to
    the registrar and still moves [current_dns] to target 2, saves that and
    announces the switch. *)
Theorem legacy_switches_without_records (cfg : Config) (env : Env)
  (hb : list (string * Json)) (members : list (string * Json))
  (w : Legacy.World) :
  Legacy.cached_records w = [] ->
  dict_get "heartbeat" members = Some (JObj hb) ->
  Legacy.equals_one (dict_get "status" hb) = false ->
  Legacy.server2_status (Legacy.state w) = true ->
  Legacy.current_dns (Legacy.state w) <> SERVER2_IP cfg ->
  let r := Legacy.webhook_server1 cfg env (Some (JObj members)) w in
  fst r = Legacy.Updated false true
  /\ Legacy.current_dns (Legacy.state (snd r)) = SERVER2_IP cfg
  /\ Legacy.put_requests (snd r) = Legacy.put_requests w
  /\ Legacy.state_file (snd r) = JsonDoc (Legacy.state_json (Legacy.state (snd r)))
  /\ Legacy.telegram (snd r)
     = (Legacy.telegram w ++ [Legacy.Switched (SERVER2_IP cfg) false true])%list.
Proof.
  intros Hc Hhb Hst H2 Hcur. cbn zeta.
  unfold Legacy.webhook_server1. rewrite Hhb, Hst.
  unfold Legacy.decide_failover, Legacy.new_ip. cbn [Legacy.state
    Legacy.with_state Legacy.log_event Legacy.server1_status
    Legacy.server2_status Legacy.current_dns].
  rewrite H2.
  assert (E : String.eqb (SERVER2_IP cfg) (Legacy.current_dns (Legacy.state w))
              = false).
  { apply String.eqb_neq. congruence. }
  rewrite E. cbn [negb]. unfold Legacy.update_dns.
  cbn [Legacy.cached_records Legacy.with_state Legacy.log_event].
  rewrite Hc. cbn. repeat split.
Qed.

Lemma legacy_switches_without_records_witness :
  let w := legacy_world {| Legacy.server1_status := true;
                           Legacy.server2_status := true;
                           Legacy.current_dns := "1.2.3.4" |} [] in
  let r := Legacy.webhook_server1 example_cfg (example_env 1)
             (Some (JObj [("heartbeat", JObj [("status", JInt 0)])])) w in
  fst r = Legacy.Updated false true
  /\ Legacy.current_dns (Legacy.state (snd r)) = "5.6.7.8"
  /\ Legacy.put_requests (snd r) = [].
Proof.
  cbn zeta.
  destruct (legacy_switches_without_records example_cfg (example_env 1)
              [("status", JInt 0)]
              [("heartbeat", JObj [("status", JInt 0)])]
              (legacy_world {| Legacy.server1_status := true;
                               Legacy.server2_status := true;
                               Legacy.current_dns := "1.2.3.4" |} [])
              eq_refl eq_refl eq_refl eq_refl ltac:(discriminate))
    as (H1 & H2 & H3 & _).
  split; [exact H1|]. split; [exact H2 | exact H3].
Defined.

(** ** State files that lack fields *)

Lemma dict_get_app {V : Type} (k : string) (a b : list (string * V)) :
  dict_get k (a ++ b)
  = match dict_get k a with Some v => Some v | None => dict_get k b end.
Proof.
  induction a as [|[k0 v0] a IH]; cbn; [reflexivity|].
  destruct (String.eqb k k0); [reflexivity | exact IH].
Qed.

(** [{**base, **data}]: the last value [data] has for a key, else the value
    of [base]. *)
Lemma dict_get_merge {V : Type} (k : string) (data : list (string * V)) :
  forall base,
    dict_get k (dict_merge base data)
    = match dict_get k (rev data) with
      | Some v => Some v
      | None => dict_get k base
      end.
Proof.
  unfold dict_merge.
  induction data as [|[k0 v0] data IH]; intros base; cbn; [reflexivity|].
  rewrite IH, dict_get_app, dict_get_set. cbn.
  destruct (dict_get k (rev data)); [reflexivity|].
  destruct (String.eqb k k0); reflexivity.
Qed.

Lemma dict_get_none_keys {V : Type} (k : string) (d : list (string * V)) :
  dict_get k d = None <-> ~ In k (dict_keys d).
Proof.
  induction d as [|[k0 v0] d IH]; cbn.
  - split; [intros _ [] | reflexivity].
  - destruct (String.eqb k k0) eqn:E.
    + apply String.eqb_eq in E. subst. split; [discriminate|].
      intros H. exfalso. apply H. left. reflexivity.
    + apply String.eqb_neq in E. rewrite IH. split.
      * intros H [H1 | H1]; [congruence | contradiction].
      * intros H H1. apply H. right. exact H1.
Qed.

Lemma dict_get_rev_none {V : Type} (k : string) (d : list (string * V)) :
  dict_get k d = None -> dict_get k (rev d) = None.
Proof.
  rewrite !dict_get_none_keys. unfold dict_keys. rewrite map_rev.
  intros H Hin. apply H. apply in_rev. exact Hin.
Qed.

Ltac field_step H d key :=
  let E := fresh "E" in
  let j := fresh "j" in
  destruct (dict_get key d) as [j|] eqn:E; [|discriminate H];
  destruct j; try discriminate H.

(** What the constructor read is what [asdict] gives back. *)
Lemma of_dict_asdict (d : list (string * Json)) (obj : ServiceState) :
  of_dict d = Some obj ->
  forall k, In k (dict_keys (asdict obj)) ->
    dict_get k (asdict obj) = dict_get k d.
Proof.
  intros H k Hk. unfold of_dict, field in H.
  field_step H d "server1_up". field_step H d "server2_up".
  field_step H d "current_dns". field_step H d "last_switch_at".
  all: field_step H d "freeze"; field_step H d "ttl";
    field_step H d "webhook_secret".
  all: field_step H d "down_threshold"; field_step H d "up_threshold";
    field_step H d "cooldown_seconds"; field_step H d "_s1_down_streak";
    field_step H d "_s1_up_streak"; field_step H d "_s2_down_streak";
    field_step H d "_s2_up_streak".
  all: cbn in H; injection H as <-; cbn in Hk;
    repeat (destruct Hk as [<- | Hk]; [cbn; congruence|]); destruct Hk.
Qed.

Lemma asdict_secret_only (v : option string) (s : ServiceState) (k : string) :
  k <> "webhook_secret" ->
  dict_get k (asdict (set_webhook_secret v s)) = dict_get k (asdict s).
Proof.
  intros Hk. apply String.eqb_neq in Hk. cbn. rewrite Hk. reflexivity.
Qed.

(** A state file may lack fields, as one written before a field existed
    does: [load] gives every field the file does not mention its default,
    and every field it mentions the value of the file.  (The secret apart,
    which is drawn afresh when the file has none.) *)
Theorem load_fills_in_defaults (cfg : Config) (data : list (string * Json))
  (token : string) (s : ServiceState) (k : string) :
  load cfg (JsonDoc (JObj data)) token = Some s ->
  k <> "webhook_secret" ->
  (dict_get k data = None ->
   dict_get k (asdict s) = dict_get k (asdict (defaults cfg)))
  /\ (forall v,
        NoDup (dict_keys data) ->
        (forall k', In k' (dict_keys data) ->
                    In k' (dict_keys (asdict (defaults cfg)))) ->
        dict_get k data = Some v ->
        dict_get k (asdict s) = Some v).
Proof.
  intros Hload Hk.
  assert (Hobj :
    forall obj, of_dict (dict_merge (asdict (defaults cfg)) data) = Some obj ->
    (s = obj \/ s = set_webhook_secret (Some token) obj) ->
    In k (dict_keys (asdict (defaults cfg))) ->
    dict_get k (asdict s)
    = match dict_get k (rev data) with
      | Some v => Some v
      | None => dict_get k (asdict (defaults cfg))
      end).
  { intros obj Hof Hs Hin. rewrite <- dict_get_merge.
    rewrite <- (of_dict_asdict _ obj Hof k Hin).
    destruct Hs as [-> | ->]; [reflexivity|].
    apply asdict_secret_only. exact Hk. }
  unfold load in Hload.
  destruct (forallb
              (fun k0 => existsb (String.eqb k0)
                           (dict_keys (asdict (defaults cfg))))
              (dict_keys data)) eqn:Hall.
  - destruct (of_dict (dict_merge (asdict (defaults cfg)) data)) as [obj|] eqn:Hof;
      [|discriminate].
    assert (Hs : s = obj \/ s = set_webhook_secret (Some token) obj).
    { destruct (str_truthy (webhook_secret obj));
        injection Hload as <-; auto. }
    split.
    + intros Hnone.
      destruct (in_dec string_dec k (dict_keys (asdict (defaults cfg))))
        as [Hin | Hnin].
      * rewrite (Hobj obj eq_refl Hs Hin), (dict_get_rev_none k data Hnone).
        reflexivity.
      * transitivity (@None Json).
        -- apply dict_get_none_keys. exact Hnin.
        -- symmetry. apply dict_get_none_keys. exact Hnin.
    + intros v Hnd Hfields Hsome.
      assert (Hin : In k (dict_keys (asdict (defaults cfg)))).
      { apply Hfields. destruct (in_dec string_dec k (dict_keys data)) as [H|H];
          [exact H|]. apply dict_get_none_keys in H. congruence. }
      rewrite (Hobj obj eq_refl Hs Hin).
      assert (Hrev : dict_get k (rev data) = Some v).
      { clear - Hnd Hsome. induction data as [|[k0 v0] data IH]; [discriminate|].
        cbn in Hsome, Hnd |- *. inversion Hnd as [|x xs Hnotin Hrest]; subst.
        rewrite dict_get_app. destruct (String.eqb k k0) eqn:E.
        - apply String.eqb_eq in E. subst k0. injection Hsome as ->.
          assert (Hn : dict_get k (rev data) = None).
          { apply dict_get_rev_none. apply dict_get_none_keys. exact Hnotin. }
          rewrite Hn. cbn. rewrite String.eqb_refl. reflexivity.
        - rewrite (IH Hrest Hsome). reflexivity. }
      rewrite Hrev. reflexivity.
  - injection Hload as <-. split.
    + intros _. apply (asdict_secret_only (Some token) (defaults cfg) k Hk).
    + intros v _ Hfields _. exfalso.
      assert (forallb
                (fun k0 => existsb (String.eqb k0)
                             (dict_keys (asdict (defaults cfg))))
                (dict_keys data) = true); [|congruence].
      apply forallb_forall. intros k' Hk'. apply existsb_exists.
      exists k'. split; [apply Hfields; exact Hk' | apply String.eqb_refl].
Qed.

Lemma load_fills_in_defaults_witness :
  let s := {| server1_up := true; server2_up := true;
              current_dns := "5.6.7.8"; last_switch_at := None;
              freeze := true; ttl := 60; webhook_secret := Some "tok";
              down_threshold := 1; up_threshold := 1; cooldown_seconds := 0;
              _s1_down_streak := 0; _s1_up_streak := 0;
              _s2_down_streak := 0; _s2_up_streak := 0 |} in
  load example_cfg
    (JsonDoc (JObj [("current_dns", JStr "5.6.7.8"); ("freeze", JBool true)]))
    "tok" = Some s
  /\ dict_get "ttl" (asdict s) = Some (JInt 60)
  /\ dict_get "freeze" (asdict s) = Some (JBool true).
Proof.
  cbn zeta. split; [reflexivity|]. split.
  - apply (proj1 (load_fills_in_defaults example_cfg
                    [("current_dns", JStr "5.6.7.8"); ("freeze", JBool true)]
                    "tok" _ "ttl" eq_refl ltac:(discriminate))).
    reflexivity.
  - apply (proj2 (load_fills_in_defaults example_cfg
                    [("current_dns", JStr "5.6.7.8"); ("freeze", JBool true)]
                    "tok" _ "freeze" eq_refl ltac:(discriminate))).
    + repeat constructor; cbn; intuition discriminate.
    + cbn. intuition.
    + reflexivity.
Defined.

(** ** The read-only routes *)

(** What the log route returns for a limit [n].  For [n > 0], the last [n]
    lines of the log, all of them when there are fewer.  For [n = 0], not an
    empty list but the whole log, because [lines[-0:]] is [lines[0:]].  For
    [n < 0], the log without its first [-n] lines.  When the log file cannot
    be read, nothing. *)
Theorem tail_log_edges (lines : list string) (n : Z) :
  tail_log None n = []
  /\ (0 < n ->
      tail_log (Some lines) n
      = map rstrip_newline
          (skipn (List.length lines - Z.to_nat n) lines)
      /\ List.length (tail_log (Some lines) n)
         = Nat.min (Z.to_nat n) (List.length lines))
  /\ (n = 0 -> tail_log (Some lines) n = map rstrip_newline lines)
  /\ (n < 0 ->
      tail_log (Some lines) n
      = map rstrip_newline (skipn (Z.to_nat (- n)) lines)).
Proof.
  unfold tail_log, slice_from_minus. split; [reflexivity|].
  split; [|split].
  - intros Hn.
    assert (E : (- n <? 0) = true) by (apply Z.ltb_lt; lia). rewrite E.
    assert (Hs : Z.to_nat (Z.max 0 (Z.of_nat (List.length lines) - n))
                 = (List.length lines - Z.to_nat n)%nat) by lia.
    rewrite Hs. split; [reflexivity|].
    rewrite length_map, length_skipn. lia.
  - intros ->. cbn. rewrite Z.min_l by lia. reflexivity.
  - intros Hn.
    assert (E : (- n <? 0) = false) by (apply Z.ltb_ge; lia). rewrite E.
    f_equal.
    destruct (Z_le_gt_dec (- n) (Z.of_nat (List.length lines))) as [Hle | Hgt].
    + rewrite Z.min_l by lia. reflexivity.
    + rewrite Z.min_r by lia. rewrite Nat2Z.id.
      rewrite skipn_all. symmetry. apply skipn_all2. lia.
Qed.

Lemma tail_log_edges_witness :
  tail_log (Some ["a" ++ String "010" ""; "b" ++ String "010" ""; "c"]) 0
  = ["a"; "b"; "c"]
  /\ List.length
       (tail_log (Some ["a" ++ String "010" ""; "b" ++ String "010" ""; "c"]) 2)
     = 2%nat.
Proof.
  pose proof (tail_log_edges
                ["a" ++ String "010" ""; "b" ++ String "010" ""; "c"] 0)
    as (_ & _ & Hzero & _).
  pose proof (tail_log_edges
                ["a" ++ String "010" ""; "b" ++ String "010" ""; "c"] 2)
    as (_ & Hpos & _).
  split.
  - rewrite (Hzero eq_refl). reflexivity.
  - rewrite (proj2 (Hpos eq_refl)). reflexivity.
Defined.

(** The status route gives away neither the webhook secret, nor the streak
    counters, nor the identifiers of the records at the registrar: its
    answer is the same in a world that has another non-empty secret, other
    streaks and other record identifiers. *)
Theorem api_status_hides_internals (cfg : Config) (req : AdminRequest)
  (w : World) (other : string) (d1 u1 d2 u2 : Z)
  (ids : string * DnsRecord -> option string) :
  str_truthy (webhook_secret (app_state w)) = true ->
  other <> "" ->
  api_status cfg req
    (with_cached_records
       (map (fun kv => (fst kv, with_r_id (ids kv) (snd kv))) (cached_records w))
       (with_app_state
          (set_streaks d1 u1 d2 u2
             (set_webhook_secret (Some other) (app_state w))) w))
  = api_status cfg req w.
Proof.
  intros Hsec Hother. unfold api_status, status_json.
  rewrite !to_public_eq.
  cbn [app_state cached_records with_cached_records with_app_state
       set_streaks set_webhook_secret server1_up server2_up current_dns
       last_switch_at freeze ttl webhook_secret down_threshold up_threshold
       cooldown_seconds str_truthy].
  rewrite Hsec. apply String.eqb_neq in Hother. rewrite Hother. cbn [negb].
  rewrite map_map. cbn [fst snd with_r_id r_type r_content r_ttl r_proxied].
  reflexivity.
Qed.

Lemma api_status_hides_internals_witness :
  let w := example_world (fresh_state example_cfg "tok") three_records in
  api_status example_cfg (admin_request "")
    (with_cached_records
       (map (fun kv => (fst kv, with_r_id None (snd kv))) (cached_records w))
       (with_app_state
          (set_streaks 1 2 3 4
             (set_webhook_secret (Some "other") (app_state w))) w))
  = api_status example_cfg (admin_request "") w.
Proof.
  apply (api_status_hides_internals example_cfg (admin_request "")
           (example_world (fresh_state example_cfg "tok") three_records)
           "other" 1 2 3 4 (fun _ => None)).
  - reflexivity.
  - discriminate.
Defined.
